(** * SDN-5G: slice-aware flow control and SLA evaluation

    A shallow embedding of the SLA evaluator of [slice_manager.py], of the
    switch-connect and stats-reply handlers of [controller.py] and of the
    flow-statistics collector of [monitoring/metrics_collector.py], with the
    properties of the design document stated over them.

    Python [float] is IEEE 754 binary64; it is modelled by [spec_float] at
    precision 53 and maximal exponent 1024, with the operations of
    [SpecFloat]; the values Python can hold are the canonical ones
    ([valid_binary]), and the statements below hold for every [spec_float].
    Python [int] is [Z].  Dictionaries with string keys are
    [gmap string _]; dictionaries whose iteration order decides the order of
    emitted messages are association lists. *)

From Stdlib Require Import ZArith Bool List Lia.
From Stdlib Require Import SpecFloat.
From stdpp Require Import gmap strings list fin_maps.

Local Open Scope string_scope.
Local Open Scope list_scope.
Local Open Scope Z_scope.

(** ** Python exceptions and outcomes *)

Inductive exn :=
| KeyError (key : string)
| ZeroDivisionError
| OverflowError
| ValueError
| OSError.

Inductive outcome (A : Type) :=
| Ok (a : A)
| Raise (e : exn).
Arguments Ok {A} a.
Arguments Raise {A} e.

Definition obind {A B} (x : outcome A) (k : A -> outcome B) : outcome B :=
  match x with
  | Ok a => k a
  | Raise e => Raise e
  end.

#[global] Instance outcome_ret : MRet outcome := @Ok.
#[global] Instance outcome_bind : MBind outcome :=
  fun A B k x => obind x k.

(** Stateful Python code: a method receives the object state and returns an
    outcome together with the state it leaves behind; what was mutated before
    an exception stays mutated. *)
Definition Py (S A : Type) : Type := S -> outcome A * S.

Definition py_ret {S A} (a : A) : Py S A := fun s => (Ok a, s).
Definition py_bind {S A B} (k : A -> Py S B) (c : Py S A) : Py S B :=
  fun s =>
    match c s with
    | (Ok a, s') => k a s'
    | (Raise e, s') => (Raise e, s')
    end.
Definition py_get {S} : Py S S := fun s => (Ok s, s).
Definition py_modify {S} (f : S -> S) : Py S unit := fun s => (Ok tt, f s).
Definition py_lift {S A} (x : outcome A) : Py S A := fun s => (x, s).

#[global] Instance Py_ret {S} : MRet (Py S) := @py_ret S.
#[global] Instance Py_bind {S} : MBind (Py S) := @py_bind S.

(** ** Python numbers *)

Module PyNum.

Definition prec : Z := 53.
Definition emax : Z := 1024.

Abbreviation float := spec_float.

(** The double nearest to the integer [z] (ties to even, infinite beyond the
    range), and the value of a decimal literal [n/d]: the double nearest to
    the quotient. *)
Definition of_Z (z : Z) : float := binary_normalize prec emax z 0 false.
Definition decimal (n d : Z) : float := SFdiv prec emax (of_Z n) (of_Z d).

Definition fzero : float := S754_zero false.

Definition is_infinity (f : float) : bool :=
  match f with S754_infinity _ => true | _ => false end.

(** Conversion of an [int] operand of a float operation: correctly rounded,
    [OverflowError] when the result does not fit a double. *)
Definition float_of_int (z : Z) : outcome float :=
  let f := of_Z z in
  if is_infinity f then Raise OverflowError else Ok f.

Inductive num :=
| Int (z : Z)
| Float (f : float).

(** Comparison of an [int] with a [float] is exact in Python. *)
Definition Z_compare_float (z : Z) (f : float) : option comparison :=
  match f with
  | S754_nan => None
  | S754_infinity s => Some (if s then Gt else Lt)
  | S754_zero _ => Some (z ?= 0)
  | S754_finite s m e =>
      let v := if s then Z.neg m else Z.pos m in
      if 0 <=? e then Some (z ?= v * 2 ^ e)
      else Some (z * 2 ^ (- e) ?= v)
  end.

Definition compare (a b : num) : option comparison :=
  match a, b with
  | Int x, Int y => Some (x ?= y)
  | Float x, Float y => SFcompare x y
  | Int x, Float y => Z_compare_float x y
  | Float x, Int y => option_map CompOpp (Z_compare_float y x)
  end.

Definition eqb (a b : num) : bool :=
  match compare a b with Some Eq => true | _ => false end.
Definition ltb (a b : num) : bool :=
  match compare a b with Some Lt => true | _ => false end.
Definition leb (a b : num) : bool :=
  match compare a b with Some (Lt | Eq) => true | _ => false end.
Definition gtb (a b : num) : bool := ltb b a.
Definition geb (a b : num) : bool := leb b a.

Definition to_float (a : num) : outcome float :=
  match a with
  | Float f => Ok f
  | Int z => float_of_int z
  end.

(** [a / b] with a float divisor: both operands are converted first, then a
    zero divisor raises. *)
Definition truediv (a : num) (b : float) : outcome num :=
  fa ← to_float a;
  if SFeqb b fzero then Raise ZeroDivisionError
  else Ok (Float (SFdiv prec emax fa b)).

(** [f * z] for a float and an [int] that converts exactly. *)
Definition fmul (f : float) (z : Z) : float := SFmul prec emax f (of_Z z).

(** [max(a, b)]: the first argument unless the second is greater. *)
Definition max (a b : num) : num := if gtb b a then b else a.

(** Nearest integer to [n/d] ([d > 0]), ties to even. *)
Definition rne_div (n d : Z) : Z :=
  let q := n / d in
  let r := n mod d in
  match 2 * r ?= d with
  | Lt => q
  | Gt => q + 1
  | Eq => if Z.even q then q else q + 1
  end.

(** [round(x, 3)] on a float: the exact value is rounded to a multiple of
    1/1000 (ties to even), and the double nearest to that decimal is
    returned; zeros, infinities and NaN round to themselves. *)
Definition round3_float (x : float) : float :=
  match x with
  | S754_finite s m e =>
      let n := if 0 <=? e then Z.pos m * 2 ^ e * 1000
               else rne_div (Z.pos m * 1000) (2 ^ (- e)) in
      match n with
      | Z.pos p => SFdiv prec emax (S754_finite s p 0) (S754_finite false 1000 0)
      | _ => S754_zero s
      end
  | _ => x
  end.

(** [round(x, 3)]: an [int] is returned unchanged. *)
Definition round3 (x : num) : num :=
  match x with
  | Int z => Int z
  | Float f => Float (round3_float f)
  end.

End PyNum.

Notation "a <# b" := (PyNum.ltb a b) (at level 70, no associativity).
Notation "a <=# b" := (PyNum.leb a b) (at level 70, no associativity).
Notation "a ># b" := (PyNum.gtb a b) (at level 70, no associativity).
Notation "a >=# b" := (PyNum.geb a b) (at level 70, no associativity).
Notation "a ==# b" := (PyNum.eqb a b) (at level 70, no associativity).
Abbreviation float := spec_float.
Abbreviation Int := PyNum.Int.
Abbreviation Float := PyNum.Float.
Abbreviation num := PyNum.num.

(** ** slice_manager.py *)

Module SliceManager.

Inductive SliceType := URLLC | EMBB | MMTC.

Inductive SLAStatus := COMPLIANT | VIOLATED | UNKNOWN.

Definition SLAStatus_value (s : SLAStatus) : string :=
  match s with
  | COMPLIANT => "compliant"
  | VIOLATED => "violated"
  | UNKNOWN => "unknown"
  end.

Record SLARequirements := {
  min_bandwidth_mbps : float;
  max_latency_ms : float;
  max_jitter_ms : float;
  max_packet_loss_pct : float
}.

Record SliceConfig := {
  name : string;
  slice_type : SliceType;
  port : Z;
  dscp : Z;
  sla : SLARequirements;
  priority : Z;
  description : string
}.

Record SLAViolation := {
  slice_name : string;
  violation_type : string;
  expected_value : float;
  actual_value : num;
  timestamp : string;
  severity : string
}.

(** [SliceManager.DEFAULT_SLAS] *)
Definition DEFAULT_SLAS (t : SliceType) : SLARequirements :=
  match t with
  | URLLC => {| min_bandwidth_mbps := PyNum.of_Z 5;
                max_latency_ms := PyNum.of_Z 5;
                max_jitter_ms := PyNum.of_Z 1;
                max_packet_loss_pct := PyNum.decimal 1 1000 |}
  | EMBB => {| min_bandwidth_mbps := PyNum.of_Z 50;
               max_latency_ms := PyNum.of_Z 20;
               max_jitter_ms := PyNum.of_Z 5;
               max_packet_loss_pct := PyNum.of_Z 1 |}
  | MMTC => {| min_bandwidth_mbps := PyNum.of_Z 1;
               max_latency_ms := PyNum.of_Z 100;
               max_jitter_ms := PyNum.of_Z 20;
               max_packet_loss_pct := PyNum.of_Z 1 |}
  end.

(** The attributes of a [SliceManager] that the methods below read or
    write. *)
Record state := {
  slices : gmap string SliceConfig;
  violations : list SLAViolation;
  violation_counts : gmap string Z
}.

Definition set_violations (v : list SLAViolation) (self : state) : state :=
  {| slices := slices self; violations := v;
     violation_counts := violation_counts self |}.

Definition set_violation_counts (c : gmap string Z) (self : state) : state :=
  {| slices := slices self; violations := violations self;
     violation_counts := c |}.

(** [_init_default_slices]: the three slices are stored, then every key of
    [slices] gets a zero counter. *)
Definition _init_default_slices (self : state) : state :=
  let slices1 :=
    <["URLLC" := {| name := "URLLC"; slice_type := URLLC; port := 5001;
                    dscp := 46; sla := DEFAULT_SLAS URLLC; priority := 100;
                    description := "Ultra-Reliable Low-Latency Communication for critical applications" |}]>
      (slices self) in
  let slices2 :=
    <["eMBB" := {| name := "eMBB"; slice_type := EMBB; port := 5002;
                   dscp := 34; sla := DEFAULT_SLAS EMBB; priority := 50;
                   description := "Enhanced Mobile Broadband for high-throughput applications" |}]>
      slices1 in
  let slices3 :=
    <["mMTC" := {| name := "mMTC"; slice_type := MMTC; port := 5003;
                   dscp := 10; sla := DEFAULT_SLAS MMTC; priority := 10;
                   description := "Massive Machine Type Communication for IoT devices" |}]>
      slices2 in
  {| slices := slices3;
     violations := violations self;
     violation_counts := ((fun _ => 0) <$> slices3) ∪ violation_counts self |}.

(** [__init__] *)
Definition init : state :=
  _init_default_slices {| slices := ∅; violations := []; violation_counts := ∅ |}.

(** [_get_severity] *)
Definition _get_severity (expected : float) (actual : num)
    (requirement_type : string) : outcome string :=
  if Float expected ==# Int 0 then Ok "critical"
  else if String.eqb requirement_type "min" then
    ratio ← PyNum.truediv actual expected;
    if ratio >=# Float (PyNum.decimal 8 10) then Ok "minor"
    else if ratio >=# Float (PyNum.decimal 5 10) then Ok "major"
    else Ok "critical"
  else
    ratio ← PyNum.truediv actual expected;
    if ratio <=# Float (PyNum.decimal 12 10) then Ok "minor"
    else if ratio <=# Float (PyNum.of_Z 2) then Ok "major"
    else Ok "critical".

(** One entry of the [details] dictionary of [check_sla]: the threshold
    (under the key [required_min] or [required_max]), the measured value and
    the verdict. *)
Record dimension := {
  required : float;
  actual : num;
  compliant : bool
}.

Inductive details :=
| DetailsError (error : string)
| DetailsDimensions (bandwidth latency jitter packet_loss : dimension).

(** The dictionary returned by [check_sla]. *)
Record result := {
  res_status : SLAStatus;
  res_violations : list SLAViolation;
  res_details : details
}.

(** [metrics.get(key, 0)]: a measurement is the number the caller stored, a
    [float] or an [int] (the orchestrator passes the numbers of a JSON
    document as they were parsed); the default is the [int] zero. *)
Definition metrics_get (metrics : gmap string num) (key : string) : num :=
  match metrics !! key with
  | Some x => x
  | None => Int 0
  end.

(** [check_sla].  [now i] is the reading of [datetime.utcnow().isoformat()]
    taken when the violation of index [i] of this call is constructed. *)
Definition check_sla (now : nat -> string) (slice_name : string)
    (metrics : gmap string num) : Py state result :=
  self ← py_get;
  match slices self !! slice_name with
  | None =>
      mret {| res_status := UNKNOWN;
              res_violations := [];
              res_details := DetailsError ("Unknown slice: " +:+ slice_name) |}
  | Some config =>
      let sla := sla config in
      let violations0 : list SLAViolation := [] in
      (* Check bandwidth (minimum requirement) *)
      let bandwidth := metrics_get metrics "bandwidth_mbps" in
      let d_bandwidth :=
        {| required := min_bandwidth_mbps sla; actual := bandwidth;
           compliant := bandwidth >=# Float (min_bandwidth_mbps sla) |} in
      violations1 ←
        (if bandwidth <# Float (min_bandwidth_mbps sla) then
           sev ← py_lift (_get_severity (min_bandwidth_mbps sla) bandwidth "min");
           mret (violations0 ++
                 [{| slice_name := slice_name; violation_type := "bandwidth";
                     expected_value := min_bandwidth_mbps sla;
                     actual_value := bandwidth;
                     timestamp := now (length violations0);
                     severity := sev |}])
         else mret violations0);
      (* Check latency (maximum requirement) *)
      let latency := metrics_get metrics "latency_ms" in
      let d_latency :=
        {| required := max_latency_ms sla; actual := latency;
           compliant := latency <=# Float (max_latency_ms sla) |} in
      violations2 ←
        (if latency ># Float (max_latency_ms sla) then
           sev ← py_lift (_get_severity (max_latency_ms sla) latency "max");
           mret (violations1 ++
                 [{| slice_name := slice_name; violation_type := "latency";
                     expected_value := max_latency_ms sla;
                     actual_value := latency;
                     timestamp := now (length violations1);
                     severity := sev |}])
         else mret violations1);
      (* Check jitter (maximum requirement) *)
      let jitter := metrics_get metrics "jitter_ms" in
      let d_jitter :=
        {| required := max_jitter_ms sla; actual := jitter;
           compliant := jitter <=# Float (max_jitter_ms sla) |} in
      violations3 ←
        (if jitter ># Float (max_jitter_ms sla) then
           sev ← py_lift (_get_severity (max_jitter_ms sla) jitter "max");
           mret (violations2 ++
                 [{| slice_name := slice_name; violation_type := "jitter";
                     expected_value := max_jitter_ms sla;
                     actual_value := jitter;
                     timestamp := now (length violations2);
                     severity := sev |}])
         else mret violations2);
      (* Check packet loss (maximum requirement) *)
      let packet_loss := metrics_get metrics "packet_loss_pct" in
      let d_packet_loss :=
        {| required := max_packet_loss_pct sla; actual := packet_loss;
           compliant := packet_loss <=# Float (max_packet_loss_pct sla) |} in
      violations4 ←
        (if packet_loss ># Float (max_packet_loss_pct sla) then
           sev ← py_lift (_get_severity (max_packet_loss_pct sla) packet_loss "max");
           mret (violations3 ++
                 [{| slice_name := slice_name; violation_type := "packet_loss";
                     expected_value := max_packet_loss_pct sla;
                     actual_value := packet_loss;
                     timestamp := now (length violations3);
                     severity := sev |}])
         else mret violations3);
      (* Update violation tracking *)
      (match violations4 with
       | [] => mret tt
       | _ :: _ =>
           py_modify (fun self => set_violations (violations self ++ violations4) self);;
           self ← py_get;
           count ← py_lift (match violation_counts self !! slice_name with
                            | Some c => Ok c
                            | None => Raise (KeyError slice_name)
                            end);
           py_modify (set_violation_counts
                        (<[slice_name := count + Z.of_nat (length violations4)]>
                           (violation_counts self)))
       end);;
      (* Determine overall status *)
      let status := match violations4 with [] => COMPLIANT | _ :: _ => VIOLATED end in
      mret {| res_status := status;
              res_violations := violations4;
              res_details :=
                DetailsDimensions d_bandwidth d_latency d_jitter d_packet_loss |}
  end.

(** The dictionary returned by [get_violation_summary]. *)
Record summary := {
  total_violations : Z;
  violations_by_slice : gmap string Z;
  violations_by_type : gmap string Z;
  severity_distribution : gmap string Z
}.

(** One iteration of the counting loop of [get_violation_summary]. *)
Definition count_violation (acc : summary) (v : SLAViolation) : outcome summary :=
  let vtype := violation_type v in
  let by_type :=
    <[vtype := default 0 (violations_by_type acc !! vtype) + 1]>
      (violations_by_type acc) in
  match severity_distribution acc !! severity v with
  | None => Raise (KeyError (severity v))
  | Some n =>
      Ok {| total_violations := total_violations acc;
            violations_by_slice := violations_by_slice acc;
            violations_by_type := by_type;
            severity_distribution :=
              <[severity v := n + 1]> (severity_distribution acc) |}
  end.

(** [get_violation_summary] *)
Definition get_violation_summary (self : state) : outcome summary :=
  let summary0 :=
    {| total_violations := Z.of_nat (length (violations self));
       violations_by_slice := violation_counts self;
       violations_by_type := ∅;
       severity_distribution :=
         <["minor" := 0]> (<["major" := 0]> (<["critical" := 0]> ∅)) |} in
  foldl (fun acc v => acc ← acc; count_violation acc v) (Ok summary0)
        (violations self).

(** [clear_violations] *)
Definition clear_violations (self : state) : state :=
  {| slices := slices self;
     violations := [];
     violation_counts := (fun _ => 0) <$> violation_counts self |}.

(** States a [SliceManager] goes through: construction, then any sequence
    of [check_sla] and [clear_violations] calls. *)
Inductive reachable : state -> Prop :=
| reach_init : reachable init
| reach_check_sla now slice_name metrics self :
    reachable self ->
    reachable (snd (check_sla now slice_name metrics self))
| reach_clear_violations self :
    reachable self ->
    reachable (clear_violations self).

End SliceManager.

(** ** Ordered dictionaries

    A Python [dict] whose iteration order is observed: an association list
    in insertion order; assigning to an existing key keeps its position. *)

Module Dict.

Section Dict.

Context {V : Type}.

Fixpoint get (d : list (string * V)) (k : string) : option V :=
  match d with
  | [] => None
  | (k', v) :: d' => if String.eqb k k' then Some v else get d' k
  end.

Fixpoint set (k : string) (v : V) (d : list (string * V)) : list (string * V) :=
  match d with
  | [] => [(k, v)]
  | (k', v') :: d' =>
      if String.eqb k k' then (k, v) :: d' else (k', v') :: set k v d'
  end.

(** [d[k] = f(d[k])] for a key that is present. *)
Fixpoint alter (f : V -> V) (k : string) (d : list (string * V)) : list (string * V) :=
  match d with
  | [] => []
  | (k', v) :: d' =>
      if String.eqb k k' then (k', f v) :: d' else (k', v) :: alter f k d'
  end.

Definition keys (d : list (string * V)) : list string := map fst d.

End Dict.

End Dict.

(** [for x in l: f(x)] in a method. *)
Fixpoint py_for {S A} (f : A -> Py S unit) (l : list A) : Py S unit :=
  match l with
  | [] => mret tt
  | x :: l' => f x;; py_for f l'
  end.

(** ** controller.py *)

Module Controller.

(** Constants of OpenFlow 1.3 that the handlers pass through. *)
Definition OFPP_CONTROLLER : Z := 4294967293.
Definition OFPCML_NO_BUFFER : Z := 65535.
Definition OFPMC_ADD : Z := 0.
Definition OFPMF_KBPS : Z := 1.
Definition OFPIT_APPLY_ACTIONS : Z := 4.

Record slice_config := {
  name : string;
  dscp : Z;
  meter_id : Z;
  rate_kbps : Z;
  priority : Z
}.

(** [SlicingController.SLICE_CONFIG], in insertion order. *)
Definition SLICE_CONFIG : list (Z * slice_config) :=
  [(5001, {| name := "URLLC"; dscp := 46; meter_id := 1;
             rate_kbps := 10000; priority := 100 |});
   (5002, {| name := "eMBB"; dscp := 34; meter_id := 2;
             rate_kbps := 100000; priority := 50 |});
   (5003, {| name := "mMTC"; dscp := 10; meter_id := 3;
             rate_kbps := 5000; priority := 10 |})].

Fixpoint SLICE_CONFIG_get (d : list (Z * slice_config)) (port : Z) : option slice_config :=
  match d with
  | [] => None
  | (p, c) :: d' => if p =? port then Some c else SLICE_CONFIG_get d' port
  end.

(** The fields of [OFPMatch] that the controller sets. *)
Record ofp_match := {
  in_port : option Z;
  eth_dst : option string;
  eth_type : option Z;
  ip_proto : option Z;
  udp_dst : option Z
}.

Definition OFPMatch : ofp_match :=
  {| in_port := None; eth_dst := None; eth_type := None; ip_proto := None;
     udp_dst := None |}.

Inductive action :=
| OFPActionOutput (port max_len : Z)
| OFPActionSetField_ip_dscp (value : Z).

Inductive instruction :=
| OFPInstructionMeter (meter : Z)
| OFPInstructionActions (type : Z) (actions : list action)
| OFPInstructionGotoTable (table : Z).

Inductive band :=
| OFPMeterBandDrop (rate burst_size : Z).

Inductive message :=
| OFPFlowMod (priority : Z) (match_ : ofp_match) (instructions : list instruction)
    (idle_timeout hard_timeout table_id : Z)
| OFPMeterMod (command flags meter : Z) (bands : list band)
| OFPFlowStatsRequest.

Record datapath := { id : Z }.

(** One entry of [slice_stats] and of [prev_stats]. *)
Record counters := { bytes : Z; packets : Z }.

(** One entry of [self.metrics]. *)
Record metric := {
  metric_bytes : Z;
  metric_packets : Z;
  bandwidth_mbps : num
}.

(** One line appended to [flow_metrics.json]. *)
Record export_record := {
  timestamp : string;
  slice_name : string;
  export_bandwidth_mbps : num;
  export_packets : Z;
  export_bytes : Z
}.

(** The attributes of the controller that the handlers below read or write,
    with the two effects they have on the outside: [sent] logs, oldest
    first, each message passed to [datapath.send_msg]; [exported] logs the
    records whose line was written to the metrics file, a write being
    counted when the call of [write] returns. *)
Record state := {
  datapaths : gmap Z datapath;
  metrics : list (string * metric);
  prev_stats : list (string * counters);
  prev_time : float;
  sent : list (datapath * message);
  exported : list export_record
}.

Definition set_datapaths (v : gmap Z datapath) (self : state) : state :=
  {| datapaths := v; metrics := metrics self; prev_stats := prev_stats self;
     prev_time := prev_time self; sent := sent self; exported := exported self |}.
Definition set_metrics (v : list (string * metric)) (self : state) : state :=
  {| datapaths := datapaths self; metrics := v; prev_stats := prev_stats self;
     prev_time := prev_time self; sent := sent self; exported := exported self |}.
Definition set_prev_stats (v : list (string * counters)) (self : state) : state :=
  {| datapaths := datapaths self; metrics := metrics self; prev_stats := v;
     prev_time := prev_time self; sent := sent self; exported := exported self |}.
Definition set_prev_time (v : float) (self : state) : state :=
  {| datapaths := datapaths self; metrics := metrics self;
     prev_stats := prev_stats self; prev_time := v; sent := sent self;
     exported := exported self |}.
Definition set_exported (v : list export_record) (self : state) : state :=
  {| datapaths := datapaths self; metrics := metrics self;
     prev_stats := prev_stats self; prev_time := prev_time self;
     sent := sent self; exported := v |}.

(** [datapath.send_msg(msg)] *)
Definition send_msg (dp : datapath) (msg : message) (self : state) : state :=
  {| datapaths := datapaths self; metrics := metrics self;
     prev_stats := prev_stats self; prev_time := prev_time self;
     sent := sent self ++ [(dp, msg)]; exported := exported self |}.

(** [__init__]; [now] is the reading of [time.time()]. *)
Definition init (now : float) : state :=
  {| datapaths := ∅;
     metrics :=
       [("URLLC", {| metric_bytes := 0; metric_packets := 0; bandwidth_mbps := Int 0 |});
        ("eMBB", {| metric_bytes := 0; metric_packets := 0; bandwidth_mbps := Int 0 |});
        ("mMTC", {| metric_bytes := 0; metric_packets := 0; bandwidth_mbps := Int 0 |})];
     prev_stats := [];
     prev_time := now;
     sent := [];
     exported := [] |}.

(** [_add_flow] *)
Definition _add_flow (dp : datapath) (priority : Z) (match_ : ofp_match)
    (actions : list action) (idle_timeout hard_timeout table_id : Z)
    (self : state) : state :=
  let inst := [OFPInstructionActions OFPIT_APPLY_ACTIONS actions] in
  let mod_ := OFPFlowMod priority match_ inst idle_timeout hard_timeout table_id in
  send_msg dp mod_ self.

(** [_install_meters] *)
Definition _install_meters (dp : datapath) (self : state) : state :=
  fold_left
    (fun self '(port, config) =>
       let meter_id := meter_id config in
       let rate_kbps := rate_kbps config in
       let bands := [OFPMeterBandDrop rate_kbps (rate_kbps / 10)] in
       let meter_mod := OFPMeterMod OFPMC_ADD OFPMF_KBPS meter_id bands in
       send_msg dp meter_mod self)
    SLICE_CONFIG self.

(** [_install_slice_rules] *)
Definition _install_slice_rules (dp : datapath) (self : state) : state :=
  fold_left
    (fun self '(port, config) =>
       let match_ :=
         {| in_port := None; eth_dst := None; eth_type := Some 2048;
            ip_proto := Some 17; udp_dst := Some port |} in
       let actions := [OFPActionSetField_ip_dscp (dscp config)] in
       let inst :=
         [OFPInstructionMeter (meter_id config);
          OFPInstructionActions OFPIT_APPLY_ACTIONS actions;
          OFPInstructionGotoTable 1] in
       let mod_ := OFPFlowMod (priority config) match_ inst 0 0 0 in
       send_msg dp mod_ self)
    SLICE_CONFIG self.

(** [switch_features_handler] for the event of datapath [dp]. *)
Definition switch_features_handler (dp : datapath) (self : state) : state :=
  let dpid := id dp in
  (* Register datapath *)
  let self := set_datapaths (<[dpid := dp]> (datapaths self)) self in
  (* 1. table-miss flow entry *)
  let match_ := OFPMatch in
  let actions := [OFPActionOutput OFPP_CONTROLLER OFPCML_NO_BUFFER] in
  let self := _add_flow dp 0 match_ actions 0 0 0 self in
  (* 2. meters *)
  let self := _install_meters dp self in
  (* 3. slice classification rules *)
  _install_slice_rules dp self.

(** One entry of the body of a flow-statistics reply. *)
Record flow_stat := {
  stat_match : ofp_match;
  byte_count : Z;
  packet_count : Z
}.

(** What the file system does while one export runs: whether [open]
    returns, whether the [write] of the record of index [i] does, and
    whether closing the file does when the [with] block is left.  Each
    failure is an [OSError]. *)
Record file_io := {
  open_ok : bool;
  write_ok : nat -> bool;
  close_ok : bool
}.

(** A flow-statistics reply event, with what the handler reads from its
    environment while it runs: the clock readings [time.time()] and, in
    [_export_metrics], [datetime.utcnow()]; the limit of the interpreter on
    the digits of an [int] converted to a string
    ([sys.get_int_max_str_digits()], 0 where there is none); and the
    behaviour of the metrics file. *)
Record stats_reply := {
  body : list flow_stat;
  dpid : Z;
  current_time : float;
  export_time : string;
  int_max_str_digits : Z;
  file : file_io
}.

(** The aggregation loop of [flow_stats_reply_handler]. *)
Definition aggregate (body : list flow_stat) : list (string * counters) :=
  let slice_stats :=
    [("URLLC", {| bytes := 0; packets := 0 |});
     ("eMBB", {| bytes := 0; packets := 0 |});
     ("mMTC", {| bytes := 0; packets := 0 |})] in
  fold_left
    (fun slice_stats stat =>
       match udp_dst (stat_match stat) with
       | Some udp_dst =>
           match SLICE_CONFIG_get SLICE_CONFIG udp_dst with
           | Some config =>
               let slice_name := name config in
               Dict.alter
                 (fun c => {| bytes := bytes c + byte_count stat;
                              packets := packets c + packet_count stat |})
                 slice_name slice_stats
           | None => slice_stats
           end
       | None => slice_stats
       end)
    body slice_stats.

(** [self.prev_stats.get(slice_name, {}).get('bytes', 0)] *)
Definition prev_bytes_of (prev_stats : list (string * counters)) (slice_name : string) : Z :=
  match Dict.get prev_stats slice_name with
  | Some c => bytes c
  | None => 0
  end.

(** The time delta a reply is rated with. *)
Definition time_delta_of (self : state) (current_time : float) : float :=
  SFsub PyNum.prec PyNum.emax current_time (prev_time self).

(** One iteration of the bandwidth loop of [flow_stats_reply_handler]. *)
Definition update_metric (time_delta : float) (item : string * counters)
    : Py state unit :=
  let '(slice_name, stats) := item in
  self ← py_get;
  let current_bytes := bytes stats in
  let prev_bytes := prev_bytes_of (prev_stats self) slice_name in
  bandwidth_mbps ← py_lift
    (if Float time_delta ># Int 0 then
       let byte_delta := current_bytes - prev_bytes in
       bandwidth_mbps ← PyNum.truediv (Int (byte_delta * 8))
                          (PyNum.fmul time_delta 1000000);
       Ok (PyNum.max (Int 0) bandwidth_mbps)
     else Ok (Int 0));
  py_modify
    (fun self =>
       set_metrics
         (Dict.set slice_name
            {| metric_bytes := current_bytes;
               metric_packets := packets stats;
               bandwidth_mbps := PyNum.round3 bandwidth_mbps |}
            (metrics self))
         self).

(** [str(n)] of an [int], as [json.dumps] and the f-strings of the log
    compute it: [ValueError] when [n] has more decimal digits than the limit
    allows. *)
Definition int_to_str (max_str_digits n : Z) : outcome unit :=
  if (0 <? max_str_digits) && (10 ^ max_str_digits <=? Z.abs n)
  then Raise ValueError
  else Ok tt.

(** [json.dumps(record)]: the line of the record, unless one of its
    counters cannot be converted; a bandwidth that is infinite or NaN is
    written as such. *)
Definition json_dumps (max_str_digits : Z) (record : export_record)
    : outcome export_record :=
  int_to_str max_str_digits (export_packets record);;
  int_to_str max_str_digits (export_bytes record);;
  Ok record.

(** The loop of [_export_metrics] over the records, from the record of
    index [i] on: each line is computed, then written. *)
Fixpoint write_records (max_str_digits : Z) (file : file_io) (i : nat)
    (records : list export_record) : Py state unit :=
  match records with
  | [] => mret tt
  | record :: records' =>
      line ← py_lift (json_dumps max_str_digits record);
      (if write_ok file i
       then py_modify (fun self => set_exported (exported self ++ [line]) self)
       else py_lift (Raise OSError));;
      write_records max_str_digits file (S i) records'
  end.

(** [_export_metrics]: the records are built, the file is opened for
    appending, the records are written, and the file is closed however the
    loop ends; an exception of the close replaces the one of the loop. *)
Definition _export_metrics (timestamp : string) (max_str_digits : Z)
    (file : file_io) : Py state unit :=
  fun self =>
    let metrics_records :=
      map (fun '(slice_name, m) =>
             {| timestamp := timestamp; slice_name := slice_name;
                export_bandwidth_mbps := bandwidth_mbps m;
                export_packets := metric_packets m;
                export_bytes := metric_bytes m |})
          (metrics self) in
    if open_ok file then
      match write_records max_str_digits file 0 metrics_records self with
      | (Ok _, self) =>
          (if close_ok file then Ok tt else Raise OSError, self)
      | (Raise e, self) =>
          (if close_ok file then Raise e else Raise OSError, self)
      end
    else (Raise OSError, self).

(** [format(x, '.2f')]: an [int] is converted to a float first. *)
Definition format_2f (x : num) : outcome unit :=
  PyNum.to_float x;; Ok tt.

(** The log summary that ends [flow_stats_reply_handler]: the messages are
    formatted, whatever the level of the logger. *)
Definition _log_summary (max_str_digits dpid : Z) : Py state unit :=
  py_lift (int_to_str max_str_digits dpid);;
  self ← py_get;
  py_for (fun '(name, m) =>
            py_lift (format_2f (bandwidth_mbps m);;
                     int_to_str max_str_digits (metric_packets m);;
                     int_to_str max_str_digits (metric_bytes m)))
         (metrics self).

(** [flow_stats_reply_handler] *)
Definition flow_stats_reply_handler (ev : stats_reply) : Py state unit :=
  self ← py_get;
  let current_time := current_time ev in
  let time_delta := time_delta_of self current_time in
  (* Aggregate stats per slice *)
  let slice_stats := aggregate (body ev) in
  (* Calculate bandwidth and update metrics *)
  py_for (update_metric time_delta) slice_stats;;
  (* Store current stats for next calculation *)
  py_modify (set_prev_stats slice_stats);;
  py_modify (set_prev_time current_time);;
  (* Export metrics to JSON *)
  _export_metrics (export_time ev) (int_max_str_digits ev) (file ev);;
  (* Log summary *)
  _log_summary (int_max_str_digits ev) (dpid ev).

(** Events the controller handles, and the states it goes through. *)
Inductive event :=
| SwitchFeatures (dp : datapath)
| FlowStatsReply (ev : stats_reply).

Definition handle (e : event) (self : state) : state :=
  match e with
  | SwitchFeatures dp => switch_features_handler dp self
  | FlowStatsReply ev => snd (flow_stats_reply_handler ev self)
  end.

Inductive reachable : state -> Prop :=
| reach_init now : reachable (init now)
| reach_handle e self : reachable self -> reachable (handle e self).

End Controller.

(** ** monitoring/metrics_collector.py *)

Module MetricsCollector.

(** [MetricsCollector.PORT_TO_SLICE] *)
Definition PORT_TO_SLICE (port : Z) : option string :=
  if port =? 5001 then Some "URLLC"
  else if port =? 5002 then Some "eMBB"
  else if port =? 5003 then Some "mMTC"
  else None.

Record FlowMetric := {
  timestamp : string;
  slice_name : string;
  bandwidth_mbps : num;
  packets : Z;
  bytes : Z;
  duration_sec : Z;
  priority : Z
}.

(** One flow entry of the controller's JSON answer: the [udp_dst] of its
    match and the keys the collector reads, each possibly absent. *)
Record flow := {
  udp_dst : option Z;
  byte_count : option Z;
  packet_count : option Z;
  flow_duration_sec : option Z;
  flow_priority : option Z
}.

(** What [requests.get] produces: a failure of the request, or an answer
    with its status code and the list stored under the key of switch 1. *)
Inductive response :=
| RequestException
| Response (status_code : Z) (flows : option (list flow)).

(** One entry of [prev_flow_stats]. *)
Record prev_entry := { prev_bytes : Z; prev_packets : Z }.

Record state := {
  flow_metrics : list FlowMetric;
  prev_flow_stats : gmap string prev_entry;
  prev_time : float
}.

(** [__init__]; [now] is the reading of [time.time()]. *)
Definition init (now : float) : state :=
  {| flow_metrics := []; prev_flow_stats := ∅; prev_time := now |}.

(** The body of the loop over the flow entries.  [now i] is the reading of
    [datetime.utcnow()] taken for the metric of index [i] of
    [flow_metrics]. *)
Definition collect_flow (now : nat -> string) (time_delta : float)
    (flow : flow) : Py state unit :=
  match udp_dst flow with
  | Some udp_dst =>
      match (if udp_dst =? 0 then None else PORT_TO_SLICE udp_dst) with
      | Some slice_name =>
          let byte_count := default 0 (byte_count flow) in
          let packet_count := default 0 (packet_count flow) in
          let duration := default 0 (flow_duration_sec flow) in
          let priority := default 0 (flow_priority flow) in
          self ← py_get;
          (* Calculate bandwidth *)
          let prev_bytes :=
            match prev_flow_stats self !! slice_name with
            | Some e => prev_bytes e
            | None => 0
            end in
          bandwidth_mbps ← py_lift
            (if Float time_delta ># Int 0 then
               let byte_delta := byte_count - prev_bytes in
               bandwidth_mbps ← PyNum.truediv (Int (byte_delta * 8))
                                  (PyNum.fmul time_delta 1000000);
               Ok (PyNum.max (Int 0) bandwidth_mbps)
             else Ok (Int 0));
          (* Create metric *)
          let metric :=
            {| timestamp := now (length (flow_metrics self)) +:+ "Z";
               slice_name := slice_name;
               bandwidth_mbps := PyNum.round3 bandwidth_mbps;
               packets := packet_count;
               bytes := byte_count;
               duration_sec := duration;
               priority := priority |} in
          py_modify
            (fun self =>
               {| flow_metrics := flow_metrics self ++ [metric];
                  (* Update previous stats *)
                  prev_flow_stats :=
                    <[slice_name := {| prev_bytes := byte_count;
                                       prev_packets := packet_count |}]>
                      (prev_flow_stats self);
                  prev_time := prev_time self |})
      | None => mret tt
      end
  | None => mret tt
  end.

(** [_collect_controller_metrics]: [resp] is the outcome of the request and
    [current_time] the reading of [time.time()].  Every exception is caught
    and logged; what was stored before it stays stored. *)
Definition _collect_controller_metrics (now : nat -> string) (resp : response)
    (current_time : float) (self : state) : state :=
  match resp with
  | RequestException => self
  | Response status_code data =>
      if negb (status_code =? 200) then self
      else
        let time_delta := SFsub PyNum.prec PyNum.emax current_time (prev_time self) in
        (* Process flow entries *)
        let flows := default [] data in
        match py_for (collect_flow now time_delta) flows self with
        | (Ok _, self) =>
            {| flow_metrics := flow_metrics self;
               prev_flow_stats := prev_flow_stats self;
               prev_time := current_time |}
        | (Raise _, self) => self
        end
  end.

(** States the collector goes through. *)
Inductive reachable : state -> Prop :=
| reach_init now : reachable (init now)
| reach_collect now resp current_time self :
    reachable self ->
    reachable (_collect_controller_metrics now resp current_time self).

End MetricsCollector.


Import SliceManager.

(** ** Closed forms used in the proofs about [check_sla] *)

(** The violation appended by [check_sla] for one breached dimension. *)
Definition breach (now : nat -> string) (slice_name vtype rt : string)
    (threshold : float) (value : num) (acc : list SLAViolation)
    : outcome (list SLAViolation) :=
  sev ← _get_severity threshold value rt;
  Ok (acc ++ [{| slice_name := slice_name; violation_type := vtype;
                 expected_value := threshold; actual_value := value;
                 timestamp := now (length acc); severity := sev |}]).

(** The local list [violations] of [check_sla] when it reaches the
    tracking step. *)
Definition sla_violations (now : nat -> string) (slice_name : string)
    (sla : SLARequirements) (metrics : gmap string num)
    : outcome (list SLAViolation) :=
  let bandwidth := metrics_get metrics "bandwidth_mbps" in
  let latency := metrics_get metrics "latency_ms" in
  let jitter := metrics_get metrics "jitter_ms" in
  let packet_loss := metrics_get metrics "packet_loss_pct" in
  v1 ← (if bandwidth <# Float (min_bandwidth_mbps sla)
        then breach now slice_name "bandwidth" "min" (min_bandwidth_mbps sla) bandwidth []
        else Ok []);
  v2 ← (if latency ># Float (max_latency_ms sla)
        then breach now slice_name "latency" "max" (max_latency_ms sla) latency v1
        else Ok v1);
  v3 ← (if jitter ># Float (max_jitter_ms sla)
        then breach now slice_name "jitter" "max" (max_jitter_ms sla) jitter v2
        else Ok v2);
  if packet_loss ># Float (max_packet_loss_pct sla)
  then breach now slice_name "packet_loss" "max" (max_packet_loss_pct sla) packet_loss v3
  else Ok v3.

(** The [details] dictionary of [check_sla] for a registered slice. *)
Definition sla_details (sla : SLARequirements) (metrics : gmap string num)
    : details :=
  let bandwidth := metrics_get metrics "bandwidth_mbps" in
  let latency := metrics_get metrics "latency_ms" in
  let jitter := metrics_get metrics "jitter_ms" in
  let packet_loss := metrics_get metrics "packet_loss_pct" in
  DetailsDimensions
    {| required := min_bandwidth_mbps sla; actual := bandwidth;
       compliant := bandwidth >=# Float (min_bandwidth_mbps sla) |}
    {| required := max_latency_ms sla; actual := latency;
       compliant := latency <=# Float (max_latency_ms sla) |}
    {| required := max_jitter_ms sla; actual := jitter;
       compliant := jitter <=# Float (max_jitter_ms sla) |}
    {| required := max_packet_loss_pct sla; actual := packet_loss;
       compliant := packet_loss <=# Float (max_packet_loss_pct sla) |}.

(** What [check_sla] returns and leaves behind once the local list of
    violations is known. *)
Definition track (slice_name : string) (sla : SLARequirements)
    (metrics : gmap string num) (vs : list SLAViolation) (self : state)
    : outcome result * state :=
  match vs with
  | [] =>
      (Ok {| res_status := COMPLIANT; res_violations := [];
             res_details := sla_details sla metrics |}, self)
  | _ :: _ =>
      match violation_counts self !! slice_name with
      | Some c =>
          (Ok {| res_status := VIOLATED; res_violations := vs;
                 res_details := sla_details sla metrics |},
           {| slices := slices self;
              violations := violations self ++ vs;
              violation_counts :=
                <[slice_name := c + Z.of_nat (length vs)]> (violation_counts self) |})
      | None =>
          (Raise (KeyError slice_name),
           set_violations (violations self ++ vs) self)
      end
  end.

(** An [int] beyond the range of [float]: converting it, as the division of
    [_get_severity] does with an [int] measurement, raises
    [OverflowError]. *)
Definition overflows (x : num) : bool :=
  match x with
  | Int z => PyNum.is_infinity (PyNum.of_Z z)
  | Float _ => false
  end.

(** Every registered slice has a violation counter: the invariant that
    [__init__] establishes. *)
Definition counters_cover (self : state) : Prop :=
  forall k, is_Some (slices self !! k) -> is_Some (violation_counts self !! k).


(** The violating sample of the module's self-test. *)
Definition bad_metrics : gmap string num :=
  <["bandwidth_mbps" := Float (PyNum.of_Z 2)]>
    (<["latency_ms" := Float (PyNum.of_Z 10)]>
       (<["jitter_ms" := Float (PyNum.of_Z 2)]>
          (<["packet_loss_pct" := Float PyNum.fzero]> ∅))).


(** ** The severity ratio test, in the words of the design document *)

(** Minimum-bound dimensions: ratio at least 0.8 is minor, from 0.5 up to
    0.8 is major, below 0.5 is critical. *)
Definition ratio_test_min (ratio : num) (sev : string) : Prop :=
  ((ratio >=# Float (PyNum.decimal 8 10)) = true -> sev = "minor") /\
  ((ratio >=# Float (PyNum.decimal 5 10)) = true ->
   (ratio <# Float (PyNum.decimal 8 10)) = true -> sev = "major") /\
  ((ratio <# Float (PyNum.decimal 5 10)) = true -> sev = "critical").

(** Maximum-bound dimensions: ratio at most 1.2 is minor, above 1.2 up to
    2.0 is major, above 2.0 is critical. *)
Definition ratio_test_max (ratio : num) (sev : string) : Prop :=
  ((ratio <=# Float (PyNum.decimal 12 10)) = true -> sev = "minor") /\
  ((ratio ># Float (PyNum.decimal 12 10)) = true ->
   (ratio <=# Float (PyNum.of_Z 2)) = true -> sev = "major") /\
  ((ratio ># Float (PyNum.of_Z 2)) = true -> sev = "critical").

(** Bandwidth is the minimum-bound dimension; latency, jitter and packet
    loss are maximum-bound. *)
Definition minimum_bound (vtype : string) : bool := String.eqb vtype "bandwidth".

Definition severity_follows_ratio_test (v : SLAViolation) : Prop :=
  ((Float (expected_value v) ># Int 0) = true ->
   exists ratio,
     PyNum.truediv (actual_value v) (expected_value v) = Ok ratio /\
     if minimum_bound (violation_type v)
     then ratio_test_min ratio (severity v)
     else ratio_test_max ratio (severity v)) /\
  ((Float (expected_value v) ==# Int 0) = true -> severity v = "critical").


(** ** Closed forms used in the proofs about the handlers *)

(** The rate both engines compute from a counter pair and a time delta,
    before rounding. *)
Definition rate (current_bytes prev_bytes : Z) (time_delta : float) : outcome num :=
  if Float time_delta ># Int 0 then
    let byte_delta := current_bytes - prev_bytes in
    bandwidth_mbps ← PyNum.truediv (Int (byte_delta * 8))
                       (PyNum.fmul time_delta 1000000);
    Ok (PyNum.max (Int 0) bandwidth_mbps)
  else Ok (Int 0).

(** A bandwidth is not negative: [bandwidth >= 0] holds. *)
Definition nonneg (x : num) : Prop := (x >=# Int 0) = true.

(** A float with a clear sign bit that is not NaN. *)
Definition is_nonneg_float (f : float) : bool :=
  match f with
  | S754_zero s | S754_infinity s | S754_finite s _ _ => negb s
  | S754_nan => false
  end.

(** The messages one switch-connect event sends. *)
Definition table_miss : Controller.message :=
  Controller.OFPFlowMod 0 Controller.OFPMatch
    [Controller.OFPInstructionActions Controller.OFPIT_APPLY_ACTIONS
       [Controller.OFPActionOutput Controller.OFPP_CONTROLLER
          Controller.OFPCML_NO_BUFFER]]
    0 0 0.

Definition meter_message (config : Controller.slice_config) : Controller.message :=
  Controller.OFPMeterMod Controller.OFPMC_ADD Controller.OFPMF_KBPS
    (Controller.meter_id config)
    [Controller.OFPMeterBandDrop (Controller.rate_kbps config)
       (Controller.rate_kbps config / 10)].

Definition classification_rule (port : Z) (config : Controller.slice_config)
    : Controller.message :=
  Controller.OFPFlowMod (Controller.priority config)
    {| Controller.in_port := None; Controller.eth_dst := None;
       Controller.eth_type := Some 2048; Controller.ip_proto := Some 17;
       Controller.udp_dst := Some port |}
    [Controller.OFPInstructionMeter (Controller.meter_id config);
     Controller.OFPInstructionActions Controller.OFPIT_APPLY_ACTIONS
       [Controller.OFPActionSetField_ip_dscp (Controller.dscp config)];
     Controller.OFPInstructionGotoTable 1]
    0 0 0.

Definition connect_batch (dp : Controller.datapath)
    : list (Controller.datapath * Controller.message) :=
  [(dp, table_miss)] ++
  map (fun '(_, config) => (dp, meter_message config)) Controller.SLICE_CONFIG ++
  map (fun '(port, config) => (dp, classification_rule port config))
      Controller.SLICE_CONFIG.

(** A slice-classification rule: a flow entry that matches a UDP destination
    port on any ingress port. *)
Definition is_classification (m : Controller.message) : bool :=
  match m with
  | Controller.OFPFlowMod _ match_ _ _ _ _ =>
      match Controller.udp_dst match_, Controller.in_port match_ with
      | Some _, None => true
      | _, _ => false
      end
  | _ => false
  end.

Definition classification_rules
    (log : list (Controller.datapath * Controller.message))
    : list (Controller.datapath * Controller.message) :=
  filter (fun entry => is_classification (snd entry) = true) log.

(** Every bandwidth the controller holds or has exported is non-negative. *)
Definition controller_nonneg (self : Controller.state) : Prop :=
  Forall (fun entry => nonneg (Controller.bandwidth_mbps (snd entry)))
         (Controller.metrics self) /\
  Forall (fun r => nonneg (Controller.export_bandwidth_mbps r))
         (Controller.exported self).

(** Every bandwidth the collector has stored is non-negative. *)
Definition collector_nonneg (self : MetricsCollector.state) : Prop :=
  Forall (fun m => nonneg (MetricsCollector.bandwidth_mbps m))
         (MetricsCollector.flow_metrics self).


(** The previous byte count the collector reads for a slice. *)
Definition collector_prev_bytes (prev : gmap string MetricsCollector.prev_entry)
    (slice_name : string) : Z :=
  match prev !! slice_name with
  | Some e => MetricsCollector.prev_bytes e
  | None => 0
  end.



(** ** Sample events *)

(** A flow entry of the classification rule of a slice port with the given
    counters. *)
Definition slice_stat (port bytes packets : Z) : Controller.flow_stat :=
  {| Controller.stat_match :=
       {| Controller.in_port := None; Controller.eth_dst := None;
          Controller.eth_type := Some 2048; Controller.ip_proto := Some 17;
          Controller.udp_dst := Some port |};
     Controller.byte_count := bytes;
     Controller.packet_count := packets |}.

(** A metrics file on which every operation succeeds. *)
Definition healthy_file : Controller.file_io :=
  {| Controller.open_ok := true;
     Controller.write_ok := fun _ => true;
     Controller.close_ok := true |}.

(** A reply of switch [dpid] at time [t] (in seconds) reporting [bytes] on
    the URLLC rule, handled by an interpreter with the default limit of
    4300 digits while the metrics file is healthy. *)
Definition urllc_reply (dpid t bytes : Z) : Controller.stats_reply :=
  {| Controller.body := [slice_stat 5001 bytes 100];
     Controller.dpid := dpid;
     Controller.current_time := PyNum.of_Z t;
     Controller.export_time := "2024-01-01T00:00:00Z";
     Controller.int_max_str_digits := 4300;
     Controller.file := healthy_file |}.



(** The controller's answer to the collector with [bytes] on the URLLC
    rule. *)
Definition urllc_response (bytes : Z) : MetricsCollector.response :=
  MetricsCollector.Response 200
    (Some [{| MetricsCollector.udp_dst := Some 5001;
              MetricsCollector.byte_count := Some bytes;
              MetricsCollector.packet_count := Some 100;
              MetricsCollector.flow_duration_sec := Some 1;
              MetricsCollector.flow_priority := Some 100 |}]).

(** A zero of either sign. *)
Definition is_zero_float (f : float) : bool :=
  match f with S754_zero _ => true | _ => false end.

(** A float whose exponent, if it has one, is not below that of the
    smallest binary64 value; every clock reading is such a float. *)
Definition exponent_ok (f : float) : bool :=
  match f with
  | S754_finite _ _ e => -1074 <=? e
  | _ => true
  end.

(** ** slice_manager.py: the accessors and the ledger *)

(** [get_slice_config] *)
Definition get_slice_config (self : state) (slice_name : string)
    : option SliceConfig :=
  slices self !! slice_name.

(** [get_sla] *)
Definition get_sla (self : state) (slice_name : string)
    : option SLARequirements :=
  let config := slices self !! slice_name in
  match config with
  | Some config => Some (sla config)
  | None => None
  end.

(** [get_slice_by_port]; [items] is [self.slices.items()], in the order the
    dictionary iterates. *)
Fixpoint get_slice_by_port (items : list (string * SliceConfig)) (port : Z)
    : option string :=
  match items with
  | [] => None
  | (name, config) :: items' =>
      if SliceManager.port config =? port then Some name
      else get_slice_by_port items' port
  end.

(** A listing of the registry in some order. *)
Definition slices_items (self : state) (items : list (string * SliceConfig))
    : Prop :=
  items ≡ₚ map_to_list (slices self).

(** The number of ledger entries of a slice, of a severity, of a type. *)
Definition ledger_count (slice_name : string) (ledger : list SLAViolation) : Z :=
  Z.of_nat (length (filter (fun v => SliceManager.slice_name v = slice_name) ledger)).

Definition severity_count (sev : string) (ledger : list SLAViolation) : Z :=
  Z.of_nat (length (filter (fun v => severity v = sev) ledger)).

Definition type_count (vtype : string) (ledger : list SLAViolation) : Z :=
  Z.of_nat (length (filter (fun v => violation_type v = vtype) ledger)).

(** [sum(d.values())] *)
Definition dict_sum (d : gmap string Z) : Z :=
  map_fold (fun _ n acc => n + acc) 0 d.

(** The three severity levels, the four dimension names. *)
Definition severity_level (sev : string) : Prop :=
  sev = "minor" \/ sev = "major" \/ sev = "critical".

Definition dimension_name (vtype : string) : Prop :=
  vtype = "bandwidth" \/ vtype = "latency" \/ vtype = "jitter" \/
  vtype = "packet_loss".

(** The ledger is well formed and each counter counts the ledger entries of
    its slice. *)
Definition ledger_tracked (self : state) : Prop :=
  Forall (fun v => is_Some (slices self !! slice_name v) /\
                   dimension_name (violation_type v) /\
                   severity_level (severity v))
         (violations self) /\
  forall name c,
    violation_counts self !! name = Some c ->
    c = ledger_count name (violations self).

(** The dimensions whose strict test fails, in the order [check_sla] runs
    them. *)
Definition breached (sla : SLARequirements) (metrics : gmap string num)
    : list string :=
  (if metrics_get metrics "bandwidth_mbps" <# Float (min_bandwidth_mbps sla)
   then ["bandwidth"] else []) ++
  (if metrics_get metrics "latency_ms" ># Float (max_latency_ms sla)
   then ["latency"] else []) ++
  (if metrics_get metrics "jitter_ms" ># Float (max_jitter_ms sla)
   then ["jitter"] else []) ++
  (if metrics_get metrics "packet_loss_pct" ># Float (max_packet_loss_pct sla)
   then ["packet_loss"] else []).

(** The threshold and the metrics key of a dimension. *)
Definition threshold_of (sla : SLARequirements) (vtype : string) : float :=
  if String.eqb vtype "bandwidth" then min_bandwidth_mbps sla
  else if String.eqb vtype "latency" then max_latency_ms sla
  else if String.eqb vtype "jitter" then max_jitter_ms sla
  else max_packet_loss_pct sla.

Definition metrics_key (vtype : string) : string :=
  if String.eqb vtype "bandwidth" then "bandwidth_mbps"
  else if String.eqb vtype "latency" then "latency_ms"
  else if String.eqb vtype "jitter" then "jitter_ms"
  else "packet_loss_pct".

(** The entry of a dimension in the [details] of a result. *)
Definition detail_of (d : details) (vtype : string) : option dimension :=
  match d with
  | DetailsError _ => None
  | DetailsDimensions bandwidth latency jitter packet_loss =>
      if String.eqb vtype "bandwidth" then Some bandwidth
      else if String.eqb vtype "latency" then Some latency
      else if String.eqb vtype "jitter" then Some jitter
      else if String.eqb vtype "packet_loss" then Some packet_loss
      else None
  end.

(** A sample whose four measurements are NaN. *)
Definition nan_metrics : gmap string num :=
  <["bandwidth_mbps" := Float S754_nan]>
    (<["latency_ms" := Float S754_nan]>
       (<["jitter_ms" := Float S754_nan]>
          (<["packet_loss_pct" := Float S754_nan]> ∅))).

(** ** controller.py: the aggregated counters and the monitoring round *)

(** The entries of a reply body that match the UDP destination port
    [port]. *)
Definition flows_to (port : Z) (body : list Controller.flow_stat)
    : list Controller.flow_stat :=
  filter (fun stat => Controller.udp_dst (Controller.stat_match stat) = Some port)
         body.

Definition sum_of (f : Controller.flow_stat -> Z)
    (l : list Controller.flow_stat) : Z :=
  foldr (fun stat acc => f stat + acc) 0 l.

(** The byte and packet counts of all entries that match [port]. *)
Definition slice_total (port : Z) (body : list Controller.flow_stat)
    : Controller.counters :=
  {| Controller.bytes := sum_of Controller.byte_count (flows_to port body);
     Controller.packets := sum_of Controller.packet_count (flows_to port body) |}.

(** The record [_export_metrics] writes for one entry of [metrics]. *)
Definition export_of (timestamp slice_name : string) (m : Controller.metric)
    : Controller.export_record :=
  {| Controller.timestamp := timestamp;
     Controller.slice_name := slice_name;
     Controller.export_bandwidth_mbps := Controller.bandwidth_mbps m;
     Controller.export_packets := Controller.metric_packets m;
     Controller.export_bytes := Controller.metric_bytes m |}.

(** The records [_export_metrics] builds from a metrics table. *)
Definition records_of (timestamp : string)
    (metrics : list (string * Controller.metric))
    : list Controller.export_record :=
  map (fun entry => export_of timestamp (fst entry) (snd entry)) metrics.

(** The bandwidth loop of [flow_stats_reply_handler] for a reply. *)
Definition bandwidth_loop (ev : Controller.stats_reply)
    : Py Controller.state unit :=
  fun self =>
    py_for (Controller.update_metric
              (Controller.time_delta_of self (Controller.current_time ev)))
           (Controller.aggregate (Controller.body ev)) self.

(** What [flow_stats_reply_handler] does once the bandwidth loop is done and
    the sample and the clock reading are stored: the export, then the
    log. *)
Definition export_and_log (ev : Controller.stats_reply)
    : Py Controller.state unit :=
  Controller._export_metrics (Controller.export_time ev)
    (Controller.int_max_str_digits ev) (Controller.file ev);;
  Controller._log_summary (Controller.int_max_str_digits ev) (Controller.dpid ev).

(** A float that is not greater than zero: a zero, a value with the sign
    bit set, or NaN. *)
Definition not_positive (f : float) : bool :=
  match f with
  | S754_zero _ | S754_nan => true
  | S754_infinity s | S754_finite s _ _ => s
  end.




(** The state after a sequence of events. *)
Definition run (events : list Controller.event) (self : Controller.state)
    : Controller.state :=
  fold_left (fun self e => Controller.handle e self) events self.

(** The datapaths of the switch-connect events of switch [dpid], oldest
    first. *)
Definition connects (dpid : Z) (events : list Controller.event)
    : list Controller.datapath :=
  omap (fun e =>
          match e with
          | Controller.SwitchFeatures dp =>
              if decide (Controller.id dp = dpid) then Some dp else None
          | Controller.FlowStatsReply _ => None
          end)
       events.

(** ** controller.py: the packet-in handler *)

Module PacketIn.

(** Constants of OpenFlow 1.3; [OFPCML_MAX] is the [max_len] that
    [OFPActionOutput] takes when none is given. *)
Definition OFPP_FLOOD : Z := 4294967291.
Definition OFPCML_MAX : Z := 65509.
Definition OFP_NO_BUFFER : Z := 4294967295.

(** The headers the handler looks for in a packet, with the fields it
    reads. *)
Record ethernet := { ethertype : Z; src : string; dst : string }.
Record ipv4 := { proto : Z }.
Record udp := { dst_port : Z }.

(** [packet.Packet(msg.data)]: what [get_protocol] finds for each of the
    three protocols. *)
Record packet := {
  get_ethernet : option ethernet;
  get_ipv4 : option ipv4;
  get_udp : option udp
}.

(** A packet-in event: the datapath, [msg.match['in_port']],
    [msg.buffer_id], [msg.data] and the parse of the data. *)
Record packet_in := {
  datapath : Controller.datapath;
  in_port : Z;
  buffer_id : Z;
  data : list Byte.byte;
  pkt : packet
}.

Record OFPPacketOut := {
  out_buffer_id : Z;
  out_in_port : Z;
  out_actions : list Controller.action;
  out_data : option (list Byte.byte)
}.

(** The controller with its MAC tables, one per switch, and the log of the
    packet-out messages passed to [datapath.send_msg], oldest first.  Within
    one call of the handler the flow entry, if any, is sent before the
    packet-out. *)
Record state := {
  controller : Controller.state;
  mac_to_port : gmap Z (gmap string Z);
  packets_out : list (Controller.datapath * OFPPacketOut)
}.

(** [__init__] *)
Definition init (now : float) : state :=
  {| controller := Controller.init now; mac_to_port := ∅; packets_out := [] |}.

(** [packet_in_handler] *)
Definition packet_in_handler (ev : packet_in) (self : state) : state :=
  let datapath := datapath ev in
  let dpid := Controller.id datapath in
  let in_port := in_port ev in
  match get_ethernet (pkt ev) with
  | None => self
  | Some eth =>
      (* Ignore LLDP *)
      if ethertype eth =? 35020 then self
      else
        let src := src eth in
        let dst := dst eth in
        (* Initialize MAC table for this switch *)
        let mac_to_port :=
          match mac_to_port self !! dpid with
          | Some _ => mac_to_port self
          | None => <[dpid := ∅]> (mac_to_port self)
          end in
        (* Learn source MAC *)
        let table := <[src := in_port]> (default ∅ (mac_to_port !! dpid)) in
        let mac_to_port := <[dpid := table]> mac_to_port in
        (* Determine output port *)
        let out_port :=
          match table !! dst with
          | Some port => port
          | None => OFPP_FLOOD
          end in
        let actions := [Controller.OFPActionOutput out_port OFPCML_MAX] in
        (* Install flow for known destination *)
        let '(actions, controller) :=
          if negb (out_port =? OFPP_FLOOD) then
            match get_ipv4 (pkt ev), get_udp (pkt ev) with
            | Some _, Some udp_pkt =>
                let dst_port := dst_port udp_pkt in
                match Controller.SLICE_CONFIG_get Controller.SLICE_CONFIG dst_port with
                | Some config =>
                    let actions :=
                      [Controller.OFPActionSetField_ip_dscp (Controller.dscp config);
                       Controller.OFPActionOutput out_port OFPCML_MAX] in
                    let match_ :=
                      {| Controller.in_port := Some in_port;
                         Controller.eth_dst := Some dst;
                         Controller.eth_type := Some 2048;
                         Controller.ip_proto := Some 17;
                         Controller.udp_dst := Some dst_port |} in
                    (actions,
                     Controller._add_flow datapath (Controller.priority config)
                       match_ actions 60 0 0 (controller self))
                | None => (actions, controller self)
                end
            | _, _ =>
                (* Regular L2 flow *)
                let match_ :=
                  {| Controller.in_port := Some in_port;
                     Controller.eth_dst := Some dst;
                     Controller.eth_type := None;
                     Controller.ip_proto := None;
                     Controller.udp_dst := None |} in
                (actions,
                 Controller._add_flow datapath 1 match_ actions 60 0 0
                   (controller self))
            end
          else (actions, controller self) in
        (* Send packet out *)
        let data := if buffer_id ev =? OFP_NO_BUFFER then Some (data ev) else None in
        let out :=
          {| out_buffer_id := buffer_id ev; out_in_port := in_port;
             out_actions := actions; out_data := data |} in
        {| controller := controller;
           mac_to_port := mac_to_port;
           packets_out := packets_out self ++ [(datapath, out)] |}
  end.

(** The events the controller handles, and the states it goes through. *)
Inductive event :=
| Core (e : Controller.event)
| PacketIn (ev : packet_in).

Definition handle (e : event) (self : state) : state :=
  match e with
  | Core e =>
      {| controller := Controller.handle e (controller self);
         mac_to_port := mac_to_port self;
         packets_out := packets_out self |}
  | PacketIn ev => packet_in_handler ev self
  end.

Inductive reachable : state -> Prop :=
| reach_init now : reachable (init now)
| reach_handle e self : reachable self -> reachable (handle e self).

End PacketIn.

(** The port a MAC address was learned on, on a switch. *)
Definition learned (self : PacketIn.state) (dpid : Z) (mac : string) : option Z :=
  table ← PacketIn.mac_to_port self !! dpid; table !! mac.

(** A frame the handler acts on: it has an Ethernet header and is not
    LLDP. *)
Definition handled (ev : PacketIn.packet_in) (eth : PacketIn.ethernet) : Prop :=
  PacketIn.get_ethernet (PacketIn.pkt ev) = Some eth /\
  PacketIn.ethertype eth <> 35020.

(** The flow entries among the messages of a log, with their actions. *)
Definition flow_actions (instructions : list Controller.instruction)
    : list Controller.action :=
  concat (omap (fun i => match i with
                         | Controller.OFPInstructionActions _ actions => Some actions
                         | _ => None
                         end) instructions).

(** A flow entry is well marked: if it matches a UDP destination port, the
    port is a slice port, the entry has the priority of that slice, matches
    IPv4/UDP and sets the DSCP value of that slice; if it matches no UDP
    port, its priority is 0 or 1. *)
Definition well_marked (m : Controller.message) : Prop :=
  match m with
  | Controller.OFPFlowMod priority match_ instructions _ _ _ =>
      match Controller.udp_dst match_ with
      | Some port =>
          exists config,
            Controller.SLICE_CONFIG_get Controller.SLICE_CONFIG port = Some config /\
            priority = Controller.priority config /\
            Controller.eth_type match_ = Some 2048 /\
            Controller.ip_proto match_ = Some 17 /\
            Controller.OFPActionSetField_ip_dscp (Controller.dscp config) ∈
              flow_actions instructions
      | None => priority = 0 \/ priority = 1
      end
  | _ => True
  end.

(** The output port the handler chooses for a frame: the ingress port when
    the frame is addressed to its own source, the port its destination was
    learned on, or [OFPP_FLOOD]. *)
Definition out_port_of (ev : PacketIn.packet_in) (eth : PacketIn.ethernet)
    (self : PacketIn.state) : Z :=
  if decide (PacketIn.dst eth = PacketIn.src eth) then PacketIn.in_port ev
  else default PacketIn.OFPP_FLOOD
         (learned self (Controller.id (PacketIn.datapath ev)) (PacketIn.dst eth)).

(** An event that learns [mac] on switch [dpid]. *)
Definition relearns (dpid : Z) (mac : string) (e : PacketIn.event) : Prop :=
  match e with
  | PacketIn.PacketIn ev =>
      Controller.id (PacketIn.datapath ev) = dpid /\
      exists eth, handled ev eth /\ PacketIn.src eth = mac
  | PacketIn.Core _ => False
  end.

(** The state after a sequence of events. *)
Definition run_events (events : list PacketIn.event) (self : PacketIn.state)
    : PacketIn.state :=
  fold_left (fun self e => PacketIn.handle e self) events self.

(** Two frames between hosts [a] (port 1) and [b] (port 2) of switch 1, the
    second a UDP datagram to [udp_port]. *)
Definition frame (src dst : string) (in_port : Z) (udp_port : option Z)
    : PacketIn.packet_in :=
  {| PacketIn.datapath := {| Controller.id := 1 |};
     PacketIn.in_port := in_port;
     PacketIn.buffer_id := PacketIn.OFP_NO_BUFFER;
     PacketIn.data := [];
     PacketIn.pkt :=
       {| PacketIn.get_ethernet :=
            Some {| PacketIn.ethertype := 2048; PacketIn.src := src;
                    PacketIn.dst := dst |};
          PacketIn.get_ipv4 := Some {| PacketIn.proto := 17 |};
          PacketIn.get_udp :=
            (fun p => {| PacketIn.dst_port := p |}) <$> udp_port |} |}.

(** ** monitoring/metrics_collector.py: one poll *)

(** The slice a flow entry of the controller's answer belongs to, if
    any. *)
Definition slice_of_flow (flow : MetricsCollector.flow) : option string :=
  match MetricsCollector.udp_dst flow with
  | Some udp_dst =>
      if udp_dst =? 0 then None else MetricsCollector.PORT_TO_SLICE udp_dst
  | None => None
  end.

(** The flow entries of a slice in an answer, in the order of the answer. *)
Definition slice_flows (slice_name : string) (flows : list MetricsCollector.flow)
    : list MetricsCollector.flow :=
  filter (fun flow => slice_of_flow flow = Some slice_name) flows.

(** The sample stored for a flow entry. *)
Definition sample_of (flow : MetricsCollector.flow) : MetricsCollector.prev_entry :=
  {| MetricsCollector.prev_bytes := default 0 (MetricsCollector.byte_count flow);
     MetricsCollector.prev_packets := default 0 (MetricsCollector.packet_count flow) |}.

(** The byte count a flow entry of [slice_name] is rated against when the
    entries [before] precede it in the same answer. *)
Definition rated_against (prev : gmap string MetricsCollector.prev_entry)
    (slice_name : string) (before : list MetricsCollector.flow) : Z :=
  match last (slice_flows slice_name before) with
  | Some flow => default 0 (MetricsCollector.byte_count flow)
  | None => collector_prev_bytes prev slice_name
  end.

(** A flow entry of the rule of [port] with the given byte count. *)
Definition port_flow (port bytes : Z) : MetricsCollector.flow :=
  {| MetricsCollector.udp_dst := Some port;
     MetricsCollector.byte_count := Some bytes;
     MetricsCollector.packet_count := Some 100;
     MetricsCollector.flow_duration_sec := Some 1;
     MetricsCollector.flow_priority := Some 100 |}.

(** ** monitoring/metrics_collector.py: the collector's own SLA check *)

Module CollectorSla.

(** One entry of the local table [sla_requirements]; the thresholds are the
    literals of the source, integers and floats. *)
Record requirements := {
  min_bandwidth_mbps : num;
  max_latency_ms : num;
  max_jitter_ms : num;
  max_packet_loss_pct : num
}.

Definition sla_requirements (slice_name : string) : option requirements :=
  if String.eqb slice_name "URLLC" then
    Some {| min_bandwidth_mbps := Int 5; max_latency_ms := Int 5;
            max_jitter_ms := Int 1;
            max_packet_loss_pct := Float (PyNum.decimal 1 1000) |}
  else if String.eqb slice_name "eMBB" then
    Some {| min_bandwidth_mbps := Int 50; max_latency_ms := Int 20;
            max_jitter_ms := Int 5;
            max_packet_loss_pct := Float (PyNum.of_Z 1) |}
  else if String.eqb slice_name "mMTC" then
    Some {| min_bandwidth_mbps := Int 1; max_latency_ms := Int 100;
            max_jitter_ms := Int 20;
            max_packet_loss_pct := Float (PyNum.of_Z 1) |}
  else None.

(** [metrics[key]] *)
Definition getitem (metrics : gmap string num) (key : string) : outcome num :=
  match metrics !! key with
  | Some v => Ok v
  | None => Raise (KeyError key)
  end.

(** [_check_sla] *)
Definition _check_sla (slice_name : string) (metrics : gmap string num)
    : outcome string :=
  let sla := sla_requirements slice_name in
  match sla with
  | None => Ok "unknown"
  | Some sla =>
      let violations : list string := [] in
      bandwidth ← getitem metrics "bandwidth_mbps";
      let violations :=
        if bandwidth <# min_bandwidth_mbps sla then violations ++ ["bandwidth"]
        else violations in
      latency ← getitem metrics "latency_ms";
      let violations :=
        if latency ># max_latency_ms sla then violations ++ ["latency"]
        else violations in
      jitter ← getitem metrics "jitter_ms";
      let violations :=
        if jitter ># max_jitter_ms sla then violations ++ ["jitter"]
        else violations in
      packet_loss ← getitem metrics "packet_loss_pct";
      let violations :=
        if packet_loss ># max_packet_loss_pct sla then violations ++ ["packet_loss"]
        else violations in
      Ok (match violations with [] => "compliant" | _ :: _ => "violated" end)
  end.

End CollectorSla.

(** The four measurements are present and are binary64 values. *)
Definition measured (metrics : gmap string float) : Prop :=
  forall key,
    key ∈ ["bandwidth_mbps"; "latency_ms"; "jitter_ms"; "packet_loss_pct"] ->
    exists f, metrics !! key = Some f /\
              valid_binary PyNum.prec PyNum.emax f = true.

(** A compliant sample for every slice. *)
Definition good_metrics : gmap string float :=
  <["bandwidth_mbps" := PyNum.of_Z 60]>
    (<["latency_ms" := PyNum.of_Z 2]>
       (<["jitter_ms" := PyNum.decimal 5 10]>
          (<["packet_loss_pct" := PyNum.fzero]> ∅))).

(** ** slice_manager.py: the module-level manager *)

Module SliceManagerModule.

(** The module global [_manager_instance]: unset, or the one manager
    object; what a method does to the manager it does to this object. *)
Definition global : Type := option SliceManager.state.

(** [get_slice_manager]: the manager, constructed when the global is
    unset, and the global that then holds it. *)
Definition get_slice_manager (_manager_instance : global)
    : SliceManager.state * global :=
  match _manager_instance with
  | None => let manager := SliceManager.init in (manager, Some manager)
  | Some manager => (manager, Some manager)
  end.

Definition SliceType_value (t : SliceType) : string :=
  match t with
  | URLLC => "URLLC"
  | EMBB => "eMBB"
  | MMTC => "mMTC"
  end.

(** The dictionary [SliceConfig.to_dict] builds; [sla] is the dictionary of
    the four thresholds. *)
Record config_dict := {
  dict_name : string;
  dict_slice_type : string;
  dict_port : Z;
  dict_dscp : Z;
  dict_sla : SLARequirements;
  dict_priority : Z;
  dict_description : string
}.

Definition to_dict (self : SliceConfig) : config_dict :=
  {| dict_name := SliceManager.name self;
     dict_slice_type := SliceType_value (SliceManager.slice_type self);
     dict_port := SliceManager.port self;
     dict_dscp := SliceManager.dscp self;
     dict_sla := SliceManager.sla self;
     dict_priority := SliceManager.priority self;
     dict_description := SliceManager.description self |}.

(** [get_slice_config] of the module *)
Definition get_slice_config (slice_name : string) (_manager_instance : global)
    : option config_dict * global :=
  let '(manager, _manager_instance) := get_slice_manager _manager_instance in
  let config := SliceManager.slices manager !! slice_name in
  (match config with
   | Some config => Some (to_dict config)
   | None => None
   end,
   _manager_instance).

(** [check_sla] of the module: the check runs on the manager object, which
    the global keeps holding. *)
Definition check_sla (now : nat -> string) (slice_name : string)
    (metrics : gmap string num) (_manager_instance : global)
    : outcome result * global :=
  let '(manager, _manager_instance) := get_slice_manager _manager_instance in
  let '(r, manager) := SliceManager.check_sla now slice_name metrics manager in
  (r, Some manager).

End SliceManagerModule.

(** A sequence of checks: for each, the clock, the slice name and the
    measurements. *)
Definition checks : Type := list ((nat -> string) * string * gmap string num).

(** The checks run through the module-level function, and on one
    manager. *)
Definition module_checks (calls : checks) (g : SliceManagerModule.global)
    : SliceManagerModule.global :=
  fold_left (fun g '(now, slice_name, metrics) =>
               snd (SliceManagerModule.check_sla now slice_name metrics g))
            calls g.

Definition manager_checks (calls : checks) (self : state) : state :=
  fold_left (fun self '(now, slice_name, metrics) =>
               snd (SliceManager.check_sla now slice_name metrics self))
            calls self.

(** * Proofs *)

(** ** The float model on sample values

    Bit patterns of the literals of the source and samples of [round(x, 3)],
    [float(int)] and the comparison of an [int] with a [float], as CPython
    computes them. *)

Example literal_0_8 : PyNum.decimal 8 10 = S754_finite false 7205759403792794 (-53).
Proof. reflexivity. Qed.

Example literal_1_2 : PyNum.decimal 12 10 = S754_finite false 5404319552844595 (-52).
Proof. reflexivity. Qed.

Example literal_0_001 : PyNum.decimal 1 1000 = S754_finite false 4611686018427388 (-62).
Proof. reflexivity. Qed.

Example round3_2_675 : PyNum.round3_float (PyNum.decimal 2675 1000) = PyNum.decimal 2675 1000.
Proof. vm_compute. reflexivity. Qed.

Example round3_0_0005 : PyNum.round3_float (PyNum.decimal 5 10000) = PyNum.decimal 1 1000.
Proof. vm_compute. reflexivity. Qed.

Example round3_1_0005 : PyNum.round3_float (PyNum.decimal 10005 10000) = PyNum.of_Z 1.
Proof. vm_compute. reflexivity. Qed.

Example round3_negative_tiny :
  PyNum.round3_float (SFopp (PyNum.decimal 4 10000)) = S754_zero true.
Proof. vm_compute. reflexivity. Qed.

Example float_of_int_2_53_plus_1 :
  PyNum.float_of_int (2 ^ 53 + 1) = Ok (S754_finite false 4503599627370496 1).
Proof. vm_compute. reflexivity. Qed.

Example float_of_int_overflow : PyNum.float_of_int (2 ^ 1024) = Raise OverflowError.
Proof. vm_compute. reflexivity. Qed.

Example int_float_compare_exact :
  (Int (2 ^ 53 + 1) ==# Float (PyNum.of_Z (2 ^ 53 + 1))) = false /\
  (Int (2 ^ 53 + 1) ># Float (PyNum.of_Z (2 ^ 53 + 1))) = true.
Proof. split; vm_compute; reflexivity. Qed.

Example scenario_one_mbps :
  (v ← rate 125000 0 (PyNum.of_Z 1); Ok (PyNum.round3 v)) = Ok (Float (PyNum.of_Z 1)).
Proof. vm_compute. reflexivity. Qed.

(** ** Facts about Python numbers *)

Section NumFacts.

Lemma pow2_pos e : 0 <= e -> 0 < 2 ^ e.
Proof. intros H. apply Z.pow_pos_nonneg; lia. Qed.

(** The [int] zero compares with a float exactly as [0.0] does. *)
Lemma compare_zero_float f :
  PyNum.compare (Int 0) (Float f) = SFcompare PyNum.fzero f.
Proof.
  destruct f as [s|s| |s m e]; try reflexivity.
  unfold PyNum.compare, PyNum.Z_compare_float, PyNum.fzero, SFcompare.
  destruct (Z.leb_spec 0 e) as [He|He]; [|destruct s; reflexivity].
  pose proof (pow2_pos e He) as Hp. f_equal.
  destruct s.
  - apply Z.compare_gt_iff. nia.
  - apply Z.compare_lt_iff. nia.
Qed.

Lemma compare_float_zero f :
  PyNum.compare (Float f) (Int 0) = SFcompare f PyNum.fzero.
Proof.
  unfold PyNum.compare at 1. fold (PyNum.compare (Int 0) (Float f)).
  rewrite compare_zero_float.
  destruct f as [s|s| |s m e]; try reflexivity; destruct s; reflexivity.
Qed.

Lemma eqb_float_zero f : (Float f ==# Int 0) = SFeqb f PyNum.fzero.
Proof. unfold PyNum.eqb, SFeqb. now rewrite compare_float_zero. Qed.

Lemma ltb_zero_float f : (Int 0 <# Float f) = SFltb PyNum.fzero f.
Proof. unfold PyNum.ltb, SFltb. now rewrite compare_zero_float. Qed.

Lemma ltb_float_zero f : (Float f <# Int 0) = SFltb f PyNum.fzero.
Proof. unfold PyNum.ltb, SFltb. now rewrite compare_float_zero. Qed.

Lemma leb_zero_float f : (Int 0 <=# Float f) = SFleb PyNum.fzero f.
Proof. unfold PyNum.leb, SFleb. now rewrite compare_zero_float. Qed.

(** A number converts to a float unless it is an [int] beyond the range,
    and then the conversion raises [OverflowError]. *)
Lemma to_float_in_range x :
  overflows x = false -> exists fa, PyNum.to_float x = Ok fa.
Proof.
  destruct x as [z|f]; cbn [overflows PyNum.to_float]; [|eauto].
  unfold PyNum.float_of_int. intros ->. eauto.
Qed.

Lemma to_float_out_of_range x :
  overflows x = true -> PyNum.to_float x = Raise OverflowError.
Proof.
  destruct x as [z|f]; cbn [overflows PyNum.to_float]; [|discriminate].
  unfold PyNum.float_of_int. now intros ->.
Qed.

Lemma to_float_returns x fa :
  PyNum.to_float x = Ok fa -> overflows x = false.
Proof.
  destruct (overflows x) eqn:E; [|done].
  rewrite (to_float_out_of_range _ E). discriminate.
Qed.

Lemma metrics_get_float (metrics : gmap string float) key :
  overflows (metrics_get (Float <$> metrics) key) = false.
Proof.
  unfold metrics_get. rewrite lookup_fmap. now destruct (metrics !! key).
Qed.

(** The guard [expected == 0] keeps the division of [_get_severity] away
    from a zero divisor. *)
Lemma truediv_nonzero actual expected fa :
  PyNum.to_float actual = Ok fa ->
  (Float expected ==# Int 0) = false ->
  PyNum.truediv actual expected = Ok (Float (SFdiv PyNum.prec PyNum.emax fa expected)).
Proof.
  intros Hfa Hz. unfold PyNum.truediv. rewrite Hfa. cbn [mbind outcome_bind obind].
  rewrite eqb_float_zero in Hz. now rewrite Hz.
Qed.

End NumFacts.


(** ** The order on floats and numbers *)

Section OrderFacts.

Ltac fold_pos_compare :=
  repeat match goal with
  | |- context [Pos.compare_cont Eq ?a ?b] =>
      change (Pos.compare_cont Eq a b) with (Pos.compare a b)
  end.

Ltac order_cases :=
  unfold SFleb, SFltb, SFcompare;
  repeat match goal with
  | x : spec_float |- _ => destruct x as [[]|[]| |[] ? ?]
  end;
  try discriminate; try reflexivity; fold_pos_compare;
  repeat match goal with
  | |- context [Z.compare ?a ?b] => destruct (Z.compare_spec a b)
  end;
  try discriminate; try reflexivity; try lia; subst;
  repeat match goal with
  | |- context [Pos.compare ?a ?b] => destruct (Pos.compare_spec a b)
  end;
  cbn [CompOpp]; try discriminate; try reflexivity; try lia.

Lemma SFcompare_antisym x y :
  SFcompare y x = CompOpp <$> SFcompare x y.
Proof.
  destruct x as [[]|[]| |[] mx ex], y as [[]|[]| |[] my ey]; try reflexivity;
    cbn [SFcompare fmap option_fmap option_map]; fold_pos_compare;
    rewrite (Z.compare_antisym ex ey), (Pos.compare_antisym mx my);
    destruct (ex ?= ey); cbn [CompOpp]; try reflexivity;
    now rewrite ?CompOpp_involutive.
Qed.

Lemma SFleb_SFltb_trans a b c :
  SFleb a b = true -> SFltb b c = true -> SFltb a c = true.
Proof. order_cases. Qed.

Lemma SFltb_SFleb_trans a b c :
  SFltb a b = true -> SFleb b c = true -> SFltb a c = true.
Proof. order_cases. Qed.

Lemma compare_antisym a b :
  PyNum.compare b a = CompOpp <$> PyNum.compare a b.
Proof.
  destruct a as [x|x], b as [y|y]; cbn [PyNum.compare].
  - cbn. now rewrite (Z.compare_antisym x y).
  - reflexivity.
  - destruct (PyNum.Z_compare_float y x) as [[]|]; reflexivity.
  - apply SFcompare_antisym.
Qed.



Lemma ltb_not_geb a b : (a <# b) = true -> (a >=# b) = false.
Proof.
  unfold PyNum.ltb, PyNum.geb, PyNum.leb. rewrite (compare_antisym a b).
  now destruct (PyNum.compare a b) as [[]|].
Qed.

Lemma gtb_not_leb a b : (a ># b) = true -> (a <=# b) = false.
Proof.
  unfold PyNum.gtb, PyNum.ltb, PyNum.leb. rewrite (compare_antisym b a).
  now destruct (PyNum.compare b a) as [[]|].
Qed.

Lemma leb_not_gtb a b : (a <=# b) = true -> (a ># b) = false.
Proof.
  unfold PyNum.gtb, PyNum.ltb, PyNum.leb. rewrite (compare_antisym a b).
  now destruct (PyNum.compare a b) as [[]|].
Qed.

(** A ratio below 0.5 is not at least 0.8, and one above 2.0 is not at most
    1.2. *)
Lemma ltb_half_not_geb_08 r :
  (Float r <# Float (PyNum.decimal 5 10)) = true ->
  (Float r >=# Float (PyNum.decimal 8 10)) = false.
Proof.
  intros H. destruct (Float r >=# Float (PyNum.decimal 8 10)) eqn:H8; [|done].
  change (SFleb (PyNum.decimal 8 10) r = true) in H8.
  change (SFltb r (PyNum.decimal 5 10) = true) in H.
  pose proof (SFleb_SFltb_trans _ _ _ H8 H) as Habs.
  vm_compute in Habs. discriminate.
Qed.

Lemma gtb_two_not_leb_12 r :
  (Float r ># Float (PyNum.of_Z 2)) = true ->
  (Float r <=# Float (PyNum.decimal 12 10)) = false.
Proof.
  intros H. destruct (Float r <=# Float (PyNum.decimal 12 10)) eqn:H12; [|done].
  change (SFltb (PyNum.of_Z 2) r = true) in H.
  change (SFleb r (PyNum.decimal 12 10) = true) in H12.
  pose proof (SFltb_SFleb_trans _ _ _ H H12) as Habs.
  vm_compute in Habs. discriminate.
Qed.

End OrderFacts.


(** ** Facts about [check_sla] *)

Section CheckSlaFacts.

Variable now : nat -> string.

Lemma _get_severity_zero expected actual rt :
  (Float expected ==# Int 0) = true ->
  _get_severity expected actual rt = Ok "critical".
Proof. intros H. unfold _get_severity. now rewrite H. Qed.

Lemma _get_severity_min expected actual fa :
  PyNum.to_float actual = Ok fa ->
  (Float expected ==# Int 0) = false ->
  _get_severity expected actual "min" =
    let ratio := Float (SFdiv PyNum.prec PyNum.emax fa expected) in
    Ok (if ratio >=# Float (PyNum.decimal 8 10) then "minor"
        else if ratio >=# Float (PyNum.decimal 5 10) then "major"
        else "critical").
Proof.
  intros Hfa Hz. unfold _get_severity. rewrite Hz.
  rewrite (truediv_nonzero _ _ _ Hfa Hz).
  cbn [String.eqb Ascii.eqb Bool.eqb mbind outcome_bind obind].
  repeat destruct (_ >=# _); reflexivity.
Qed.

Lemma _get_severity_max expected actual fa rt :
  PyNum.to_float actual = Ok fa ->
  (Float expected ==# Int 0) = false ->
  String.eqb rt "min" = false ->
  _get_severity expected actual rt =
    let ratio := Float (SFdiv PyNum.prec PyNum.emax fa expected) in
    Ok (if ratio <=# Float (PyNum.decimal 12 10) then "minor"
        else if ratio <=# Float (PyNum.of_Z 2) then "major"
        else "critical").
Proof.
  intros Hfa Hz Hrt. unfold _get_severity. rewrite Hz, Hrt.
  rewrite (truediv_nonzero _ _ _ Hfa Hz).
  cbn [mbind outcome_bind obind].
  repeat destruct (_ <=# _); reflexivity.
Qed.

(** [_get_severity] returns on every value that converts to a float, and
    raises [OverflowError] on the others unless the threshold is zero. *)
Lemma _get_severity_total expected actual rt :
  overflows actual = false ->
  exists sev, _get_severity expected actual rt = Ok sev.
Proof.
  intros Hin. destruct (to_float_in_range actual Hin) as [fa Hfa].
  destruct (Float expected ==# Int 0) eqn:Hz.
  - rewrite _get_severity_zero by done. eauto.
  - destruct (String.eqb rt "min") eqn:Hrt.
    + apply String.eqb_eq in Hrt. subst rt.
      rewrite (_get_severity_min _ _ _ Hfa Hz). eauto.
    + rewrite (_get_severity_max _ _ _ _ Hfa Hz Hrt). eauto.
Qed.

Lemma _get_severity_out_of_range expected actual rt :
  (Float expected ==# Int 0) = false ->
  overflows actual = true ->
  _get_severity expected actual rt = Raise OverflowError.
Proof.
  intros Hz Hout. unfold _get_severity, PyNum.truediv.
  rewrite Hz, (to_float_out_of_range _ Hout).
  now destruct (String.eqb rt "min").
Qed.

(** [_get_severity] raises nothing but [OverflowError], and only on a value
    that does not convert. *)
Lemma _get_severity_raises expected actual rt e :
  _get_severity expected actual rt = Raise e ->
  e = OverflowError /\ overflows actual = true /\
  (Float expected ==# Int 0) = false.
Proof.
  destruct (overflows actual) eqn:Hout.
  - destruct (Float expected ==# Int 0) eqn:Hz.
    + now rewrite _get_severity_zero.
    + rewrite _get_severity_out_of_range by done. now intros [= <-].
  - destruct (_get_severity_total expected actual rt Hout) as [sev ->].
    discriminate.
Qed.



(** A failing computation of the local list raises [OverflowError], for
    the measurement of a breached dimension that does not convert. *)
Lemma sla_violations_raises slice_name sla metrics e :
  sla_violations now slice_name sla metrics = Raise e ->
  e = OverflowError /\
  exists vtype,
    vtype ∈ breached sla metrics /\
    overflows (metrics_get metrics (metrics_key vtype)) = true.
Proof.
  unfold sla_violations, breach, breached. cbv zeta.
  repeat match goal with
  | |- context [if ?b then _ else _] => destruct b
  end;
  repeat (cbn [mbind outcome_bind obind];
          match goal with
          | |- context [_get_severity ?th ?v ?rt] =>
              let Hsev := fresh "Hsev" in
              destruct (_get_severity th v rt) as [?|?] eqn:Hsev;
              [|apply _get_severity_raises in Hsev as (-> & ? & _)]
          end);
  cbn [mbind outcome_bind obind app]; try discriminate;
  intros [= <-]; (split; [reflexivity|]);
  first [ exists "bandwidth"; split;
          [repeat first [apply list_elem_of_here | apply list_elem_of_further]
          |assumption]
        | exists "latency"; split;
          [repeat first [apply list_elem_of_here | apply list_elem_of_further]
          |assumption]
        | exists "jitter"; split;
          [repeat first [apply list_elem_of_here | apply list_elem_of_further]
          |assumption]
        | exists "packet_loss"; split;
          [repeat first [apply list_elem_of_here | apply list_elem_of_further]
          |assumption] ].
Qed.

(** [check_sla] on a registered slice: the local list is computed, then
    tracked. *)
Lemma check_sla_unfold slice_name metrics self config :
  slices self !! slice_name = Some config ->
  check_sla now slice_name metrics self =
    match sla_violations now slice_name (sla config) metrics with
    | Ok vs => track slice_name (sla config) metrics vs self
    | Raise e => (Raise e, self)
    end.
Proof.
  intros Hcfg. unfold check_sla, sla_violations, breach.
  unfold mbind, mret, Py_bind, Py_ret, py_bind, py_ret, py_get, py_lift,
    py_modify, outcome_bind, obind.
  rewrite Hcfg. cbn beta iota.
  unfold PyNum.gtb.
  repeat match goal with
  | |- context [PyNum.ltb ?a ?b] => destruct (PyNum.ltb a b)
  | |- context [_get_severity ?e ?a ?rt] => destruct (_get_severity e a rt)
  end; try reflexivity;
  cbn [app track set_violations set_violation_counts violation_counts
       violations slices length];
  destruct (violation_counts self !! slice_name); reflexivity.
Qed.

End CheckSlaFacts.

(** ** Invariants of the manager *)

Section ManagerInvariants.

Lemma track_slices slice_name sla metrics vs self :
  slices (snd (track slice_name sla metrics vs self)) = slices self.
Proof.
  unfold track. destruct vs; [done|].
  destruct (violation_counts self !! slice_name); reflexivity.
Qed.

Lemma track_counters_cover slice_name sla metrics vs self :
  counters_cover self ->
  counters_cover (snd (track slice_name sla metrics vs self)).
Proof.
  intros Hcov. unfold track. destruct vs; [done|].
  destruct (violation_counts self !! slice_name) eqn:Hc; cbn; [|exact Hcov].
  intros k Hk. cbn in *. destruct (decide (slice_name = k)) as [->|Hne].
  - rewrite lookup_insert_eq. eauto.
  - rewrite lookup_insert_ne by done. auto.
Qed.

Lemma check_sla_frame now slice_name metrics self :
  slices (snd (check_sla now slice_name metrics self)) = slices self /\
  (counters_cover self ->
   counters_cover (snd (check_sla now slice_name metrics self))).
Proof.
  destruct (slices self !! slice_name) as [config|] eqn:Hcfg.
  - rewrite (check_sla_unfold now _ _ _ _ Hcfg).
    destruct (sla_violations now slice_name (sla config) metrics); [|done].
    split; [apply track_slices | apply track_counters_cover].
  - unfold check_sla, mbind, Py_bind, py_bind, py_get. now rewrite Hcfg.
Qed.

Lemma init_counters_cover : counters_cover init.
Proof.
  intros k [c Hk]. unfold init, _init_default_slices in *.
  cbn [slices violations violation_counts] in *.
  apply lookup_union_is_Some. left. rewrite lookup_fmap. now rewrite Hk.
Qed.

Lemma clear_counters_cover self :
  counters_cover self -> counters_cover (clear_violations self).
Proof.
  intros Hcov k Hk. unfold clear_violations in *. cbn in *.
  rewrite lookup_fmap. destruct (Hcov k Hk) as [c ->]. eauto.
Qed.

(** No method changes the registry, and the counters keep covering it. *)
Lemma reachable_invariant self :
  reachable self -> slices self = slices init /\ counters_cover self.
Proof.
  induction 1 as [|now slice_name metrics self _ [IHs IHc]|self _ [IHs IHc]].
  - split; [done | apply init_counters_cover].
  - destruct (check_sla_frame now slice_name metrics self) as [Hs Hc].
    split; [congruence | auto].
  - split; [exact IHs | now apply clear_counters_cover].
Qed.

Lemma init_slices_lookup k config :
  slices init !! k = Some config ->
  (k = "URLLC" /\ sla config = DEFAULT_SLAS URLLC) \/
  (k = "eMBB" /\ sla config = DEFAULT_SLAS EMBB) \/
  (k = "mMTC" /\ sla config = DEFAULT_SLAS MMTC).
Proof.
  unfold init, _init_default_slices. cbn [slices]. intros H.
  destruct (decide (k = "mMTC")) as [->|H1].
  { rewrite lookup_insert_eq in H. inversion H. auto. }
  rewrite lookup_insert_ne in H by done.
  destruct (decide (k = "eMBB")) as [->|H2].
  { rewrite lookup_insert_eq in H. inversion H. auto. }
  rewrite lookup_insert_ne in H by done.
  destruct (decide (k = "URLLC")) as [->|H3].
  { rewrite lookup_insert_eq in H. inversion H. auto. }
  rewrite lookup_insert_ne in H by done.
  now rewrite lookup_empty in H.
Qed.

End ManagerInvariants.


Ltac sla_cases H :=
  unfold sla_violations, breach in H; cbv zeta in H;
  repeat match type of H with
  | context [if ?b then _ else _] => destruct b eqn:?
  end;
  repeat (cbn [mbind outcome_bind obind app length] in H;
          match type of H with
          | context [_get_severity ?th ?v ?rt] =>
              let sev := fresh "sev" in
              let Hsev := fresh "Hsev" in
              destruct (_get_severity th v rt) as [sev|?] eqn:Hsev;
              [|cbn [mbind outcome_bind obind] in H; discriminate H]
          end);
  cbn [mbind outcome_bind obind app length] in H;
  injection H as <-.

Section SeverityFacts.

Lemma gtb_zero_not_eqb th :
  (Float th ># Int 0) = true -> (Float th ==# Int 0) = false.
Proof.
  unfold PyNum.gtb, PyNum.ltb, PyNum.eqb. rewrite (compare_antisym (Int 0) (Float th)).
  now destruct (PyNum.compare (Int 0) (Float th)) as [[]|].
Qed.

(** What [_get_severity] returns for a positive threshold is the grade of
    the ratio test on the quotient it computed. *)
Lemma _get_severity_ratio_test th value rt sev :
  _get_severity th value rt = Ok sev ->
  (Float th ># Int 0) = true ->
  exists ratio,
    PyNum.truediv value th = Ok ratio /\
    if String.eqb rt "min" then ratio_test_min ratio sev
    else ratio_test_max ratio sev.
Proof.
  intros Hsev Hpos. pose proof (gtb_zero_not_eqb _ Hpos) as Hz.
  assert (exists fa, PyNum.to_float value = Ok fa) as [fa Hfa].
  { apply to_float_in_range. destruct (overflows value) eqn:Hout; [|done].
    rewrite _get_severity_out_of_range in Hsev by done. discriminate. }
  exists (Float (SFdiv PyNum.prec PyNum.emax fa th)).
  split; [now apply truediv_nonzero|].
  destruct (String.eqb rt "min") eqn:Hrt.
  - apply String.eqb_eq in Hrt. subst rt.
    rewrite (_get_severity_min _ _ _ Hfa Hz) in Hsev. cbv zeta in Hsev.
    injection Hsev as <-. repeat split.
    + intros ->. reflexivity.
    + intros H5 H8. apply ltb_not_geb in H8. now rewrite H8, H5.
    + intros H5. rewrite (ltb_half_not_geb_08 _ H5).
      apply ltb_not_geb in H5. now rewrite H5.
  - rewrite (_get_severity_max _ _ _ _ Hfa Hz Hrt) in Hsev. cbv zeta in Hsev.
    injection Hsev as <-. repeat split.
    + intros ->. reflexivity.
    + intros H12 H2. apply gtb_not_leb in H12. rewrite H12.
      change (PyNum.of_Z 2) with (binary_round PyNum.prec PyNum.emax false 2 0) in H2.
      now rewrite H2.
    + intros H2. rewrite (gtb_two_not_leb_12 _ H2).
      apply gtb_not_leb in H2.
      change (PyNum.of_Z 2) with (binary_round PyNum.prec PyNum.emax false 2 0) in H2.
      now rewrite H2.
Qed.

Lemma breach_follows_ratio_test name vtype rt th value ts sev :
  _get_severity th value rt = Ok sev ->
  minimum_bound vtype = String.eqb rt "min" ->
  severity_follows_ratio_test
    {| slice_name := name; violation_type := vtype; expected_value := th;
       actual_value := value; timestamp := ts;
       severity := sev |}.
Proof.
  intros Hsev Hkind. unfold severity_follows_ratio_test.
  cbn [expected_value actual_value violation_type severity]. split.
  - intros Hpos. rewrite Hkind.
    exact (_get_severity_ratio_test _ _ _ _ Hsev Hpos).
  - intros Hz. rewrite (_get_severity_zero _ _ _ Hz) in Hsev. congruence.
Qed.

Lemma check_sla_result_violations now name metrics self res self' :
  check_sla now name metrics self = (Ok res, self') ->
  res_violations res = [] \/
  exists config,
    slices self !! name = Some config /\
    sla_violations now name (sla config) metrics = Ok (res_violations res).
Proof.
  destruct (slices self !! name) as [config|] eqn:Hcfg.
  - rewrite (check_sla_unfold now _ _ _ _ Hcfg).
    destruct (sla_violations now name (sla config) metrics) as [vs|e] eqn:Hvs;
      [|done].
    unfold track. destruct vs as [|v vs].
    + intros [= <- <-]. now left.
    + destruct (violation_counts self !! name); [|intros [=]].
      intros [= <- <-]. right. cbn. eauto.
  - unfold check_sla, mbind, Py_bind, py_bind, py_get. rewrite Hcfg.
    intros [= <- <-]. now left.
Qed.

End SeverityFacts.

(** ** Properties of the SLA evaluator *)

(** C1. In every state the manager can reach, the URLLC slice has the
    thresholds 5 Mbps, 5 ms, 1 ms and 0.001 %, and [check_sla] on the sample
    bandwidth 2.0, latency 10.0, jitter 2.0, loss 0.0 returns the status
    [violated] with exactly three violations, of types bandwidth, latency
    and jitter in this order, none of type packet_loss. *)
Theorem check_sla_urllc_three_violations now self :
  reachable self ->
  exists config res self',
    slices self !! "URLLC" = Some config /\
    sla config = {| min_bandwidth_mbps := PyNum.of_Z 5;
                    max_latency_ms := PyNum.of_Z 5;
                    max_jitter_ms := PyNum.of_Z 1;
                    max_packet_loss_pct := PyNum.decimal 1 1000 |} /\
    check_sla now "URLLC" bad_metrics self = (Ok res, self') /\
    res_status res = VIOLATED /\
    SLAStatus_value (res_status res) = "violated" /\
    length (res_violations res) = 3%nat /\
    violation_type <$> res_violations res = ["bandwidth"; "latency"; "jitter"] /\
    Forall (fun v => violation_type v <> "packet_loss") (res_violations res).
Proof.
  intros Hreach. destruct (reachable_invariant self Hreach) as [Hs Hcov].
  assert (exists config, slices self !! "URLLC" = Some config /\
                         sla config = DEFAULT_SLAS URLLC) as (config & Hcfg & Hsla).
  { rewrite Hs. eexists. split; [reflexivity | reflexivity]. }
  destruct (Hcov "URLLC") as [c Hc]; [eauto|].
  exists config.
  rewrite (check_sla_unfold now _ _ _ _ Hcfg), Hsla.
  destruct (sla_violations now "URLLC" (DEFAULT_SLAS URLLC) bad_metrics)
    as [vs|e] eqn:Hvs; vm_compute in Hvs; [|discriminate].
  injection Hvs as <-. unfold track. rewrite Hc.
  do 2 eexists. split; [done|]. split; [reflexivity|]. split; [reflexivity|].
  cbn. repeat split; try done.
  repeat constructor; cbn; discriminate.
Qed.

(** The scenario of C1 in the freshly constructed manager. *)
Lemma check_sla_urllc_three_violations_witness :
  reachable init /\
  exists config res self',
    slices init !! "URLLC" = Some config /\
    sla config = {| min_bandwidth_mbps := PyNum.of_Z 5;
                    max_latency_ms := PyNum.of_Z 5;
                    max_jitter_ms := PyNum.of_Z 1;
                    max_packet_loss_pct := PyNum.decimal 1 1000 |} /\
    check_sla (fun _ => "2024-01-01T00:00:00") "URLLC" bad_metrics init = (Ok res, self') /\
    res_status res = VIOLATED /\
    SLAStatus_value (res_status res) = "violated" /\
    length (res_violations res) = 3%nat /\
    violation_type <$> res_violations res = ["bandwidth"; "latency"; "jitter"] /\
    Forall (fun v => violation_type v <> "packet_loss") (res_violations res).
Proof.
  split; [apply reach_init|].
  apply (check_sla_urllc_three_violations _ init). apply reach_init.
Defined.

(** C2. Every severity that [_get_severity] assigns follows the ratio test,
    for a measured value that is a [float] or an [int]: with [expected > 0]
    and [ratio = actual / expected], the severity of a minimum bound is
    minor for ratio >= 0.8, major for 0.5 <= ratio < 0.8 and critical for
    ratio < 0.5; the severity of a maximum bound is minor for ratio <= 1.2,
    major for 1.2 < ratio <= 2.0 and critical for ratio > 2.0.  Whenever
    [expected == 0], [_get_severity] answers critical whatever the actual
    value and the bound type are.  So every violation that [check_sla]
    returns, for any measurements, carries the severity of the ratio test:
    bandwidth as the minimum bound, latency, jitter and packet loss as
    maximum bounds. *)
Theorem severity_ratio_test :
  (forall expected actual rt,
     (Float expected ==# Int 0) = true ->
     _get_severity expected actual rt = Ok "critical") /\
  (forall expected actual rt sev,
     _get_severity expected actual rt = Ok sev ->
     (Float expected ># Int 0) = true ->
     exists ratio,
       PyNum.truediv actual expected = Ok ratio /\
       if String.eqb rt "min" then ratio_test_min ratio sev
       else ratio_test_max ratio sev) /\
  (forall now name metrics self res self',
     check_sla now name metrics self = (Ok res, self') ->
     Forall severity_follows_ratio_test (res_violations res)).
Proof.
  split; [apply _get_severity_zero|]. split; [apply _get_severity_ratio_test|].
  intros now name metrics self res self' Hcall.
  destruct (check_sla_result_violations _ _ _ _ _ _ Hcall) as [->|(config & _ & Hvs)];
    [constructor|].
  revert Hvs. generalize (res_violations res). intros vs Hvs.
  sla_cases Hvs; repeat constructor;
    (eapply breach_follows_ratio_test; [eassumption | reflexivity]).
Qed.

(** A zero threshold, an [int] measurement graded against a minimum and a
    [float] measurement graded against a maximum, and the violations of the
    self-test in the freshly constructed manager. *)
Lemma severity_ratio_test_witness :
  (Float (S754_zero true) ==# Int 0) = true /\
  _get_severity (S754_zero true) (Float (PyNum.of_Z 7)) "max" = Ok "critical" /\
  (_get_severity (PyNum.of_Z 5) (Int 3) "min" = Ok "major" /\
   (Float (PyNum.of_Z 5) ># Int 0) = true /\
   exists ratio,
     PyNum.truediv (Int 3) (PyNum.of_Z 5) = Ok ratio /\
     ratio_test_min ratio "major") /\
  (_get_severity (PyNum.of_Z 5) (Float (PyNum.of_Z 11)) "max" = Ok "critical" /\
   exists ratio,
     PyNum.truediv (Float (PyNum.of_Z 11)) (PyNum.of_Z 5) = Ok ratio /\
     ratio_test_max ratio "critical") /\
  exists res self',
    check_sla (fun _ => "2024-01-01T00:00:00") "URLLC" bad_metrics init = (Ok res, self') /\
    Forall severity_follows_ratio_test (res_violations res).
Proof.
  assert (_get_severity (PyNum.of_Z 5) (Int 3) "min" = Ok "major") as H3
    by (vm_compute; reflexivity).
  assert (_get_severity (PyNum.of_Z 5) (Float (PyNum.of_Z 11)) "max" = Ok "critical")
    as H11 by (vm_compute; reflexivity).
  assert ((Float (PyNum.of_Z 5) ># Int 0) = true) as Hpos by reflexivity.
  split; [reflexivity|]. split; [|split; [|split]].
  - apply (proj1 severity_ratio_test). reflexivity.
  - split; [exact H3|]. split; [exact Hpos|].
    exact (proj1 (proj2 severity_ratio_test) _ _ _ _ H3 Hpos).
  - split; [exact H11|].
    exact (proj1 (proj2 severity_ratio_test) _ _ _ _ H11 Hpos).
  - destruct (check_sla (fun _ => "2024-01-01T00:00:00") "URLLC" bad_metrics init)
      as [[res|e] self'] eqn:E; [|vm_compute in E; discriminate].
    exists res, self'. split; [reflexivity|].
    exact (proj2 (proj2 severity_ratio_test) _ _ _ _ _ _ E).
Defined.

(** C7. For a slice name that is not registered, [check_sla] returns the
    status [unknown] with an empty list of violations and leaves the manager,
    its ledger and its counters as they were; [unknown] is not
    [compliant]. *)
Theorem check_sla_unknown_slice now name metrics self :
  slices self !! name = None ->
  exists res self',
    check_sla now name metrics self = (Ok res, self') /\
    res_status res = UNKNOWN /\
    SLAStatus_value (res_status res) = "unknown" /\
    res_violations res = [] /\
    res_details res = DetailsError ("Unknown slice: " +:+ name) /\
    self' = self /\
    violations self' = violations self /\
    violation_counts self' = violation_counts self /\
    UNKNOWN <> COMPLIANT /\
    SLAStatus_value UNKNOWN <> SLAStatus_value COMPLIANT.
Proof.
  intros Hnone. unfold check_sla, mbind, Py_bind, py_bind, py_get.
  rewrite Hnone. do 2 eexists. split; [reflexivity|].
  repeat split; discriminate.
Qed.

Lemma check_sla_unknown_slice_witness :
  slices init !! "video" = None /\
  exists res self',
    check_sla (fun _ => "2024-01-01T00:00:00") "video" bad_metrics init = (Ok res, self') /\
    res_status res = UNKNOWN /\
    SLAStatus_value (res_status res) = "unknown" /\
    res_violations res = [] /\
    res_details res = DetailsError ("Unknown slice: " +:+ "video") /\
    self' = init /\
    violations self' = violations init /\
    violation_counts self' = violation_counts init /\
    UNKNOWN <> COMPLIANT /\
    SLAStatus_value UNKNOWN <> SLAStatus_value COMPLIANT.
Proof.
  split; [reflexivity|].
  apply (check_sla_unknown_slice _ "video" bad_metrics init). reflexivity.
Defined.

(** C9. In every state, [clear_violations] followed by
    [get_violation_summary] returns a summary whose total is 0 and in which
    every slice that had a counter has the count 0 and no slice has another
    count. *)
Theorem clear_violations_then_summary self :
  exists s,
    get_violation_summary (clear_violations self) = Ok s /\
    total_violations s = 0 /\
    (forall k n, violations_by_slice s !! k = Some n -> n = 0) /\
    (forall k, is_Some (violation_counts self !! k) ->
               violations_by_slice s !! k = Some 0) /\
    violations_by_type s = ∅.
Proof.
  eexists. split; [reflexivity|]. cbn. repeat split.
  - intros k n. rewrite lookup_fmap.
    destruct (violation_counts self !! k); cbn; congruence.
  - intros k [c Hc]. rewrite lookup_fmap, Hc. reflexivity.
Qed.

(** C9 after the three violations of the self-test have been recorded. *)
Lemma clear_violations_then_summary_witness :
  let self := snd (check_sla (fun _ => "2024-01-01T00:00:00") "URLLC" bad_metrics init) in
  length (violations self) = 3%nat /\
  violation_counts self !! "URLLC" = Some 3 /\
  exists s,
    get_violation_summary (clear_violations self) = Ok s /\
    total_violations s = 0 /\
    violations_by_slice s !! "URLLC" = Some 0 /\
    violations_by_slice s !! "eMBB" = Some 0 /\
    violations_by_slice s !! "mMTC" = Some 0.
Proof.
  cbv zeta. split; [reflexivity|]. split; [reflexivity|].
  destruct (clear_violations_then_summary
              (snd (check_sla (fun _ => "2024-01-01T00:00:00") "URLLC" bad_metrics init)))
    as (s & Hs & Htotal & _ & Hzero & _).
  exists s. split; [exact Hs|]. split; [exact Htotal|].
  repeat split; apply Hzero; eexists; reflexivity.
Defined.


(** C8 as claimed fails for a measurement that is an [int] beyond the range
    of [float]: in a fresh manager the bandwidth -2^1024 is strictly below
    the URLLC threshold, and so is the bandwidth 2.0 measured together with
    the latency 2^1024; in both cases grading raises [OverflowError], and
    no violation is returned or recorded. *)
Lemma bandwidth_below_threshold_not_recorded :
  let now := fun _ : nat => "2024-01-01T00:00:00" in
  let low : gmap string num := {["bandwidth_mbps" := Int (- (2 ^ 1024))]} in
  let late : gmap string num :=
    <["bandwidth_mbps" := Float (PyNum.of_Z 2)]>
      {["latency_ms" := Int (2 ^ 1024)]} in
  exists config,
    slices init !! "URLLC" = Some config /\
    (metrics_get low "bandwidth_mbps" <# Float (min_bandwidth_mbps (sla config))) = true /\
    check_sla now "URLLC" low init = (Raise OverflowError, init) /\
    (metrics_get late "bandwidth_mbps" <# Float (min_bandwidth_mbps (sla config))) = true /\
    check_sla now "URLLC" late init = (Raise OverflowError, init) /\
    violations init = [].
Proof.
  cbv zeta. eexists. split; [reflexivity|].
  repeat split; vm_compute; reflexivity.
Qed.


Section EmptyMetrics.

Variable now : nat -> string.

Lemma metrics_get_empty key : metrics_get ∅ key = Int 0.
Proof. unfold metrics_get. now rewrite lookup_empty. Qed.

(** Zero divided by a positive threshold grades as critical. *)
Lemma _get_severity_min_zero threshold :
  (Float threshold ># Int 0) = true ->
  _get_severity threshold (Int 0) "min" = Ok "critical".
Proof.
  intros Hpos. pose proof (gtb_zero_not_eqb _ Hpos) as Hz.
  assert (PyNum.to_float (Int 0) = Ok PyNum.fzero) as Hfa by reflexivity.
  rewrite (_get_severity_min _ _ _ Hfa Hz).
  unfold PyNum.gtb in Hpos. rewrite ltb_zero_float in Hpos.
  destruct threshold as [[]|[]| |[] m e]; try discriminate; reflexivity.
Qed.

(** With every measurement defaulting to 0, a slice with a positive
    bandwidth floor and non-negative ceilings breaches bandwidth only. *)
Lemma sla_violations_empty_metrics name sla :
  (Float (min_bandwidth_mbps sla) ># Int 0) = true ->
  (Int 0 <=# Float (max_latency_ms sla)) = true ->
  (Int 0 <=# Float (max_jitter_ms sla)) = true ->
  (Int 0 <=# Float (max_packet_loss_pct sla)) = true ->
  sla_violations now name sla ∅ =
    Ok [{| slice_name := name; violation_type := "bandwidth";
           expected_value := min_bandwidth_mbps sla; actual_value := Int 0;
           timestamp := now 0%nat; severity := "critical" |}].
Proof.
  intros Hbw Hlat Hjit Hloss. unfold sla_violations.
  rewrite !metrics_get_empty.
  apply leb_not_gtb in Hlat, Hjit, Hloss.
  unfold PyNum.gtb in Hbw. rewrite Hbw, Hlat, Hjit, Hloss.
  unfold breach. rewrite _get_severity_min_zero by exact Hbw. reflexivity.
Qed.

Lemma default_sla_bounds t :
  (Float (min_bandwidth_mbps (DEFAULT_SLAS t)) ># Int 0) = true /\
  (Int 0 <=# Float (max_latency_ms (DEFAULT_SLAS t))) = true /\
  (Int 0 <=# Float (max_jitter_ms (DEFAULT_SLAS t))) = true /\
  (Int 0 <=# Float (max_packet_loss_pct (DEFAULT_SLAS t))) = true.
Proof. destruct t; repeat split; reflexivity. Qed.

End EmptyMetrics.

(** C10. In every state the manager can reach, for every registered slice
    whose bandwidth floor is positive, [check_sla] with an empty metrics
    mapping returns the status [violated] with exactly one violation: of type
    bandwidth, with actual value 0 and severity critical; latency, jitter and
    packet loss, read as 0, are reported compliant. *)
Theorem check_sla_empty_metrics now name self config :
  reachable self ->
  slices self !! name = Some config ->
  (Float (min_bandwidth_mbps (sla config)) ># Int 0) = true ->
  exists res self' v d l j p,
    check_sla now name ∅ self = (Ok res, self') /\
    res_status res = VIOLATED /\
    res_violations res = [v] /\
    violation_type v = "bandwidth" /\
    expected_value v = min_bandwidth_mbps (sla config) /\
    actual_value v = Int 0 /\
    severity v = "critical" /\
    res_details res = DetailsDimensions d l j p /\
    actual d = Int 0 /\ compliant d = false /\
    actual l = Int 0 /\ compliant l = true /\
    actual j = Int 0 /\ compliant j = true /\
    actual p = Int 0 /\ compliant p = true.
Proof.
  intros Hreach Hcfg Hpos.
  destruct (reachable_invariant self Hreach) as [Hs Hcov].
  destruct (Hcov name) as [c Hc]; [eauto|].
  assert (exists t, sla config = DEFAULT_SLAS t) as [t Ht].
  { rewrite Hs in Hcfg.
    destruct (init_slices_lookup _ _ Hcfg) as [[_ H]|[[_ H]|[_ H]]]; eauto. }
  destruct (default_sla_bounds t) as (_ & Hlat & Hjit & Hloss).
  rewrite <- Ht in Hlat, Hjit, Hloss.
  rewrite (check_sla_unfold now _ _ _ _ Hcfg).
  rewrite (sla_violations_empty_metrics now name _ Hpos Hlat Hjit Hloss).
  unfold track, sla_details. rewrite Hc, !metrics_get_empty.
  do 7 eexists. split; [reflexivity|].
  cbn [res_status res_violations res_details violation_type expected_value
       actual_value severity actual compliant].
  repeat split; try assumption.
  apply ltb_not_geb. exact Hpos.
Qed.

(** C10 on the mMTC slice of a fresh manager. *)
Lemma check_sla_empty_metrics_witness :
  exists config,
    reachable init /\
    slices init !! "mMTC" = Some config /\
    (Float (min_bandwidth_mbps (sla config)) ># Int 0) = true /\
    exists res self' v d l j p,
      check_sla (fun _ => "2024-01-01T00:00:00") "mMTC" ∅ init = (Ok res, self') /\
      res_status res = VIOLATED /\
      res_violations res = [v] /\
      violation_type v = "bandwidth" /\
      expected_value v = min_bandwidth_mbps (sla config) /\
      actual_value v = Int 0 /\
      severity v = "critical" /\
      res_details res = DetailsDimensions d l j p /\
      actual d = Int 0 /\ compliant d = false /\
      actual l = Int 0 /\ compliant l = true /\
      actual j = Int 0 /\ compliant j = true /\
      actual p = Int 0 /\ compliant p = true.
Proof.
  eexists. split; [apply reach_init|]. split; [reflexivity|].
  split; [reflexivity|].
  apply (check_sla_empty_metrics _ "mMTC" init);
    [apply reach_init | reflexivity | reflexivity].
Defined.


(** ** Rounding keeps the sign *)

Section RoundingFacts.

Lemma shr_1_nonneg mrs : 0 <= shr_m mrs -> 0 <= shr_m (shr_1 mrs).
Proof.
  destruct mrs as [m r s]. cbn [shr_m]. intros Hm.
  destruct m as [|[p|p|]|p]; cbn; lia.
Qed.

Lemma iter_pos_shr_1_nonneg n mrs :
  0 <= shr_m mrs -> 0 <= shr_m (SpecFloat.iter_pos shr_1 n mrs).
Proof.
  revert mrs. induction n as [n IH|n IH|]; intros mrs Hm; cbn [SpecFloat.iter_pos].
  - apply IH, IH, shr_1_nonneg, Hm.
  - apply IH, IH, Hm.
  - apply shr_1_nonneg, Hm.
Qed.

Lemma shr_fexp_nonneg m e l :
  0 <= m -> 0 <= shr_m (fst (shr_fexp PyNum.prec PyNum.emax m e l)).
Proof.
  intros Hm. unfold shr_fexp, shr.
  assert (0 <= shr_m (shr_record_of_loc m l)) as H0.
  { destruct l as [|[]]; exact Hm. }
  destruct (_ - e) as [|n|n]; cbn [fst]; [exact H0| |exact H0].
  apply iter_pos_shr_1_nonneg, H0.
Qed.

Lemma round_nearest_even_nonneg m l : 0 <= m -> 0 <= round_nearest_even m l.
Proof.
  intros Hm. unfold round_nearest_even.
  destruct l as [|[]]; try lia. destruct (Z.even m); lia.
Qed.

(** Rounding a non-negative mantissa with a clear sign gives neither a
    negative float nor NaN. *)
Lemma binary_round_aux_nonneg mx ex lx :
  0 <= mx ->
  is_nonneg_float (binary_round_aux PyNum.prec PyNum.emax false mx ex lx) = true.
Proof.
  intros Hm. unfold binary_round_aux.
  pose proof (shr_fexp_nonneg mx ex lx Hm) as H1.
  destruct (shr_fexp _ _ mx ex lx) as [mrs' e']. cbn [fst] in H1.
  pose proof (shr_fexp_nonneg _ e' loc_Exact
                (round_nearest_even_nonneg _ (loc_of_shr_record mrs') H1)) as H2.
  destruct (shr_fexp _ _ _ e' loc_Exact) as [mrs'' e'']. cbn [fst] in H2.
  destruct (shr_m mrs''); [reflexivity| |lia].
  destruct (e'' <=? _); reflexivity.
Qed.

Lemma SFdiv_nonneg p q e1 e2 :
  is_nonneg_float
    (SFdiv PyNum.prec PyNum.emax (S754_finite false p e1) (S754_finite false q e2)) = true.
Proof.
  unfold SFdiv, SFdiv_core_binary.
  set (m' := match _ with Z.pos _ => Z.shiftl _ _ | 0 => _ | Z.neg _ => 0 end).
  assert (0 <= m') as Hm'.
  { subst m'. destruct (_ - _ - _) as [|s|s]; try lia.
    apply Z.shiftl_nonneg. lia. }
  pose proof (Z.div_pos m' (Z.pos q) Hm' eq_refl) as Hq.
  unfold Z.div in Hq. destruct (Z.div_eucl m' (Z.pos q)) as [qq r].
  cbn [fst] in Hq. apply binary_round_aux_nonneg, Hq.
Qed.

Lemma round3_float_nonneg f :
  is_nonneg_float f = true -> is_nonneg_float (PyNum.round3_float f) = true.
Proof.
  destruct f as [s|s| |s m e]; cbn [is_nonneg_float PyNum.round3_float]; try done.
  intros Hs. apply negb_true_iff in Hs. subst s.
  destruct (if 0 <=? e then _ else _); try done.
  apply SFdiv_nonneg.
Qed.

Lemma is_nonneg_float_nonneg f : is_nonneg_float f = true -> nonneg (Float f).
Proof.
  unfold nonneg, PyNum.geb. rewrite leb_zero_float.
  destruct f as [[]|[]| |[] m e]; done.
Qed.

Lemma gtb_zero_is_nonneg f : (Float f ># Int 0) = true -> is_nonneg_float f = true.
Proof.
  unfold PyNum.gtb. rewrite ltb_zero_float.
  destruct f as [[]|[]| |[] m e]; done.
Qed.

(** [bandwidth >= 0] excludes [bandwidth < 0]. *)
Lemma nonneg_not_negative x : nonneg x -> (x <# Int 0) = false.
Proof. intros H. apply (leb_not_gtb (Int 0) x H). Qed.

Lemma max_zero_cases x :
  PyNum.max (Int 0) x = Int 0 \/
  (PyNum.max (Int 0) x = x /\ (x ># Int 0) = true).
Proof. unfold PyNum.max. destruct (x ># Int 0); auto. Qed.

(** The rounded rate is never negative, whatever the counters and the time
    delta are. *)
Lemma rate_round3_nonneg current_bytes prev_bytes time_delta v :
  rate current_bytes prev_bytes time_delta = Ok v ->
  nonneg (PyNum.round3 v).
Proof.
  unfold rate. destruct (Float time_delta ># Int 0); [|intros [= <-]; reflexivity].
  cbv zeta. unfold PyNum.truediv.
  destruct (PyNum.to_float _) as [fa|e]; [|done]. cbn [mbind outcome_bind obind].
  destruct (SFeqb _ _); [done|]. cbn [mbind outcome_bind obind].
  intros [= <-].
  destruct (max_zero_cases
              (Float (SFdiv PyNum.prec PyNum.emax fa (PyNum.fmul time_delta 1000000))))
    as [->|[-> Hpos]]; [reflexivity|].
  cbn [PyNum.round3].
  apply is_nonneg_float_nonneg, round3_float_nonneg, gtb_zero_is_nonneg, Hpos.
Qed.

End RoundingFacts.

(** ** Rounding stays in range *)

Section RangeFacts.

Lemma digits2_pos_bounds p :
  2 ^ (Z.pos (digits2_pos p) - 1) <= Z.pos p < 2 ^ Z.pos (digits2_pos p).
Proof.
  induction p as [p IH|p IH|]; cbn [digits2_pos].
  - rewrite Pos2Z.inj_succ.
    replace (Z.succ (Z.pos (digits2_pos p)) - 1) with (Z.succ (Z.pos (digits2_pos p) - 1)) by lia.
    rewrite !Z.pow_succ_r by lia. lia.
  - rewrite Pos2Z.inj_succ.
    replace (Z.succ (Z.pos (digits2_pos p)) - 1) with (Z.succ (Z.pos (digits2_pos p) - 1)) by lia.
    rewrite !Z.pow_succ_r by lia. lia.
  - cbn. lia.
Qed.

Lemma shr_1_div2 mrs : 0 <= shr_m mrs -> shr_m (shr_1 mrs) = shr_m mrs / 2.
Proof.
  destruct mrs as [m r s]. cbn [shr_m]. intros Hm. rewrite <- Z.div2_div.
  destruct m as [|[p|p|]|p]; try reflexivity; lia.
Qed.

Lemma iter_pos_shr_1_div n mrs :
  0 <= shr_m mrs ->
  shr_m (SpecFloat.iter_pos shr_1 n mrs) = shr_m mrs / 2 ^ Z.pos n.
Proof.
  revert mrs. induction n as [n IH|n IH|]; intros mrs Hm; cbn [SpecFloat.iter_pos].
  - rewrite IH by (apply iter_pos_shr_1_nonneg, shr_1_nonneg, Hm).
    rewrite IH by (apply shr_1_nonneg, Hm).
    rewrite shr_1_div2 by exact Hm.
    rewrite !Z.div_div by (try apply Z.pow_pos_nonneg; lia).
    f_equal.
    replace (Z.pos n~1) with (1 + Z.pos n + Z.pos n) by lia.
    rewrite !Z.pow_add_r by lia. lia.
  - rewrite IH by (apply iter_pos_shr_1_nonneg, Hm).
    rewrite IH by exact Hm.
    rewrite !Z.div_div by (try apply Z.pow_pos_nonneg; lia).
    f_equal.
    replace (Z.pos n~0) with (Z.pos n + Z.pos n) by lia.
    rewrite !Z.pow_add_r by lia. lia.
  - rewrite shr_1_div2 by exact Hm. reflexivity.
Qed.

Lemma Zdigits2_nonneg x : 0 <= Zdigits2 x.
Proof. destruct x; cbn; lia. Qed.

Lemma Zdigits2_upper x j : 0 <= x < 2 ^ j -> 0 <= j -> Zdigits2 x <= j.
Proof.
  intros [H0 Hx] Hj. destruct x as [|p|p]; cbn [Zdigits2]; try lia.
  destruct (digits2_pos_bounds p) as [Hlo _].
  destruct (Z.le_gt_cases (Z.pos (digits2_pos p)) j) as [|Hgt]; [done|].
  assert (2 ^ j <= 2 ^ (Z.pos (digits2_pos p) - 1)) by (apply Z.pow_le_mono_r; lia).
  lia.
Qed.

Lemma Zdigits2_lower x : 0 < x -> 2 ^ (Zdigits2 x - 1) <= x < 2 ^ Zdigits2 x.
Proof.
  intros Hx. destruct x as [|p|p]; try lia. apply digits2_pos_bounds.
Qed.

Lemma shr_fexp_cases m e l :
  0 <= m ->
  let n := fexp PyNum.prec PyNum.emax (Zdigits2 m + e) - e in
  let r := shr_fexp PyNum.prec PyNum.emax m e l in
  (n <= 0 /\ shr_m (fst r) = m /\ snd r = e) \/
  (0 < n /\ shr_m (fst r) = m / 2 ^ n /\ snd r = e + n).
Proof.
  intros Hm n r. subst r. unfold shr_fexp, shr. fold n.
  assert (shr_m (shr_record_of_loc m l) = m) as H0 by (destruct l as [|[]]; reflexivity).
  destruct n as [|p|p] eqn:Hn; cbn [fst snd].
  - left. repeat split; [lia | exact H0].
  - right. rewrite iter_pos_shr_1_div by lia. rewrite H0. repeat split; lia.
  - left. repeat split; [lia | exact H0].
Qed.

Lemma round_nearest_even_bounds m l :
  m <= round_nearest_even m l <= m + 1.
Proof.
  unfold round_nearest_even. destruct l as [|[]]; try lia. destruct (Z.even m); lia.
Qed.

Lemma fexp_unfold d : fexp PyNum.prec PyNum.emax d = Z.max (d - 53) (-1074).
Proof. reflexivity. Qed.

(** Rounding does not overflow below 2^1023. *)
Lemma binary_round_aux_finite sx mx ex lx k :
  0 <= mx < 2 ^ k -> 0 <= k -> k + ex <= 1023 -> ex <= 971 ->
  PyNum.is_infinity (binary_round_aux PyNum.prec PyNum.emax sx mx ex lx) = false.
Proof.
  intros [Hm0 Hmk] Hk Hsum Hex. unfold binary_round_aux.
  pose proof (shr_fexp_cases mx ex lx Hm0) as H1. cbv zeta in H1.
  pose proof (Zdigits2_upper mx k (conj Hm0 Hmk) Hk) as HD.
  pose proof (Zdigits2_nonneg mx) as HD0.
  rewrite fexp_unfold in H1.
  destruct (shr_fexp _ _ mx ex lx) as [mrs' e']. cbn [fst snd] in H1.
  set (m1 := round_nearest_even (shr_m mrs') (loc_of_shr_record mrs')).
  pose proof (round_nearest_even_bounds (shr_m mrs') (loc_of_shr_record mrs')) as Hr.
  fold m1 in Hr.
  assert (0 <= shr_m mrs') as Hm'0.
  { destruct H1 as [(_ & -> & _)|(Hn & -> & _)]; [lia|].
    apply Z.div_pos; [lia|]. apply Z.pow_pos_nonneg; lia. }
  assert (0 <= m1 /\ Zdigits2 m1 + e' <= 1024 /\ e' <= 971) as (Hm10 & HD1 & He').
  { split; [lia|].
    destruct H1 as [(Hn & Hm' & ->)|(Hn & Hm' & ->)].
    - split; [|lia].
      assert (Zdigits2 m1 <= k + 1); [|lia].
      apply Zdigits2_upper; [|lia]. rewrite Z.pow_add_r by lia. lia.
    - split; [|lia].
      set (n := Z.max (Zdigits2 mx + ex - 53) (-1074) - ex) in *.
      destruct (Z.le_gt_cases n k) as [Hnk|Hnk].
      + assert (Zdigits2 m1 <= k - n + 1); [|lia].
        apply Zdigits2_upper; [|lia].
        assert (shr_m mrs' < 2 ^ (k - n)).
        { rewrite Hm'. apply Z.div_lt_upper_bound; [apply Z.pow_pos_nonneg; lia|].
          rewrite <- Z.pow_add_r by lia. now replace (n + (k - n)) with k by lia. }
        rewrite Z.pow_add_r by lia. lia.
      + assert (shr_m mrs' = 0) as Hz.
        { rewrite Hm'. apply Z.div_small. split; [lia|].
          eapply Z.lt_le_trans; [exact Hmk|]. apply Z.pow_le_mono_r; lia. }
        assert (Zdigits2 m1 <= 1); [|lia].
        apply Zdigits2_upper; lia. }
  pose proof (shr_fexp_cases m1 e' loc_Exact Hm10) as H2. cbv zeta in H2.
  rewrite fexp_unfold in H2.
  destruct (shr_fexp _ _ m1 e' loc_Exact) as [mrs'' e'']. cbn [fst snd] in H2.
  destruct (shr_m mrs''); [reflexivity| |reflexivity].
  destruct (Z.leb_spec e'' (PyNum.emax - PyNum.prec)) as [|Hgt]; [reflexivity|].
  exfalso. unfold PyNum.emax, PyNum.prec in Hgt.
  destruct H2 as [(_ & _ & ->)|(_ & _ & ->)]; lia.
Qed.

Lemma pos_iter_xO m d : Z.pos (Pos.iter xO m d) = Z.pos m * 2 ^ Z.pos d.
Proof.
  revert m. induction d as [|d IH] using Pos.peano_ind; intros m.
  - cbn. lia.
  - rewrite Pos.iter_succ, Pos2Z.inj_succ, Z.pow_succ_r by lia.
    change (Z.pos (Pos.iter xO m d)~0) with (2 * Z.pos (Pos.iter xO m d)).
    rewrite IH. lia.
Qed.

(** [float(z)] raises no [OverflowError] below 2^1023 in magnitude. *)
Lemma float_of_int_bounded z :
  Z.abs z < 2 ^ 1023 -> PyNum.float_of_int z = Ok (PyNum.of_Z z).
Proof.
  intros Hz. unfold PyNum.float_of_int.
  enough (PyNum.is_infinity (PyNum.of_Z z) = false) as -> by reflexivity.
  unfold PyNum.of_Z, binary_normalize.
  assert (forall s m, Z.pos m < 2 ^ 1023 ->
            PyNum.is_infinity (binary_round PyNum.prec PyNum.emax s m 0) = false) as H.
  { intros s m Hm. unfold binary_round, shl_align.
    rewrite fexp_unfold.
    pose proof (Zdigits2_upper (Z.pos m) 1023 ltac:(lia) ltac:(lia)) as HD.
    cbn [Zdigits2] in HD.
    destruct (Z.max (Z.pos (digits2_pos m) + 0 - 53) (-1074) - 0) as [|d|d] eqn:Hd.
    - apply (binary_round_aux_finite _ _ _ _ 1023); lia.
    - apply (binary_round_aux_finite _ _ _ _ 1023); lia.
    - apply (binary_round_aux_finite _ _ _ _ (Z.pos (digits2_pos m) + Z.pos d)); try lia.
      rewrite pos_iter_xO, Z.pow_add_r by lia.
      destruct (digits2_pos_bounds m) as [_ Hup].
      assert (0 < 2 ^ Z.pos d) by (apply Z.pow_pos_nonneg; lia). nia. }
  destruct z as [|m|m]; [reflexivity | apply H; lia | apply H; lia].
Qed.

(** Rounding a mantissa of at least 53 bits whose exponent is at most 33
    below the smallest one does not underflow to zero. *)
Lemma binary_round_aux_nonzero sx mx ex lx :
  2 ^ 52 <= mx -> -1107 <= ex ->
  is_zero_float (binary_round_aux PyNum.prec PyNum.emax sx mx ex lx) = false.
Proof.
  intros Hmx Hex. unfold binary_round_aux.
  assert (0 < mx) as Hpos by lia.
  pose proof (shr_fexp_cases mx ex lx ltac:(lia)) as H1. cbv zeta in H1.
  destruct (Zdigits2_lower mx Hpos) as [Hlo Hup].
  assert (53 <= Zdigits2 mx) as HD.
  { destruct (Z.le_gt_cases 53 (Zdigits2 mx)) as [|Hlt]; [done|].
    assert (2 ^ Zdigits2 mx <= 2 ^ 52) by (apply Z.pow_le_mono_r; lia). lia. }
  rewrite fexp_unfold in H1.
  destruct (shr_fexp _ _ mx ex lx) as [mrs' e']. cbn [fst snd] in H1.
  set (m1 := round_nearest_even (shr_m mrs') (loc_of_shr_record mrs')).
  pose proof (round_nearest_even_bounds (shr_m mrs') (loc_of_shr_record mrs')) as Hr.
  fold m1 in Hr.
  assert (1 <= shr_m mrs' /\ -1074 <= e') as [Hm' He'].
  { destruct H1 as [(Hn & -> & ->)|(Hn & -> & ->)]; [lia|]. split; [|lia].
    set (n := Z.max (Zdigits2 mx + ex - 53) (-1074) - ex) in *.
    assert (n <= Zdigits2 mx - 1) by lia.
    apply Z.div_le_lower_bound; [apply Z.pow_pos_nonneg; lia|].
    eapply Z.le_trans; [|exact Hlo].
    rewrite Z.mul_1_r. apply Z.pow_le_mono_r; lia. }
  assert (0 < m1) as Hm1 by lia.
  pose proof (shr_fexp_cases m1 e' loc_Exact ltac:(lia)) as H2. cbv zeta in H2.
  destruct (Zdigits2_lower m1 Hm1) as [Hlo1 Hup1].
  rewrite fexp_unfold in H2.
  destruct (shr_fexp _ _ m1 e' loc_Exact) as [mrs'' e'']. cbn [fst snd] in H2.
  assert (1 <= shr_m mrs'') as Hm''.
  { destruct H2 as [(Hn & -> & _)|(Hn & -> & _)]; [lia|].
    set (n := Z.max (Zdigits2 m1 + e' - 53) (-1074) - e') in *.
    assert (0 <= n <= Zdigits2 m1 - 1) by lia.
    apply Z.div_le_lower_bound; [apply Z.pow_pos_nonneg; lia|].
    eapply Z.le_trans; [|exact Hlo1].
    rewrite Z.mul_1_r. apply Z.pow_le_mono_r; lia. }
  destruct (shr_m mrs''); [lia| |reflexivity].
  destruct (_ <=? _); reflexivity.
Qed.

(** Rounding never leaves an exponent below the smallest one. *)
Lemma binary_round_aux_exponent_ok sx mx ex lx :
  0 <= mx ->
  exponent_ok (binary_round_aux PyNum.prec PyNum.emax sx mx ex lx) = true.
Proof.
  intros Hmx. unfold binary_round_aux.
  pose proof (shr_fexp_nonneg mx ex lx Hmx) as H1.
  destruct (shr_fexp _ _ mx ex lx) as [mrs' e']. cbn [fst] in H1.
  set (m1 := round_nearest_even (shr_m mrs') (loc_of_shr_record mrs')).
  pose proof (round_nearest_even_nonneg _ (loc_of_shr_record mrs') H1) as Hm1.
  fold m1 in Hm1.
  pose proof (shr_fexp_cases m1 e' loc_Exact Hm1) as H2. cbv zeta in H2.
  rewrite fexp_unfold in H2.
  destruct (shr_fexp _ _ m1 e' loc_Exact) as [mrs'' e'']. cbn [fst snd] in H2.
  destruct (shr_m mrs''); [reflexivity| |reflexivity].
  destruct (_ <=? _); [|reflexivity]. cbn [exponent_ok].
  apply Z.leb_le. destruct H2 as [(Hn & _ & ->)|(Hn & _ & ->)]; lia.
Qed.

Lemma binary_normalize_exponent_ok m e szero :
  exponent_ok (binary_normalize PyNum.prec PyNum.emax m e szero) = true.
Proof.
  unfold binary_normalize, binary_round.
  destruct m as [|p|p]; [reflexivity| |];
    destruct (shl_align _ _ _) as [mz ez];
    apply binary_round_aux_exponent_ok; lia.
Qed.

(** The difference of two clock readings has an exponent in range. *)
Lemma SFsub_exponent_ok x y :
  exponent_ok x = true -> exponent_ok y = true ->
  exponent_ok (SFsub PyNum.prec PyNum.emax x y) = true.
Proof.
  intros Hx Hy.
  destruct x as [[]|[]| |sx mx ex], y as [[]|[]| |sy my ey];
    cbn [SFsub negb]; try reflexivity; try assumption;
    apply binary_normalize_exponent_ok.
Qed.

(** A positive time delta times 1000000 is not zero, so the division of the
    rate raises no [ZeroDivisionError]. *)
Lemma fmul_million_nonzero time_delta :
  exponent_ok time_delta = true ->
  (Float time_delta ># Int 0) = true ->
  SFeqb (PyNum.fmul time_delta 1000000) PyNum.fzero = false.
Proof.
  intros Hok Hpos. apply gtb_zero_is_nonneg in Hpos as Hnn.
  unfold PyNum.gtb in Hpos. rewrite ltb_zero_float in Hpos.
  destruct time_delta as [s|s| |s m e]; try discriminate.
  - destruct s; [discriminate | reflexivity].
  - cbn [is_nonneg_float] in Hnn. apply negb_true_iff in Hnn. subst s.
    cbn [exponent_ok] in Hok. apply Z.leb_le in Hok.
    unfold PyNum.fmul.
    change (PyNum.of_Z 1000000) with (S754_finite false 8589934592000000 (-33)).
    cbn [SFmul xorb].
    pose proof (binary_round_aux_nonzero false (Z.pos (m * 8589934592000000))
                  (e + -33) loc_Exact ltac:(lia) ltac:(lia)) as Hnz.
    destruct (binary_round_aux _ _ _ _ _ _) as [s'|[]| |[] m' e'];
      try discriminate; reflexivity.
Qed.

(** The rate is computed for every counter pair below 2^1020 apart and
    every time delta whose exponent is in range. *)
Lemma rate_returns current_bytes prev_bytes time_delta :
  exponent_ok time_delta = true ->
  Z.abs (current_bytes - prev_bytes) < 2 ^ 1020 ->
  exists v, rate current_bytes prev_bytes time_delta = Ok v.
Proof.
  intros Hok Hb. unfold rate.
  destruct (Float time_delta ># Int 0) eqn:Hpos; [|eauto].
  cbv zeta. unfold PyNum.truediv. cbn [PyNum.to_float].
  rewrite float_of_int_bounded.
  - cbn [mbind outcome_bind obind]. rewrite (fmul_million_nonzero _ Hok Hpos).
    cbn [mbind outcome_bind obind]. eauto.
  - rewrite Z.abs_mul. change (Z.abs 8) with 8.
    change (2 ^ 1023) with (2 ^ 1020 * 8). lia.
Qed.

End RangeFacts.

(** ** Facts about the controller *)

Section ControllerFacts.

Import Controller.

Lemma py_for_invariant {S A} (I : S -> Prop) (f : A -> Py S unit) l s :
  (forall x s, I s -> I (snd (f x s))) ->
  I s -> I (snd (py_for f l s)).
Proof.
  intros Hf. revert s. induction l as [|x l IH]; intros s Hs; [exact Hs|].
  cbn [py_for]. unfold mbind, Py_bind, py_bind.
  pose proof (Hf x s Hs) as Hx. destruct (f x s) as [[[]|e] s']; cbn in *; auto.
Qed.

Lemma switch_features_handler_eq dp self :
  switch_features_handler dp self =
    {| datapaths := <[id dp := dp]> (datapaths self);
       metrics := metrics self; prev_stats := prev_stats self;
       prev_time := prev_time self;
       sent := sent self ++ connect_batch dp;
       exported := exported self |}.
Proof.
  unfold switch_features_handler, _install_slice_rules, _install_meters,
    _add_flow, send_msg, set_datapaths, connect_batch.
  cbn. rewrite <- !app_assoc. reflexivity.
Qed.

(** One iteration of the bandwidth loop: the rate is computed, rounded and
    stored; a failing conversion or division leaves the state as it is. *)
Lemma update_metric_eq time_delta slice_name stats self :
  update_metric time_delta (slice_name, stats) self =
    match rate (bytes stats) (prev_bytes_of (prev_stats self) slice_name) time_delta with
    | Ok v =>
        (Ok tt,
         set_metrics
           (Dict.set slice_name
              {| metric_bytes := bytes stats; metric_packets := packets stats;
                 bandwidth_mbps := PyNum.round3 v |}
              (metrics self))
           self)
    | Raise e => (Raise e, self)
    end.
Proof.
  unfold update_metric, rate, mbind, Py_bind, py_bind, py_get, py_lift, py_modify.
  cbn beta iota.
  destruct (Float time_delta ># Int 0); [|reflexivity].
  cbv zeta. destruct (PyNum.truediv _ _); reflexivity.
Qed.

(** The bandwidth loop writes [metrics] only. *)
Lemma update_metric_frame time_delta item self :
  let self' := snd (update_metric time_delta item self) in
  datapaths self' = datapaths self /\ prev_stats self' = prev_stats self /\
  prev_time self' = prev_time self /\ sent self' = sent self /\
  exported self' = exported self.
Proof.
  destruct item as [slice_name stats]. rewrite update_metric_eq.
  destruct (rate _ _ _); cbn; auto.
Qed.

Lemma py_for_update_metric_frame time_delta items self :
  let self' := snd (py_for (update_metric time_delta) items self) in
  datapaths self' = datapaths self /\ prev_stats self' = prev_stats self /\
  prev_time self' = prev_time self /\ sent self' = sent self /\
  exported self' = exported self.
Proof.
  cbv zeta.
  apply (py_for_invariant
           (fun s => datapaths s = datapaths self /\ prev_stats s = prev_stats self /\
                     prev_time s = prev_time self /\ sent s = sent self /\
                     exported s = exported self)); [|auto].
  intros x s (H1 & H2 & H3 & H4 & H5).
  destruct (update_metric_frame time_delta x s) as (G1 & G2 & G3 & G4 & G5).
  repeat split; congruence.
Qed.

(** The handler: the bandwidth loop, then the samples and the clock reading
    of this reply are stored, the metrics exported and the summary logged;
    an exception in the loop is passed on before anything is stored. *)
Lemma flow_stats_reply_handler_eq ev self :
  flow_stats_reply_handler ev self =
    match py_for (update_metric (time_delta_of self (current_time ev)))
                 (aggregate (body ev)) self with
    | (Ok _, self1) =>
        export_and_log ev
          (set_prev_time (current_time ev)
             (set_prev_stats (aggregate (body ev)) self1))
    | (Raise e, self1) => (Raise e, self1)
    end.
Proof.
  unfold flow_stats_reply_handler, export_and_log, mbind, Py_bind, py_bind,
    py_get, py_modify.
  cbn beta iota zeta.
  destruct (py_for _ _ self) as [[[]|e] self1]; reflexivity.
Qed.

Lemma set_exported_id self : set_exported (exported self) self = self.
Proof. now destruct self. Qed.

Lemma write_records_cons limit file i record records self :
  write_records limit file i (record :: records) self =
    match json_dumps limit record with
    | Ok line =>
        if write_ok file i
        then write_records limit file (S i) records
               (set_exported (exported self ++ [line]) self)
        else (Raise OSError, self)
    | Raise e => (Raise e, self)
    end.
Proof.
  cbn [write_records]. unfold mbind, Py_bind, py_bind, py_lift, py_modify.
  destruct (json_dumps limit record); [|reflexivity].
  destruct (write_ok file i); reflexivity.
Qed.

(** The writing loop appends a prefix of the records, all of them when it
    completes, and none from the first failing write on. *)
Lemma write_records_spec limit file records : forall i self,
  exists n,
    (n <= length records)%nat /\
    snd (write_records limit file i records self) =
      set_exported (exported self ++ take n records) self /\
    (fst (write_records limit file i records self) = Ok tt ->
     n = length records) /\
    (forall k, write_ok file (i + k)%nat = false -> (n <= k)%nat).
Proof.
  induction records as [|record records IH]; intros i self.
  - exists 0%nat. cbn [write_records take length app].
    rewrite app_nil_r, set_exported_id.
    repeat split; try reflexivity; intros; lia.
  - rewrite write_records_cons.
    assert (forall line, json_dumps limit record = Ok line -> line = record)
      as Hline.
    { unfold json_dumps, mbind, outcome_bind, obind. intros line.
      destruct (int_to_str limit (export_packets record)); [|discriminate].
      destruct (int_to_str limit (export_bytes record)); [|discriminate].
      congruence. }
    destruct (json_dumps limit record) as [line|e].
    + rewrite (Hline line eq_refl). clear Hline.
      destruct (write_ok file i) eqn:Hw.
      * destruct (IH (S i) (set_exported (exported self ++ [record]) self))
          as (n & Hn & Hs & Hok & Hfail).
        exists (S n). cbn [length take].
        split; [lia|]. split.
        { rewrite Hs. cbn [exported set_exported].
          rewrite <- app_assoc. reflexivity. }
        split.
        { intros H'. now rewrite (Hok H'). }
        intros [|k] Hk.
        { rewrite Nat.add_0_r in Hk. congruence. }
        rewrite Nat.add_succ_r in Hk. specialize (Hfail k Hk). lia.
      * exists 0%nat. cbn [take length fst snd].
        rewrite app_nil_r, set_exported_id.
        split; [lia|]. split; [reflexivity|]. split; [discriminate|].
        intros; lia.
    + exists 0%nat. cbn [take length fst snd].
      rewrite app_nil_r, set_exported_id.
      split; [lia|]. split; [reflexivity|]. split; [discriminate|].
      intros; lia.
Qed.

(** [_export_metrics] changes nothing but the export, to which it appends a
    prefix of the records of the metrics table: all of them when it
    completes, none when the file cannot be opened, and none from the first
    failing write on. *)
Lemma _export_metrics_spec timestamp limit file self :
  exists n,
    (n <= length (metrics self))%nat /\
    snd (_export_metrics timestamp limit file self) =
      set_exported (exported self ++ take n (records_of timestamp (metrics self)))
                   self /\
    (fst (_export_metrics timestamp limit file self) = Ok tt ->
     n = length (metrics self)) /\
    (open_ok file = false -> n = 0%nat) /\
    (forall k, write_ok file k = false -> (n <= k)%nat).
Proof.
  unfold _export_metrics.
  match goal with
  | |- context [write_records _ _ _ ?l _] =>
      replace l with (records_of timestamp (metrics self))
        by (unfold records_of; apply map_ext; now intros [k m])
  end.
  destruct (open_ok file) eqn:Hopen.
  - destruct (write_records_spec limit file (records_of timestamp (metrics self))
                0%nat self) as (n & Hn & Hs & Hok & Hfail).
    unfold records_of in Hn at 1. rewrite length_map in Hn.
    exists n. split; [exact Hn|].
    destruct (write_records _ _ _ _ self) as [[[]|e] self1]; cbn [fst snd] in *.
    + split; [exact Hs|]. split.
      { intros _. rewrite Hok by reflexivity. unfold records_of.
        now rewrite length_map. }
      split; [discriminate | exact Hfail].
    + split; [exact Hs|]. split.
      { destruct (close_ok file); discriminate. }
      split; [discriminate | exact Hfail].
  - exists 0%nat. cbn [take fst snd]. rewrite app_nil_r, set_exported_id.
    split; [lia|]. split; [reflexivity|]. split; [discriminate|].
    split; [reflexivity | intros; lia].
Qed.

Lemma py_for_state_id {S A} (f : A -> Py S unit) l (s : S) :
  (forall x s, snd (f x s) = s) -> snd (py_for f l s) = s.
Proof.
  intros Hf. induction l as [|x l IH]; [reflexivity|].
  cbn [py_for]. unfold mbind, Py_bind, py_bind.
  pose proof (Hf x s) as Hx.
  destruct (f x s) as [[[]|e] s']; cbn [snd] in Hx; subst s'; [exact IH | reflexivity].
Qed.

(** The log summary changes nothing. *)
Lemma _log_summary_state limit dpid self :
  snd (_log_summary limit dpid self) = self.
Proof.
  unfold _log_summary, mbind, Py_bind, py_bind, py_lift at 1, py_get.
  destruct (int_to_str limit dpid) as [[]|e]; [|reflexivity].
  apply py_for_state_id. now intros [name m] s.
Qed.

(** The export and the log together, as the export alone. *)
Lemma export_and_log_spec ev self :
  exists n,
    (n <= length (metrics self))%nat /\
    snd (export_and_log ev self) =
      set_exported
        (exported self ++ take n (records_of (export_time ev) (metrics self)))
        self /\
    (fst (export_and_log ev self) = Ok tt -> n = length (metrics self)) /\
    (open_ok (file ev) = false -> n = 0%nat) /\
    (forall k, write_ok (file ev) k = false -> (n <= k)%nat).
Proof.
  destruct (_export_metrics_spec (export_time ev) (int_max_str_digits ev)
              (file ev) self) as (n & Hn & Hs & Hok & Hopen & Hfail).
  exists n. split; [exact Hn|].
  unfold export_and_log, mbind, Py_bind, py_bind.
  destruct (_export_metrics _ _ _ self) as [[[]|e] self1]; cbn [fst snd] in *.
  - rewrite _log_summary_state. split; [exact Hs|].
    split; [intros _; now apply Hok|]. split; [exact Hopen | exact Hfail].
  - split; [exact Hs|]. split; [discriminate|]. split; [exact Hopen | exact Hfail].
Qed.

End ControllerFacts.

Section ControllerInvariants.

Import Controller.

Lemma Dict_set_Forall {V} (P : string * V -> Prop) k v (d : list (string * V)) :
  P (k, v) -> Forall P d -> Forall P (Dict.set k v d).
Proof.
  intros Hv. induction d as [|[k' v'] d IH]; intros Hd; cbn [Dict.set].
  - repeat constructor. exact Hv.
  - inversion Hd; subst. destruct (String.eqb k k'); constructor; auto.
Qed.

Lemma update_metric_nonneg time_delta item self :
  controller_nonneg self ->
  controller_nonneg (snd (update_metric time_delta item self)).
Proof.
  intros [Hm He]. destruct item as [slice_name stats]. rewrite update_metric_eq.
  destruct (rate _ _ _) as [v|e] eqn:Hrate; [|now split].
  split; [|exact He]. cbn [snd metrics set_metrics].
  apply Dict_set_Forall; [|exact Hm].
  cbn [snd bandwidth_mbps]. eapply rate_round3_nonneg, Hrate.
Qed.

Lemma export_and_log_frame ev self :
  let self' := snd (export_and_log ev self) in
  datapaths self' = datapaths self /\ metrics self' = metrics self /\
  prev_stats self' = prev_stats self /\ prev_time self' = prev_time self /\
  sent self' = sent self.
Proof.
  cbv zeta. destruct (export_and_log_spec ev self) as (n & _ & -> & _).
  repeat split.
Qed.

(** The handler after the bandwidth loop: a failing loop is all there is;
    after a completed one the sample and the clock reading are stored and a
    prefix of the records is appended to the export. *)
Lemma flow_stats_reply_handler_stored ev self :
  match bandwidth_loop ev self with
  | (Ok _, self1) =>
      exists n,
        snd (flow_stats_reply_handler ev self) =
          set_exported
            (exported self1 ++ take n (records_of (export_time ev) (metrics self1)))
            (set_prev_time (current_time ev)
               (set_prev_stats (aggregate (body ev)) self1)) /\
        (n <= length (metrics self1))%nat /\
        (fst (flow_stats_reply_handler ev self) = Ok tt ->
         n = length (metrics self1)) /\
        (open_ok (file ev) = false -> n = 0%nat) /\
        (forall k, write_ok (file ev) k = false -> (n <= k)%nat)
  | (Raise e, self1) => flow_stats_reply_handler ev self = (Raise e, self1)
  end.
Proof.
  rewrite flow_stats_reply_handler_eq. unfold bandwidth_loop.
  destruct (py_for _ _ self) as [[[]|e] self1]; [|reflexivity].
  destruct (export_and_log_spec ev
              (set_prev_time (current_time ev)
                 (set_prev_stats (aggregate (body ev)) self1)))
    as (n & Hn & Hs & Hok & Hopen & Hfail).
  exists n. auto.
Qed.

Lemma export_and_log_nonneg ev self :
  controller_nonneg self -> controller_nonneg (snd (export_and_log ev self)).
Proof.
  intros [Hm He]. destruct (export_and_log_spec ev self) as (n & _ & -> & _).
  split; [exact Hm|]. cbn [exported set_exported].
  apply Forall_app. split; [exact He|].
  apply Forall_take. unfold records_of.
  apply Forall_map. eapply Forall_impl; [exact Hm|].
  intros [slice_name m] H. exact H.
Qed.

Lemma flow_stats_reply_handler_nonneg ev self :
  controller_nonneg self ->
  controller_nonneg (snd (flow_stats_reply_handler ev self)).
Proof.
  intros Hinv. rewrite flow_stats_reply_handler_eq.
  pose proof (py_for_invariant controller_nonneg
                (update_metric (time_delta_of self (current_time ev)))
                (aggregate (body ev)) self
                (fun x s => update_metric_nonneg _ x s) Hinv) as H1.
  destruct (py_for _ _ self) as [[[]|e] self1]; cbn [snd] in *; [|exact H1].
  apply export_and_log_nonneg. exact H1.
Qed.

Lemma init_nonneg now : controller_nonneg (init now).
Proof. split; cbn; repeat constructor. Qed.

(** Every bandwidth of every state the controller reaches is non-negative. *)
Lemma reachable_nonneg self : reachable self -> controller_nonneg self.
Proof.
  induction 1 as [now|e self _ IH]; [apply init_nonneg|].
  destruct e as [dp|ev]; cbn [handle].
  - rewrite switch_features_handler_eq. exact IH.
  - apply flow_stats_reply_handler_nonneg, IH.
Qed.

Lemma Dict_alter_keys {V} (f : V -> V) k (d : list (string * V)) :
  Dict.keys (Dict.alter f k d) = Dict.keys d.
Proof.
  induction d as [|[k' v] d IH]; [reflexivity|]. cbn [Dict.alter].
  destruct (String.eqb k k'); cbn; [reflexivity|]. f_equal. exact IH.
Qed.

(** The aggregated sample has one entry per slice, in the order URLLC, eMBB,
    mMTC. *)
Lemma aggregate_keys body : Dict.keys (aggregate body) = ["URLLC"; "eMBB"; "mMTC"].
Proof.
  unfold aggregate. cbv zeta.
  match goal with
  | |- Dict.keys (fold_left ?f body ?d0) = _ =>
      assert (forall d, Dict.keys (fold_left f body d) = Dict.keys d) as H
  end.
  { induction body as [|stat body IH]; intros d; [reflexivity|].
    cbn [fold_left]. rewrite IH.
    destruct (udp_dst (stat_match stat)) as [p|]; [|reflexivity].
    destruct (SLICE_CONFIG_get SLICE_CONFIG p); [|reflexivity].
    apply Dict_alter_keys. }
  rewrite H. reflexivity.
Qed.

End ControllerInvariants.

Section BootstrapFacts.

Import Controller.

Lemma Dict_get_set_eq {V} k v (d : list (string * V)) :
  Dict.get (Dict.set k v d) k = Some v.
Proof.
  induction d as [|[k' v'] d IH]; cbn [Dict.set Dict.get].
  - now rewrite String.eqb_refl.
  - destruct (String.eqb k k') eqn:E; cbn [Dict.get].
    + now rewrite String.eqb_refl.
    + now rewrite E.
Qed.

Lemma Dict_get_set_ne {V} k k' v (d : list (string * V)) :
  k <> k' -> Dict.get (Dict.set k v d) k' = Dict.get d k'.
Proof.
  intros Hne. induction d as [|[k0 v0] d IH]; cbn [Dict.set Dict.get].
  - apply String.eqb_neq in Hne. rewrite String.eqb_sym. now rewrite Hne.
  - destruct (String.eqb k k0) eqn:E; cbn [Dict.get].
    + apply String.eqb_eq in E. subst k0.
      apply String.eqb_neq in Hne. rewrite String.eqb_sym in Hne. now rewrite Hne.
    + destruct (String.eqb k' k0); [reflexivity | exact IH].
Qed.

(** After the bandwidth loop has run over items with distinct keys, each
    slice holds the rounded rate of its own counters against the sample
    stored before the loop. *)
Lemma py_for_update_metric_get time_delta items self self' :
  NoDup (Dict.keys items) ->
  py_for (update_metric time_delta) items self = (Ok tt, self') ->
  forall slice_name stats,
    (slice_name, stats) ∈ items ->
    exists v,
      rate (bytes stats) (prev_bytes_of (prev_stats self) slice_name) time_delta = Ok v /\
      Dict.get (metrics self') slice_name =
        Some {| metric_bytes := bytes stats; metric_packets := packets stats;
                bandwidth_mbps := PyNum.round3 v |}.
Proof.
  revert self. induction items as [|[k st] items IH]; intros self Hnd Hrun name stats Hin.
  { inversion Hin. }
  cbn [Dict.keys map fst] in Hnd. apply NoDup_cons in Hnd as [Hk Hnd].
  cbn [py_for] in Hrun. unfold mbind, Py_bind, py_bind in Hrun.
  rewrite update_metric_eq in Hrun.
  destruct (rate (bytes st) (prev_bytes_of (prev_stats self) k) time_delta)
    as [v|e] eqn:Hrate; [|discriminate].
  set (self1 := set_metrics _ self) in Hrun.
  assert (prev_stats self1 = prev_stats self) as Hprev by reflexivity.
  apply elem_of_cons in Hin as [Heq|Hin].
  - injection Heq as -> ->. exists v. split; [exact Hrate|].
    assert (forall items s s', py_for (update_metric time_delta) items s = (Ok tt, s') ->
              k ∉ Dict.keys items -> Dict.get (metrics s') k = Dict.get (metrics s) k) as Hkeep.
    { clear. induction items as [|[k0 st0] items IH]; intros s s' Hrun Hk.
      - cbn in Hrun. injection Hrun as <-. reflexivity.
      - cbn [py_for] in Hrun. unfold mbind, Py_bind, py_bind in Hrun.
        rewrite update_metric_eq in Hrun.
        destruct (rate _ _ _) as [v|e]; [|discriminate].
        cbn [Dict.keys map fst] in Hk. apply not_elem_of_cons in Hk as [Hne Hk].
        rewrite (IH _ _ Hrun Hk). cbn [metrics set_metrics].
        apply Dict_get_set_ne. congruence. }
    rewrite (Hkeep _ _ _ Hrun Hk). subst self1. cbn [metrics set_metrics].
    apply Dict_get_set_eq.
  - destruct (IH self1 Hnd Hrun name stats Hin) as (v' & Hv' & Hget).
    exists v'. rewrite <- Hprev. auto.
Qed.

(** Reading the previous byte count finds 0 in an empty store, as it does in
    a store of zero samples. *)
Lemma prev_bytes_of_empty slice_name : prev_bytes_of [] slice_name = 0.
Proof. reflexivity. Qed.




End BootstrapFacts.

(** ** Facts about the collector *)

Section CollectorFacts.

Import MetricsCollector.

Variable now : nat -> string.

(** The metric one slice flow entry adds. *)
Lemma collect_flow_eq time_delta flow self p slice_name :
  udp_dst flow = Some p ->
  (if p =? 0 then None else PORT_TO_SLICE p) = Some slice_name ->
  collect_flow now time_delta flow self =
    match rate (default 0 (byte_count flow))
               (collector_prev_bytes (prev_flow_stats self) slice_name)
               time_delta with
    | Ok v =>
        (Ok tt,
         {| flow_metrics :=
              flow_metrics self ++
              [{| timestamp := now (length (flow_metrics self)) +:+ "Z";
                  slice_name := slice_name;
                  bandwidth_mbps := PyNum.round3 v;
                  packets := default 0 (packet_count flow);
                  bytes := default 0 (byte_count flow);
                  duration_sec := default 0 (flow_duration_sec flow);
                  priority := default 0 (flow_priority flow) |}];
            prev_flow_stats :=
              <[slice_name := {| prev_bytes := default 0 (byte_count flow);
                                 prev_packets := default 0 (packet_count flow) |}]>
                (prev_flow_stats self);
            prev_time := prev_time self |})
    | Raise e => (Raise e, self)
    end.
Proof.
  intros Hp Hs. unfold collect_flow. rewrite Hp, Hs.
  unfold rate, collector_prev_bytes, mbind, Py_bind, py_bind, py_get, py_lift,
    py_modify.
  cbn beta iota.
  destruct (Float time_delta ># Int 0); [|reflexivity].
  cbv zeta. destruct (PyNum.truediv _ _); reflexivity.
Qed.

(** A flow entry that belongs to no slice is skipped. *)
Lemma collect_flow_skip time_delta flow self :
  match udp_dst flow with
  | Some p => (if p =? 0 then None else PORT_TO_SLICE p) = None
  | None => True
  end ->
  collect_flow now time_delta flow self = (Ok tt, self).
Proof.
  unfold collect_flow. destruct (udp_dst flow) as [p|]; [|reflexivity].
  intros ->. reflexivity.
Qed.

Lemma collect_flow_cases time_delta flow :
  (exists p slice_name,
     udp_dst flow = Some p /\
     (if p =? 0 then None else PORT_TO_SLICE p) = Some slice_name) \/
  (forall self, collect_flow now time_delta flow self = (Ok tt, self)).
Proof.
  destruct (udp_dst flow) as [p|] eqn:Hp.
  - destruct (if p =? 0 then None else PORT_TO_SLICE p) as [slice_name|] eqn:Hs.
    + left. eauto.
    + right. intros self. apply collect_flow_skip. now rewrite Hp.
  - right. intros self. apply collect_flow_skip. now rewrite Hp.
Qed.

Lemma collect_flow_nonneg time_delta flow self :
  collector_nonneg self ->
  collector_nonneg (snd (collect_flow now time_delta flow self)).
Proof.
  intros Hinv.
  destruct (collect_flow_cases time_delta flow) as [(p & slice_name & Hp & Hs)|Hskip].
  - rewrite (collect_flow_eq _ _ _ _ _ Hp Hs).
    destruct (rate _ _ _) as [v|e] eqn:Hrate; [|exact Hinv].
    unfold collector_nonneg. cbn [snd flow_metrics].
    apply Forall_app. split; [exact Hinv|]. repeat constructor.
    cbn [bandwidth_mbps]. eapply rate_round3_nonneg, Hrate.
  - now rewrite Hskip.
Qed.

Lemma _collect_controller_metrics_nonneg resp current_time self :
  collector_nonneg self ->
  collector_nonneg (_collect_controller_metrics now resp current_time self).
Proof.
  intros Hinv. unfold _collect_controller_metrics.
  destruct resp as [|status_code data]; [exact Hinv|].
  destruct (negb (status_code =? 200)); [exact Hinv|].
  cbv zeta.
  pose proof (py_for_invariant collector_nonneg
                (collect_flow now (SFsub PyNum.prec PyNum.emax current_time (prev_time self)))
                (default [] data) self
                (fun x s => collect_flow_nonneg _ x s) Hinv) as H1.
  destruct (py_for _ _ self) as [[[]|e] self1]; exact H1.
Qed.





End CollectorFacts.

(** ** Properties of the switch-connect handler *)

(** C4, as the code has it.  The handler keeps no record of installed rules:
    each switch-connect event registers the datapath and sends the same
    seven messages (the table-miss entry, three meters, three
    slice-classification rules).  A second connect of the same switch leaves
    the registry, the metrics and the previous-sample state as the first
    left them and sends the three classification rules again. *)
Theorem switch_connect_twice_resends dp self :
  let st1 := Controller.switch_features_handler dp self in
  let st2 := Controller.switch_features_handler dp st1 in
  Controller.sent st1 = Controller.sent self ++ connect_batch dp /\
  Controller.sent st2 = Controller.sent st1 ++ connect_batch dp /\
  length (connect_batch dp) = 7%nat /\
  classification_rules (connect_batch dp) =
    map (fun '(port, config) => (dp, classification_rule port config))
        Controller.SLICE_CONFIG /\
  length (classification_rules (connect_batch dp)) = 3%nat /\
  Controller.datapaths st2 = Controller.datapaths st1 /\
  Controller.metrics st2 = Controller.metrics st1 /\
  Controller.prev_stats st2 = Controller.prev_stats st1 /\
  Controller.prev_time st2 = Controller.prev_time st1 /\
  Controller.exported st2 = Controller.exported st1.
Proof.
  cbv zeta. rewrite !switch_features_handler_eq.
  cbn [Controller.sent Controller.datapaths Controller.metrics
       Controller.prev_stats Controller.prev_time Controller.exported].
  repeat split. apply insert_insert_eq.
Qed.

(** C4 as claimed fails: after two connects of switch 1 the log of sent
    messages holds six classification rules, each of the three twice. *)
Lemma switch_connect_twice_duplicates :
  let dp := {| Controller.id := 1 |} in
  let st0 := Controller.init (PyNum.of_Z 0) in
  let st1 := Controller.switch_features_handler dp st0 in
  let st2 := Controller.switch_features_handler dp st1 in
  length (classification_rules (Controller.sent st1)) = 3%nat /\
  length (classification_rules (Controller.sent st2)) = 6%nat /\
  Controller.sent st2 <> Controller.sent st1 /\
  ~ NoDup (classification_rules (Controller.sent st2)).
Proof.
  cbv zeta. rewrite !switch_features_handler_eq.
  cbn [Controller.sent Controller.init app].
  split; [reflexivity|]. split; [reflexivity|]. split.
  - intros H. apply (f_equal length) in H. cbn in H. discriminate.
  - intros H.
    change (NoDup (classification_rules (connect_batch {| Controller.id := 1 |}) ++
                   classification_rules (connect_batch {| Controller.id := 1 |}))) in H.
    apply NoDup_app in H as (_ & Hdisj & _).
    eapply Hdisj; apply list_elem_of_here.
Qed.

(** ** Properties of the bandwidth engines *)

(** Every bandwidth of every state the collector reaches is non-negative. *)
Lemma collector_reachable_nonneg self :
  MetricsCollector.reachable self -> collector_nonneg self.
Proof.
  induction 1 as [now|now resp current_time self _ IH].
  - constructor.
  - apply _collect_controller_metrics_nonneg, IH.
Qed.

(** C6. No bandwidth is ever negative: the rounded rate is non-negative for
    every pair of counters (the current one below the previous one, or no
    previous one, included) and every time delta; so is every bandwidth held
    or exported by the controller in every state it reaches, and every
    bandwidth stored by the collector in every state it reaches. *)
Theorem bandwidth_never_negative :
  (forall current_bytes prev_bytes time_delta v,
     rate current_bytes prev_bytes time_delta = Ok v ->
     nonneg (PyNum.round3 v) /\ (PyNum.round3 v <# Int 0) = false) /\
  (forall self,
     Controller.reachable self ->
     (forall slice_name m,
        (slice_name, m) ∈ Controller.metrics self ->
        nonneg (Controller.bandwidth_mbps m) /\
        (Controller.bandwidth_mbps m <# Int 0) = false) /\
     (forall r,
        r ∈ Controller.exported self ->
        nonneg (Controller.export_bandwidth_mbps r) /\
        (Controller.export_bandwidth_mbps r <# Int 0) = false)) /\
  (forall self,
     MetricsCollector.reachable self ->
     forall m,
       m ∈ MetricsCollector.flow_metrics self ->
       nonneg (MetricsCollector.bandwidth_mbps m) /\
       (MetricsCollector.bandwidth_mbps m <# Int 0) = false).
Proof.
  split; [|split].
  - intros current_bytes prev_bytes time_delta v Hrate.
    pose proof (rate_round3_nonneg _ _ _ _ Hrate) as H.
    split; [exact H | apply nonneg_not_negative, H].
  - intros self Hreach. destruct (reachable_nonneg self Hreach) as [Hm He].
    split.
    + intros slice_name m Hin.
      pose proof (proj1 (Forall_forall _ _) Hm _ Hin) as H. cbn [snd] in H.
      split; [exact H | apply nonneg_not_negative, H].
    + intros r Hin. pose proof (proj1 (Forall_forall _ _) He _ Hin) as H.
      split; [exact H | apply nonneg_not_negative, H].
  - intros self Hreach m Hin.
    pose proof (proj1 (Forall_forall _ _) (collector_reachable_nonneg self Hreach) _ Hin)
      as H.
    split; [exact H | apply nonneg_not_negative, H].
Qed.

(** A counter reset on the controller, a counter reset on the collector. *)
Lemma bandwidth_never_negative_witness :
  let s1 := Controller.handle (Controller.FlowStatsReply (urllc_reply 1 105 1000000))
              (Controller.init (PyNum.of_Z 100)) in
  let s2 := Controller.handle (Controller.FlowStatsReply (urllc_reply 1 110 500)) s1 in
  let m := {| Controller.metric_bytes := 500; Controller.metric_packets := 100;
              Controller.bandwidth_mbps := Int 0 |} in
  let now := fun _ : nat => "2024-01-01T00:00:00" in
  let c1 := MetricsCollector._collect_controller_metrics now (urllc_response 1000000)
              (PyNum.of_Z 105) (MetricsCollector.init (PyNum.of_Z 100)) in
  let c2 := MetricsCollector._collect_controller_metrics now (urllc_response 500)
              (PyNum.of_Z 110) c1 in
  (rate 500 1000000 (PyNum.of_Z 5) = Ok (Int 0) /\
   nonneg (PyNum.round3 (Int 0)) /\ (PyNum.round3 (Int 0) <# Int 0) = false) /\
  (Controller.reachable s2 /\
   ("URLLC", m) ∈ Controller.metrics s2 /\
   nonneg (Controller.bandwidth_mbps m) /\
   (Controller.bandwidth_mbps m <# Int 0) = false) /\
  (MetricsCollector.reachable c2 /\
   forall fm, fm ∈ MetricsCollector.flow_metrics c2 ->
     nonneg (MetricsCollector.bandwidth_mbps fm) /\
     (MetricsCollector.bandwidth_mbps fm <# Int 0) = false).
Proof.
  cbv zeta.
  assert (rate 500 1000000 (PyNum.of_Z 5) = Ok (Int 0)) as Hrate
    by (vm_compute; reflexivity).
  split; [|split].
  - split; [exact Hrate|]. exact (proj1 bandwidth_never_negative _ _ _ _ Hrate).
  - match goal with |- Controller.reachable ?s /\ _ =>
      assert (Controller.reachable s) as Hreach by (repeat constructor)
    end.
    split; [exact Hreach|].
    match goal with |- ?e ∈ ?l /\ _ => assert (e ∈ l) as Hin
      by (vm_compute; apply list_elem_of_here)
    end.
    split; [exact Hin|].
    exact (proj1 (proj1 (proj2 bandwidth_never_negative) _ Hreach) _ _ Hin).
  - match goal with |- MetricsCollector.reachable ?s /\ _ =>
      assert (MetricsCollector.reachable s) as Hreach by (repeat constructor)
    end.
    split; [exact Hreach|].
    exact (proj2 (proj2 bandwidth_never_negative) _ Hreach).
Defined.

Section BootstrapTheorems.

Import Controller.




(** What a reply whose bandwidth loop completes leaves in [metrics],
    whatever the export does: per slice, the rounded rate of the aggregated
    counter against the stored sample, over the time since [prev_time]. *)
Lemma bandwidth_loop_metrics ev self :
  fst (bandwidth_loop ev self) = Ok tt ->
  forall slice_name stats,
    (slice_name, stats) ∈ aggregate (body ev) ->
    exists v,
      rate (bytes stats) (prev_bytes_of (prev_stats self) slice_name)
           (SFsub PyNum.prec PyNum.emax (current_time ev) (prev_time self)) = Ok v /\
      Dict.get (metrics (snd (flow_stats_reply_handler ev self))) slice_name =
        Some {| metric_bytes := bytes stats; metric_packets := packets stats;
                bandwidth_mbps := PyNum.round3 v |}.
Proof.
  intros Hloop slice_name stats Hin.
  pose proof (flow_stats_reply_handler_stored ev self) as H.
  unfold bandwidth_loop in *.
  destruct (py_for _ _ self) as [[[]|e] s1] eqn:Hrun; [|discriminate].
  destruct H as (n & -> & _). cbn [metrics set_exported set_prev_time set_prev_stats].
  assert (NoDup (Dict.keys (aggregate (body ev)))) as Hnd.
  { rewrite aggregate_keys. apply (bool_decide_unpack _). vm_compute. exact I. }
  exact (py_for_update_metric_get _ _ _ _ Hnd Hrun slice_name stats Hin).
Qed.

(** What a completed reply leaves in [metrics]. *)
Lemma flow_stats_reply_handler_metrics ev self self' :
  flow_stats_reply_handler ev self = (Ok tt, self') ->
  forall slice_name stats,
    (slice_name, stats) ∈ aggregate (body ev) ->
    exists v,
      rate (bytes stats) (prev_bytes_of (prev_stats self) slice_name)
           (SFsub PyNum.prec PyNum.emax (current_time ev) (prev_time self)) = Ok v /\
      Dict.get (metrics self') slice_name =
        Some {| metric_bytes := bytes stats; metric_packets := packets stats;
                bandwidth_mbps := PyNum.round3 v |}.
Proof.
  intros Hfin.
  pose proof (f_equal fst Hfin) as Hfst. pose proof (f_equal snd Hfin) as Hsnd.
  cbn [fst snd] in Hfst, Hsnd. subst self'.
  apply bandwidth_loop_metrics.
  pose proof (flow_stats_reply_handler_stored ev self) as H.
  destruct (bandwidth_loop ev self) as [[[]|e] s1]; [reflexivity|].
  rewrite H in Hfst. discriminate.
Qed.

End BootstrapTheorems.




Section HandlerReturns.

Import Controller.

Lemma py_for_update_metric_returns time_delta items self :
  exponent_ok time_delta = true ->
  (forall slice_name stats,
     (slice_name, stats) ∈ items ->
     Z.abs (bytes stats - prev_bytes_of (prev_stats self) slice_name) < 2 ^ 1020) ->
  fst (py_for (update_metric time_delta) items self) = Ok tt.
Proof.
  intros Hok. revert self. induction items as [|[k st] items IH]; intros self Hb;
    [reflexivity|].
  cbn [py_for]. unfold mbind, Py_bind, py_bind. rewrite update_metric_eq.
  destruct (rate_returns (bytes st) (prev_bytes_of (prev_stats self) k) time_delta Hok)
    as [v ->]; [apply Hb, list_elem_of_here|].
  apply IH. intros slice_name stats Hin. cbn [prev_stats set_metrics].
  apply Hb. now apply list_elem_of_further.
Qed.

(** The bandwidth loop of a reply completes when the two clock readings
    have their exponents in range and no aggregated counter is 2^1020 or
    more away from the stored one. *)
Lemma bandwidth_loop_returns ev self :
  exponent_ok (current_time ev) = true ->
  exponent_ok (prev_time self) = true ->
  (forall slice_name stats,
     (slice_name, stats) ∈ aggregate (body ev) ->
     Z.abs (bytes stats - prev_bytes_of (prev_stats self) slice_name) < 2 ^ 1020) ->
  fst (bandwidth_loop ev self) = Ok tt.
Proof.
  intros Hct Hpt Hb. unfold bandwidth_loop.
  exact (py_for_update_metric_returns
           (time_delta_of self (current_time ev)) (aggregate (body ev)) self
           (SFsub_exponent_ok _ _ Hct Hpt) Hb).
Qed.

End HandlerReturns.



(** ** The ledger and the counters *)

Section LedgerFacts.

Lemma _get_severity_range expected actual rt sev :
  _get_severity expected actual rt = Ok sev -> severity_level sev.
Proof.
  unfold _get_severity, severity_level.
  destruct (Float expected ==# Int 0); [intros [= <-]; auto|].
  destruct (String.eqb rt "min");
    (destruct (PyNum.truediv actual expected) as [ratio|e]; [|discriminate]);
    cbn [mbind outcome_bind obind].
  - destruct (_ >=# _); [intros [= <-]; auto|].
    destruct (_ >=# _); intros [= <-]; auto.
  - destruct (_ <=# _); [intros [= <-]; auto|].
    destruct (_ <=# _); intros [= <-]; auto.
Qed.

(** What [check_sla] appends carries the name of the checked slice, one of
    the four dimension names and one of the three severity levels. *)
Lemma sla_violations_entries now name sla metrics vs :
  sla_violations now name sla metrics = Ok vs ->
  Forall (fun v => slice_name v = name /\
                   dimension_name (violation_type v) /\
                   severity_level (severity v)) vs.
Proof.
  intros Hvs. sla_cases Hvs;
    repeat apply Forall_cons_2; try apply Forall_nil_2;
    (split; [reflexivity|split]); cbn [violation_type severity];
    unfold dimension_name; auto 6;
    eapply _get_severity_range; eassumption.
Qed.

Lemma ledger_count_app name l1 l2 :
  ledger_count name (l1 ++ l2) = ledger_count name l1 + ledger_count name l2.
Proof. unfold ledger_count. rewrite filter_app, length_app. lia. Qed.

Lemma ledger_count_all name l :
  Forall (fun v => slice_name v = name) l ->
  ledger_count name l = Z.of_nat (length l).
Proof.
  intros H. unfold ledger_count. f_equal. f_equal.
  induction H as [|v l Hv _ IH]; [reflexivity|].
  rewrite filter_cons_True by exact Hv. now rewrite IH.
Qed.

Lemma ledger_count_none name k l :
  k <> name ->
  Forall (fun v => slice_name v = name) l ->
  ledger_count k l = 0.
Proof.
  intros Hne H. unfold ledger_count.
  induction H as [|v l Hv _ IH]; [reflexivity|].
  rewrite filter_cons_False by congruence. exact IH.
Qed.

(** What [check_sla] returns and leaves behind for a registered slice whose
    counter exists: the result and the tracked violations, or
    [OverflowError] and the manager as it was when the measurement of a
    breached dimension does not convert to a float. *)
Lemma check_sla_registered now name metrics self config c :
  slices self !! name = Some config ->
  violation_counts self !! name = Some c ->
  (exists vs,
     sla_violations now name (sla config) metrics = Ok vs /\
     check_sla now name metrics self =
       (Ok {| res_status := match vs with [] => COMPLIANT | _ :: _ => VIOLATED end;
              res_violations := vs;
              res_details := sla_details (sla config) metrics |},
        match vs with
        | [] => self
        | _ :: _ =>
            {| slices := slices self;
               violations := violations self ++ vs;
               violation_counts :=
                 <[name := c + Z.of_nat (length vs)]> (violation_counts self) |}
        end)) \/
  (check_sla now name metrics self = (Raise OverflowError, self) /\
   exists vtype,
     vtype ∈ breached (sla config) metrics /\
     overflows (metrics_get metrics (metrics_key vtype)) = true).
Proof.
  intros Hcfg Hc. rewrite (check_sla_unfold now _ _ _ _ Hcfg).
  destruct (sla_violations now name (sla config) metrics) as [vs|e] eqn:Hvs.
  - left. exists vs. split; [reflexivity|]. unfold track.
    destruct vs; [reflexivity|]. now rewrite Hc.
  - right. destruct (sla_violations_raises now _ _ _ _ Hvs) as [-> Hout]. auto.
Qed.

Lemma check_sla_registered_in_range now name metrics self config c :
  slices self !! name = Some config ->
  violation_counts self !! name = Some c ->
  (forall vtype,
     vtype ∈ breached (sla config) metrics ->
     overflows (metrics_get metrics (metrics_key vtype)) = false) ->
  exists vs,
    sla_violations now name (sla config) metrics = Ok vs /\
    check_sla now name metrics self =
      (Ok {| res_status := match vs with [] => COMPLIANT | _ :: _ => VIOLATED end;
             res_violations := vs;
             res_details := sla_details (sla config) metrics |},
       match vs with
       | [] => self
       | _ :: _ =>
           {| slices := slices self;
              violations := violations self ++ vs;
              violation_counts :=
                <[name := c + Z.of_nat (length vs)]> (violation_counts self) |}
       end).
Proof.
  intros Hcfg Hc Hin.
  destruct (check_sla_registered now name metrics self config c Hcfg Hc)
    as [H|(_ & vtype & Hb & Hout)]; [exact H|].
  rewrite (Hin vtype Hb) in Hout. discriminate.
Qed.

Lemma check_sla_unregistered now name metrics self :
  slices self !! name = None ->
  check_sla now name metrics self =
    (Ok {| res_status := UNKNOWN; res_violations := [];
           res_details := DetailsError ("Unknown slice: " +:+ name) |}, self).
Proof.
  intros Hcfg. unfold check_sla, mbind, Py_bind, py_bind, py_get.
  now rewrite Hcfg.
Qed.

Lemma reachable_ledger_tracked self : reachable self -> ledger_tracked self.
Proof.
  induction 1 as [|now name metrics self Hreach [IHl IHc]|self _ _].
  - split; [constructor|]. intros name c Hc.
    unfold init, _init_default_slices in Hc. cbn [violation_counts] in Hc.
    rewrite lookup_union_Some_raw, lookup_fmap in Hc.
    destruct Hc as [Hc|[_ Hc]]; [|now rewrite lookup_empty in Hc].
    destruct (_ !! name); cbn [fmap option_fmap option_map] in Hc; [|discriminate].
    injection Hc as <-. reflexivity.
  - destruct (reachable_invariant self Hreach) as [_ Hcov].
    destruct (slices self !! name) as [config|] eqn:Hcfg.
    + destruct (Hcov name) as [c Hc]; [eauto|].
      destruct (check_sla_registered now name metrics self config c Hcfg Hc)
        as [(vs & Hvs & ->)|[-> _]]; [|now split].
      pose proof (sla_violations_entries _ _ _ _ _ Hvs) as Hentries.
      destruct vs as [|v vs]; [now split|]. cbn [snd]. split.
      * cbn [violations slices]. apply Forall_app. split; [exact IHl|].
        eapply Forall_impl; [exact Hentries|].
        intros w (-> & Ht & Hs). rewrite Hcfg. eauto.
      * intros k ck. cbn [violations violation_counts].
        assert (Forall (fun w => slice_name w = name) (v :: vs)) as Hnames.
        { eapply Forall_impl; [exact Hentries|]. now intros w (? & _). }
        rewrite ledger_count_app.
        destruct (decide (name = k)) as [<-|Hne].
        -- rewrite lookup_insert_eq. intros [= <-].
           rewrite (IHc name c Hc), (ledger_count_all name _ Hnames). reflexivity.
        -- rewrite lookup_insert_ne by done. intros Hk.
           rewrite (ledger_count_none name k _ ltac:(congruence) Hnames).
           rewrite (IHc k ck Hk). lia.
    + rewrite check_sla_unregistered by done. now split.
  - split; [constructor|]. intros name c. unfold clear_violations.
    cbn [violation_counts violations]. rewrite lookup_fmap.
    destruct (_ !! name); cbn [fmap option_fmap option_map]; [|discriminate].
    now intros [= <-].
Qed.

End LedgerFacts.

(** X1. In every state the manager can reach, the counter of each slice
    equals the number of entries the ledger holds for that slice, and every
    ledger entry names a registered slice that has a counter: ledger and
    counters never drift apart. *)
Theorem counters_match_ledger self :
  reachable self ->
  (forall name c,
     violation_counts self !! name = Some c ->
     c = ledger_count name (violations self)) /\
  Forall (fun v => is_Some (slices self !! slice_name v) /\
                   is_Some (violation_counts self !! slice_name v))
         (violations self).
Proof.
  intros Hreach.
  destruct (reachable_ledger_tracked self Hreach) as [Hl Hc].
  destruct (reachable_invariant self Hreach) as [_ Hcov].
  split; [exact Hc|].
  eapply Forall_impl; [exact Hl|]. intros v (Hv & _). split; [exact Hv|auto].
Qed.

(** X1 after the three violations of the self-test have been recorded. *)
Lemma counters_match_ledger_witness :
  let self := snd (check_sla (fun _ => "2024-01-01T00:00:00") "URLLC" bad_metrics init) in
  reachable self /\
  violation_counts self !! "URLLC" = Some 3 /\
  ledger_count "URLLC" (violations self) = 3 /\
  ((forall name c,
      violation_counts self !! name = Some c ->
      c = ledger_count name (violations self)) /\
   Forall (fun v => is_Some (slices self !! slice_name v) /\
                    is_Some (violation_counts self !! slice_name v))
          (violations self)).
Proof.
  cbv zeta.
  assert (reachable (snd (check_sla (fun _ => "2024-01-01T00:00:00") "URLLC"
                            bad_metrics init))) as Hreach.
  { apply reach_check_sla, reach_init. }
  split; [exact Hreach|]. split; [reflexivity|]. split; [reflexivity|].
  exact (counters_match_ledger _ Hreach).
Defined.

(** ** The violation summary *)

Section SummaryFacts.

Lemma dict_sum_insert_new d k n :
  d !! k = None -> dict_sum (<[k := n]> d) = n + dict_sum d.
Proof.
  intros Hk. unfold dict_sum. apply map_fold_insert_L; [intros; lia | exact Hk].
Qed.

Lemma dict_sum_insert d k n :
  dict_sum (<[k := n]> d) = dict_sum d - default 0 (d !! k) + n.
Proof.
  destruct (d !! k) as [old|] eqn:Hk; cbn [default from_option id].
  - rewrite <- (insert_delete_eq d k n).
    rewrite <- (insert_delete_id d k old Hk) at 2.
    rewrite !dict_sum_insert_new by apply lookup_delete_eq. cbn [id]. lia.
  - rewrite dict_sum_insert_new by exact Hk. cbn [id]. lia.
Qed.

Lemma dict_sum_zeros {A} (d : gmap string A) : dict_sum ((fun _ => 0) <$> d) = 0.
Proof.
  induction d as [|k x d Hk IH] using map_ind.
  - rewrite fmap_empty. reflexivity.
  - rewrite fmap_insert, dict_sum_insert_new, IH; [reflexivity|].
    now rewrite lookup_fmap, Hk.
Qed.

Lemma severity_count_cons sev v l :
  severity_count sev (v :: l) =
  (if decide (severity v = sev) then 1 else 0) + severity_count sev l.
Proof.
  unfold severity_count. rewrite filter_cons.
  destruct (decide (severity v = sev)); cbn [length]; lia.
Qed.

Lemma type_count_cons vtype v l :
  type_count vtype (v :: l) =
  (if decide (violation_type v = vtype) then 1 else 0) + type_count vtype l.
Proof.
  unfold type_count. rewrite filter_cons.
  destruct (decide (violation_type v = vtype)); cbn [length]; lia.
Qed.

Lemma type_count_nonneg vtype l : 0 <= type_count vtype l.
Proof. unfold type_count. lia. Qed.

(** The counting loop of [get_violation_summary], from any accumulator whose
    severity buckets exist for the severities of the ledger. *)
Lemma count_violations_spec l :
  forall acc,
    Forall (fun v => is_Some (severity_distribution acc !! severity v)) l ->
    exists s,
      foldl (fun acc v => acc ← acc; count_violation acc v) (Ok acc) l = Ok s /\
      total_violations s = total_violations acc /\
      violations_by_slice s = violations_by_slice acc /\
      (forall sev,
         severity_distribution s !! sev =
         (fun n => n + severity_count sev l) <$> severity_distribution acc !! sev) /\
      (forall vtype,
         violations_by_type s !! vtype =
         if type_count vtype l =? 0 then violations_by_type acc !! vtype
         else Some (default 0 (violations_by_type acc !! vtype) +
                    type_count vtype l)) /\
      dict_sum (severity_distribution s) =
        dict_sum (severity_distribution acc) + Z.of_nat (length l) /\
      dict_sum (violations_by_type s) =
        dict_sum (violations_by_type acc) + Z.of_nat (length l).
Proof.
  induction l as [|v l IH]; intros acc Hsev.
  - exists acc. cbn [foldl length]. repeat split; try lia.
    + intros sev. destruct (_ !! sev); cbn; [|done].
      now rewrite Z.add_0_r.
  - apply Forall_cons in Hsev as [[n Hn] Hsev].
    cbn [foldl mbind outcome_bind obind]. unfold count_violation at 2.
    rewrite Hn.
    match goal with
    | |- context [foldl _ (Ok ?a) l] => destruct (IH a) as (s & Hs & Ht & Hsl & Hsd & Hty & Hsum1 & Hsum2)
    end.
    { cbn [severity_distribution]. eapply Forall_impl; [exact Hsev|].
      intros w [m Hm]. destruct (decide (severity v = severity w)) as [->|Hne].
      - rewrite lookup_insert_eq. eauto.
      - rewrite lookup_insert_ne by done. eauto. }
    exists s. split; [exact Hs|]. cbn [total_violations violations_by_slice
      severity_distribution violations_by_type] in *.
    split; [exact Ht|]. split; [exact Hsl|]. split; [|split; [|split]].
    + intros sev. rewrite Hsd, severity_count_cons.
      destruct (decide (severity v = sev)) as [<-|Hne].
      * rewrite lookup_insert_eq, Hn. cbn. f_equal. lia.
      * rewrite lookup_insert_ne by done.
        destruct (severity_distribution acc !! sev); cbn; [|done]. f_equal.
    + intros vtype. rewrite Hty, type_count_cons.
      pose proof (type_count_nonneg vtype l) as Hnn.
      destruct (decide (violation_type v = vtype)) as [<-|Hne].
      * rewrite lookup_insert_eq. cbn [default from_option id].
        destruct (type_count (violation_type v) l =? 0) eqn:E;
          [apply Z.eqb_eq in E; rewrite E|];
          (destruct (1 + _ =? 0) eqn:E'; [apply Z.eqb_eq in E'; lia|]);
          f_equal; lia.
      * rewrite lookup_insert_ne by done. rewrite Z.add_0_l. reflexivity.
    + rewrite Hsum1, dict_sum_insert, Hn. cbn [default from_option id length]. lia.
    + rewrite Hsum2, dict_sum_insert. cbn [length]. lia.
Qed.

Lemma reachable_counts_sum self :
  reachable self ->
  dict_sum (violation_counts self) = Z.of_nat (length (violations self)).
Proof.
  induction 1 as [|now name metrics self Hreach IH|self _ _].
  - vm_compute. reflexivity.
  - destruct (reachable_invariant self Hreach) as [_ Hcov].
    destruct (slices self !! name) as [config|] eqn:Hcfg.
    + destruct (Hcov name) as [c Hc]; [eauto|].
      destruct (check_sla_registered now name metrics self config c Hcfg Hc)
        as [(vs & _ & ->)|[-> _]]; [|exact IH].
      destruct vs as [|v vs]; [exact IH|]. cbn [snd violations violation_counts].
      rewrite dict_sum_insert, Hc, length_app, IH. cbn [default from_option id]. lia.
    + rewrite check_sla_unregistered by done. exact IH.
  - unfold clear_violations. cbn [violations violation_counts].
    apply dict_sum_zeros.
Qed.

End SummaryFacts.

(** X3. In every state the manager can reach, [get_violation_summary]
    returns: its total is the length of the ledger, its per-slice counts are
    the counters, each of the three severity buckets holds the number of
    ledger entries of that severity, and [violations_by_type] holds for each
    type the number of entries of that type, with no key for a type that
    has none. *)
Theorem get_violation_summary_counts self :
  reachable self ->
  exists s,
    get_violation_summary self = Ok s /\
    total_violations s = Z.of_nat (length (violations self)) /\
    violations_by_slice s = violation_counts self /\
    severity_distribution s !! "minor" =
      Some (severity_count "minor" (violations self)) /\
    severity_distribution s !! "major" =
      Some (severity_count "major" (violations self)) /\
    severity_distribution s !! "critical" =
      Some (severity_count "critical" (violations self)) /\
    (forall vtype,
       violations_by_type s !! vtype =
       if type_count vtype (violations self) =? 0 then None
       else Some (type_count vtype (violations self))).
Proof.
  intros Hreach. destruct (reachable_ledger_tracked self Hreach) as [Hl _].
  unfold get_violation_summary.
  match goal with
  | |- context [foldl _ (Ok ?a) _] =>
      destruct (count_violations_spec (violations self) a)
        as (s & Hs & Ht & Hsl & Hsd & Hty & _)
  end.
  { eapply Forall_impl; [exact Hl|]. cbn [severity_distribution].
    intros v (_ & _ & [-> | [-> | ->]]); eexists; reflexivity. }
  exists s. split; [exact Hs|]. split; [exact Ht|]. split; [exact Hsl|].
  rewrite !Hsd. cbn [severity_distribution].
  repeat (split; [reflexivity|]).
  intros vtype. rewrite Hty. cbn [violations_by_type].
  rewrite lookup_empty. reflexivity.
Qed.

(** X3 after the three violations of the self-test have been recorded. *)
Lemma get_violation_summary_counts_witness :
  let self := snd (check_sla (fun _ => "2024-01-01T00:00:00") "URLLC" bad_metrics init) in
  reachable self /\
  type_count "latency" (violations self) = 1 /\
  exists s,
    get_violation_summary self = Ok s /\
    total_violations s = Z.of_nat (length (violations self)) /\
    violations_by_slice s = violation_counts self /\
    severity_distribution s !! "minor" =
      Some (severity_count "minor" (violations self)) /\
    severity_distribution s !! "major" =
      Some (severity_count "major" (violations self)) /\
    severity_distribution s !! "critical" =
      Some (severity_count "critical" (violations self)) /\
    (forall vtype,
       violations_by_type s !! vtype =
       if type_count vtype (violations self) =? 0 then None
       else Some (type_count vtype (violations self))).
Proof.
  cbv zeta.
  assert (reachable (snd (check_sla (fun _ => "2024-01-01T00:00:00") "URLLC"
                            bad_metrics init))) as Hreach.
  { apply reach_check_sla, reach_init. }
  split; [exact Hreach|]. split; [reflexivity|].
  exact (get_violation_summary_counts _ Hreach).
Defined.

(** X4. In every state the manager can reach, the figures of the summary
    agree: the total equals the sum of the per-slice counts, the sum of the
    three severity buckets and the sum of the per-type counts. *)
Theorem get_violation_summary_totals self :
  reachable self ->
  exists s,
    get_violation_summary self = Ok s /\
    dict_sum (violations_by_slice s) = total_violations s /\
    dict_sum (severity_distribution s) = total_violations s /\
    dict_sum (violations_by_type s) = total_violations s.
Proof.
  intros Hreach. destruct (reachable_ledger_tracked self Hreach) as [Hl _].
  unfold get_violation_summary.
  match goal with
  | |- context [foldl _ (Ok ?a) _] =>
      destruct (count_violations_spec (violations self) a)
        as (s & Hs & Ht & Hsl & _ & _ & Hsum1 & Hsum2)
  end.
  { eapply Forall_impl; [exact Hl|]. cbn [severity_distribution].
    intros v (_ & _ & [-> | [-> | ->]]); eexists; reflexivity. }
  exists s. split; [exact Hs|].
  rewrite Ht, Hsl, Hsum1, Hsum2.
  cbn [total_violations violations_by_slice severity_distribution
       violations_by_type].
  split; [now apply reachable_counts_sum|]. split; reflexivity.
Qed.

(** X4 after the three violations of the self-test have been recorded. *)
Lemma get_violation_summary_totals_witness :
  let self := snd (check_sla (fun _ => "2024-01-01T00:00:00") "URLLC" bad_metrics init) in
  reachable self /\
  exists s,
    get_violation_summary self = Ok s /\
    total_violations s = 3 /\
    dict_sum (violations_by_slice s) = total_violations s /\
    dict_sum (severity_distribution s) = total_violations s /\
    dict_sum (violations_by_type s) = total_violations s.
Proof.
  cbv zeta.
  assert (reachable (snd (check_sla (fun _ => "2024-01-01T00:00:00") "URLLC"
                            bad_metrics init))) as Hreach.
  { apply reach_check_sla, reach_init. }
  split; [exact Hreach|].
  destruct (get_violation_summary_totals _ Hreach) as (s & Hs & H1 & H2 & H3).
  exists s. split; [exact Hs|]. split; [|auto].
  vm_compute in Hs. injection Hs as <-. reflexivity.
Defined.

(** ** The violations of one call *)

Section BreachFacts.

Lemma sla_violations_spec now name sla metrics vs :
  sla_violations now name sla metrics = Ok vs ->
  violation_type <$> vs = breached sla metrics /\
  Forall (fun v =>
            slice_name v = name /\
            expected_value v = threshold_of sla (violation_type v) /\
            actual_value v = metrics_get metrics (metrics_key (violation_type v)))
         vs /\
  (forall i v, vs !! i = Some v -> timestamp v = now i).
Proof.
  intros Hvs. unfold breached.
  sla_cases Hvs;
    repeat match goal with
    | H : _ = true |- _ => rewrite H; clear H
    | H : _ = false |- _ => rewrite H; clear H
    end;
    (split; [reflexivity|]);
    (split; [repeat apply Forall_cons_2; try apply Forall_nil_2; repeat split|]);
    intros [|[|[|[|i]]]] v [= <-]; reflexivity.
Qed.

Lemma check_sla_result_registered now name metrics self config res self' :
  slices self !! name = Some config ->
  check_sla now name metrics self = (Ok res, self') ->
  sla_violations now name (sla config) metrics = Ok (res_violations res) /\
  res_status res =
    match res_violations res with [] => COMPLIANT | _ :: _ => VIOLATED end /\
  res_details res = sla_details (sla config) metrics.
Proof.
  intros Hcfg. rewrite (check_sla_unfold now _ _ _ _ Hcfg).
  destruct (sla_violations now name (sla config) metrics) as [vs|e]; [|done].
  unfold track. destruct vs as [|v vs].
  - now intros [= <- <-].
  - destruct (violation_counts self !! name); [|done]. now intros [= <- <-].
Qed.

Lemma nan_not_ltb b : (Float S754_nan <# b) = false.
Proof. now destruct b. Qed.

Lemma nan_not_gtb b : (Float S754_nan ># Float b) = false.
Proof. unfold PyNum.gtb, PyNum.ltb. cbn. now destruct b as [| | |[] ? ?]. Qed.

Lemma nan_not_geb b : (Float S754_nan >=# Float b) = false.
Proof. unfold PyNum.geb, PyNum.leb. cbn. now destruct b as [| | |[] ? ?]. Qed.

Lemma nan_not_leb b : (Float S754_nan <=# b) = false.
Proof. now destruct b. Qed.

End BreachFacts.

Section GradingFacts.




End GradingFacts.




(** X5. For a registered slice, the violations [check_sla] returns are the
    dimensions whose strict test fails (bandwidth below its minimum;
    latency, jitter, packet loss above their maxima), once each, always in
    the order bandwidth, latency, jitter, packet loss.  Each carries the
    slice name, the threshold of its dimension and the measured value, and
    the violation of index [i] the timestamp read for index [i]; the status
    is [compliant] exactly when no dimension fails. *)
Theorem check_sla_lists_breached_dimensions now name metrics self config res self' :
  slices self !! name = Some config ->
  check_sla now name metrics self = (Ok res, self') ->
  violation_type <$> res_violations res = breached (sla config) metrics /\
  Forall (fun v =>
            slice_name v = name /\
            expected_value v = threshold_of (sla config) (violation_type v) /\
            actual_value v = metrics_get metrics (metrics_key (violation_type v)))
         (res_violations res) /\
  (forall i v, res_violations res !! i = Some v -> timestamp v = now i) /\
  (res_status res = COMPLIANT <-> breached (sla config) metrics = []).
Proof.
  intros Hcfg Hcall.
  destruct (check_sla_result_registered _ _ _ _ _ _ _ Hcfg Hcall)
    as (Hvs & Hstatus & _).
  destruct (sla_violations_spec _ _ _ _ _ Hvs) as (Htypes & Hvals & Htime).
  split; [exact Htypes|]. split; [exact Hvals|]. split; [exact Htime|].
  rewrite Hstatus, <- Htypes. now destruct (res_violations res).
Qed.

(** X5 on the violating sample of the self-test in a fresh manager. *)
Lemma check_sla_lists_breached_dimensions_witness :
  let now := fun i : nat => if Nat.eqb i 0 then "t0" else "t1" in
  exists config res self',
    slices init !! "URLLC" = Some config /\
    check_sla now "URLLC" bad_metrics init = (Ok res, self') /\
    breached (sla config) bad_metrics = ["bandwidth"; "latency"; "jitter"] /\
    violation_type <$> res_violations res = breached (sla config) bad_metrics /\
    Forall (fun v =>
              slice_name v = "URLLC" /\
              expected_value v = threshold_of (sla config) (violation_type v) /\
              actual_value v = metrics_get bad_metrics (metrics_key (violation_type v)))
           (res_violations res) /\
    (forall i v, res_violations res !! i = Some v -> timestamp v = now i) /\
    (res_status res = COMPLIANT <-> breached (sla config) bad_metrics = []).
Proof.
  cbv zeta. do 3 eexists. split; [reflexivity|].
  split; [vm_compute; reflexivity|]. split; [vm_compute; reflexivity|].
  eapply (check_sla_lists_breached_dimensions _ "URLLC" bad_metrics init);
    [reflexivity | vm_compute; reflexivity].
Defined.

(** X6. A measurement that is NaN never yields a violation of its
    dimension, although the details report that dimension as not
    compliant; when all four measurements are NaN the status is
    [compliant] while no dimension is reported compliant. *)
Theorem check_sla_nan_measurement now name metrics self config res self' :
  slices self !! name = Some config ->
  check_sla now name metrics self = (Ok res, self') ->
  (forall vtype,
     dimension_name vtype ->
     metrics !! metrics_key vtype = Some (Float S754_nan) ->
     Forall (fun v => violation_type v <> vtype) (res_violations res) /\
     exists d, detail_of (res_details res) vtype = Some d /\
               compliant d = false) /\
  ((forall vtype, dimension_name vtype ->
                  metrics !! metrics_key vtype = Some (Float S754_nan)) ->
   res_status res = COMPLIANT /\ res_violations res = [] /\ self' = self).
Proof.
  intros Hcfg Hcall.
  destruct (check_sla_result_registered _ _ _ _ _ _ _ Hcfg Hcall)
    as (Hvs & Hstatus & Hdetails).
  destruct (sla_violations_spec _ _ _ _ _ Hvs) as (Htypes & _ & _).
  split.
  - intros vtype Hdim Hnan. split.
    + apply Forall_forall. intros v Hv Heq.
      assert (vtype ∈ breached (sla config) metrics) as Hin.
      { rewrite <- Htypes, <- Heq. now apply list_elem_of_fmap_2. }
      clear - Hdim Hnan Hin. unfold breached in Hin.
      destruct Hdim as [-> | [-> | [-> | ->]]]; cbn in Hnan;
        unfold metrics_get in Hin at 1 2 3 4; rewrite Hnan in Hin;
        rewrite ?nan_not_ltb, ?nan_not_gtb in Hin;
        repeat match type of Hin with
        | context [if ?b then _ else _] => destruct b
        end;
        cbn [app] in Hin; revert Hin; apply (bool_decide_unpack _);
        vm_compute; exact I.
    + rewrite Hdetails. unfold sla_details.
      destruct Hdim as [-> | [-> | [-> | ->]]]; cbn in Hnan |- *;
        eexists; (split; [reflexivity|]); cbn [compliant];
        unfold metrics_get; rewrite Hnan;
        first [apply nan_not_geb | apply nan_not_leb].
  - intros Hall.
    assert (breached (sla config) metrics = []) as Hnone.
    { pose proof (Hall "bandwidth") as Hb. pose proof (Hall "latency") as Hl.
      pose proof (Hall "jitter") as Hj. pose proof (Hall "packet_loss") as Hp.
      unfold dimension_name in Hb, Hl, Hj, Hp. cbn in Hb, Hl, Hj, Hp.
      unfold breached, metrics_get.
      rewrite Hb, Hl, Hj, Hp by auto.
      now rewrite nan_not_ltb, !nan_not_gtb. }
    rewrite Hnone in Htypes.
    assert (res_violations res = []) as Hnil.
    { now destruct (res_violations res). }
    split; [now rewrite Hstatus, Hnil|]. split; [exact Hnil|].
    revert Hcall. rewrite (check_sla_unfold now _ _ _ _ Hcfg), Hvs, Hnil.
    now intros [= _ <-].
Qed.

(** X6 on a sample whose four measurements are NaN. *)
Lemma check_sla_nan_measurement_witness :
  exists config res self',
    slices init !! "eMBB" = Some config /\
    check_sla (fun _ => "2024-01-01T00:00:00") "eMBB" nan_metrics init = (Ok res, self') /\
    (forall vtype, dimension_name vtype ->
                   nan_metrics !! metrics_key vtype = Some (Float S754_nan)) /\
    res_status res = COMPLIANT /\ res_violations res = [] /\ self' = init /\
    exists d, detail_of (res_details res) "latency" = Some d /\
              compliant d = false.
Proof.
  assert (forall vtype, dimension_name vtype ->
                        nan_metrics !! metrics_key vtype = Some (Float S754_nan)) as Hall.
  { intros vtype [-> | [-> | [-> | ->]]]; reflexivity. }
  destruct (check_sla (fun _ => "2024-01-01T00:00:00") "eMBB" nan_metrics init)
    as [[res|e] self'] eqn:Hcall; [|vm_compute in Hcall; discriminate].
  destruct (check_sla_nan_measurement _ "eMBB" nan_metrics init _ res self'
              eq_refl Hcall) as [Hone Hfour].
  destruct (Hfour Hall) as (H1 & H2 & H3).
  do 3 eexists. split; [reflexivity|]. split; [reflexivity|].
  split; [exact Hall|].
  split; [exact H1|]. split; [exact H2|]. split; [exact H3|].
  apply (Hone "latency"); [unfold dimension_name; auto | reflexivity].
Defined.

(** ** The registry *)

Section RegistryFacts.

Lemma get_slice_by_port_found items name config :
  NoDup (map (fun item => port (snd item)) items) ->
  (name, config) ∈ items ->
  get_slice_by_port items (port config) = Some name.
Proof.
  induction items as [|[n c] items IH]; intros Hnd Hin.
  - now apply elem_of_nil in Hin.
  - cbn [map snd] in Hnd. apply NoDup_cons in Hnd as [Hnotin Hnd].
    cbn [get_slice_by_port]. apply elem_of_cons in Hin as [[= <- <-]|Hin].
    + now rewrite Z.eqb_refl.
    + destruct (port c =? port config) eqn:E; [|auto].
      apply Z.eqb_eq in E. exfalso. apply Hnotin. rewrite E.
      apply (list_elem_of_fmap_2 (fun item => port (snd item)) _ _ Hin).
Qed.

Lemma get_slice_by_port_missing items p :
  (forall name config, (name, config) ∈ items -> port config <> p) ->
  get_slice_by_port items p = None.
Proof.
  induction items as [|[n c] items IH]; intros Hall; [reflexivity|].
  cbn [get_slice_by_port].
  destruct (port c =? p) eqn:E.
  - apply Z.eqb_eq in E. exfalso. apply (Hall n c); [apply list_elem_of_here | exact E].
  - apply IH. intros name config Hin. apply (Hall name). now apply list_elem_of_further.
Qed.

Lemma init_items :
  map_to_list (slices init) ≡ₚ
    [("URLLC", {| name := "URLLC"; slice_type := URLLC; port := 5001;
                  dscp := 46; sla := DEFAULT_SLAS URLLC; priority := 100;
                  description := "Ultra-Reliable Low-Latency Communication for critical applications" |});
     ("eMBB", {| name := "eMBB"; slice_type := EMBB; port := 5002;
                 dscp := 34; sla := DEFAULT_SLAS EMBB; priority := 50;
                 description := "Enhanced Mobile Broadband for high-throughput applications" |});
     ("mMTC", {| name := "mMTC"; slice_type := MMTC; port := 5003;
                 dscp := 10; sla := DEFAULT_SLAS MMTC; priority := 10;
                 description := "Massive Machine Type Communication for IoT devices" |})].
Proof.
  unfold init, _init_default_slices. cbn [slices].
  rewrite !map_to_list_insert, map_to_list_empty by reflexivity.
  exact (Permutation_rev [_; _; _]).
Qed.

End RegistryFacts.

(** X7. In every state the manager can reach, and whatever the order in
    which the registry is listed, [get_slice_by_port] answers URLLC for
    port 5001, eMBB for 5002, mMTC for 5003 and [None] for any other port:
    the same table as [PORT_TO_SLICE] of the collector and [SLICE_CONFIG] of
    the controller, whose DSCP value and priority for the port are those of
    the manager's slice. *)
Theorem get_slice_by_port_table self items p :
  reachable self ->
  slices_items self items ->
  get_slice_by_port items p = MetricsCollector.PORT_TO_SLICE p /\
  get_slice_by_port items p =
    Controller.name <$> Controller.SLICE_CONFIG_get Controller.SLICE_CONFIG p /\
  (forall c,
     Controller.SLICE_CONFIG_get Controller.SLICE_CONFIG p = Some c ->
     exists config,
       get_slice_config self (Controller.name c) = Some config /\
       port config = p /\
       dscp config = Controller.dscp c /\
       priority config = Controller.priority c).
Proof.
  intros Hreach Hitems. destruct (reachable_invariant self Hreach) as [Hs _].
  unfold slices_items in Hitems. unfold get_slice_config.
  rewrite Hs in Hitems |- *. rewrite init_items in Hitems.
  assert (NoDup (map (fun item => port (snd item)) items)) as Hnd.
  { rewrite Hitems. apply (bool_decide_unpack _). vm_compute. exact I. }
  unfold MetricsCollector.PORT_TO_SLICE, Controller.SLICE_CONFIG.
  cbn [Controller.SLICE_CONFIG_get].
  rewrite (Z.eqb_sym 5001 p), (Z.eqb_sym 5002 p), (Z.eqb_sym 5003 p).
  destruct (Z.eqb_spec p 5001) as [->|H1];
    [|destruct (Z.eqb_spec p 5002) as [->|H2];
      [|destruct (Z.eqb_spec p 5003) as [->|H3]]].
  - pose proof (get_slice_by_port_found items "URLLC" (Build_SliceConfig "URLLC" URLLC 5001 46 (DEFAULT_SLAS URLLC) 100 "Ultra-Reliable Low-Latency Communication for critical applications") Hnd) as Hfound.
    cbn [port] in Hfound. rewrite Hfound;
      [|rewrite Hitems;
        repeat first [apply list_elem_of_here | apply list_elem_of_further]].
    split; [reflexivity|]; split; [reflexivity|];
      intros c [= <-]; eexists; split; [reflexivity|]; now repeat split.
  - pose proof (get_slice_by_port_found items "eMBB" (Build_SliceConfig "eMBB" EMBB 5002 34 (DEFAULT_SLAS EMBB) 50 "Enhanced Mobile Broadband for high-throughput applications") Hnd) as Hfound.
    cbn [port] in Hfound. rewrite Hfound;
      [|rewrite Hitems;
        repeat first [apply list_elem_of_here | apply list_elem_of_further]].
    split; [reflexivity|]; split; [reflexivity|];
      intros c [= <-]; eexists; split; [reflexivity|]; now repeat split.
  - pose proof (get_slice_by_port_found items "mMTC" (Build_SliceConfig "mMTC" MMTC 5003 10 (DEFAULT_SLAS MMTC) 10 "Massive Machine Type Communication for IoT devices") Hnd) as Hfound.
    cbn [port] in Hfound. rewrite Hfound;
      [|rewrite Hitems;
        repeat first [apply list_elem_of_here | apply list_elem_of_further]].
    split; [reflexivity|]; split; [reflexivity|];
      intros c [= <-]; eexists; split; [reflexivity|]; now repeat split.
  - rewrite get_slice_by_port_missing; [now repeat split|].
    intros name config Hin. rewrite Hitems in Hin.
    repeat (apply elem_of_cons in Hin as [[= -> ->]|Hin];
            [cbn [port]; congruence|]).
    now apply elem_of_nil in Hin.
Qed.

(** X7 for a fresh manager listed in insertion order. *)
Lemma get_slice_by_port_table_witness :
  exists items,
    reachable init /\
    slices_items init items /\
    fst <$> items = ["URLLC"; "eMBB"; "mMTC"] /\
    get_slice_by_port items 5002 = Some "eMBB" /\
    get_slice_by_port items 5002 = MetricsCollector.PORT_TO_SLICE 5002 /\
    get_slice_by_port items 5002 =
      Controller.name <$> Controller.SLICE_CONFIG_get Controller.SLICE_CONFIG 5002.
Proof.
  eexists. split; [apply reach_init|].
  assert (slices_items init _) as Hitems
    by (unfold slices_items; symmetry; apply init_items).
  split; [exact Hitems|]. split; [reflexivity|]. split; [reflexivity|].
  destruct (get_slice_by_port_table init _ 5002 reach_init Hitems) as (H1 & H2 & _).
  split; [exact H1 | exact H2].
Defined.

(** X8. No method changes the registry: in every state the manager can
    reach, [get_slice_config] and [get_sla] answer as in a fresh manager.
    For URLLC, eMBB and mMTC they return the configuration stored under
    that name with the default SLA of its slice type, and for every other
    name they return [None]. *)
Theorem registry_never_changes self slice_name :
  reachable self ->
  get_slice_config self slice_name = get_slice_config init slice_name /\
  get_sla self slice_name = sla <$> get_slice_config self slice_name /\
  (forall config,
     get_slice_config self slice_name = Some config ->
     name config = slice_name /\
     get_sla self slice_name = Some (DEFAULT_SLAS (slice_type config))) /\
  (get_slice_config self slice_name = None <->
   slice_name ∉ ["URLLC"; "eMBB"; "mMTC"]).
Proof.
  intros Hreach. destruct (reachable_invariant self Hreach) as [Hs _].
  unfold get_slice_config, get_sla. rewrite Hs.
  split; [reflexivity|]. split; [now destruct (slices init !! slice_name)|].
  unfold init, _init_default_slices. cbn [slices].
  destruct (decide (slice_name = "mMTC")) as [->|H1].
  { rewrite lookup_insert_eq. split; [now intros config [= <-]|].
    split; [done|]. intros Hn. exfalso. apply Hn.
    apply (bool_decide_unpack _). vm_compute. exact I. }
  rewrite lookup_insert_ne by done.
  destruct (decide (slice_name = "eMBB")) as [->|H2].
  { rewrite lookup_insert_eq. split; [now intros config [= <-]|].
    split; [done|]. intros Hn. exfalso. apply Hn.
    apply (bool_decide_unpack _). vm_compute. exact I. }
  rewrite lookup_insert_ne by done.
  destruct (decide (slice_name = "URLLC")) as [->|H3].
  { rewrite lookup_insert_eq. split; [now intros config [= <-]|].
    split; [done|]. intros Hn. exfalso. apply Hn.
    apply (bool_decide_unpack _). vm_compute. exact I. }
  rewrite lookup_insert_ne by done. rewrite lookup_empty.
  split; [done|]. split; [|done]. intros _ Hin.
  repeat (apply elem_of_cons in Hin as [->|Hin]; [done|]).
  now apply elem_of_nil in Hin.
Qed.

(** X8 after a check and a clear. *)
Lemma registry_never_changes_witness :
  let self :=
    clear_violations
      (snd (check_sla (fun _ => "2024-01-01T00:00:00") "URLLC" bad_metrics init)) in
  reachable self /\
  get_sla self "URLLC" = Some (DEFAULT_SLAS URLLC) /\
  get_slice_config self "video" = None /\
  get_slice_config self "URLLC" = get_slice_config init "URLLC".
Proof.
  cbv zeta.
  assert (reachable (clear_violations
            (snd (check_sla (fun _ => "2024-01-01T00:00:00") "URLLC"
                    bad_metrics init)))) as Hreach.
  { apply reach_clear_violations, reach_check_sla, reach_init. }
  split; [exact Hreach|]. split; [reflexivity|]. split; [reflexivity|].
  exact (proj1 (registry_never_changes _ "URLLC" Hreach)).
Defined.

(** ** The aggregated counters *)

Section AggregateFacts.

Import Controller.

Lemma aggregate_from body : forall a b c,
  fold_left
    (fun slice_stats stat =>
       match udp_dst (stat_match stat) with
       | Some udp_dst =>
           match SLICE_CONFIG_get SLICE_CONFIG udp_dst with
           | Some config =>
               let slice_name := name config in
               Dict.alter
                 (fun c => {| bytes := bytes c + byte_count stat;
                              packets := packets c + packet_count stat |})
                 slice_name slice_stats
           | None => slice_stats
           end
       | None => slice_stats
       end)
    body [("URLLC", a); ("eMBB", b); ("mMTC", c)] =
  [("URLLC", {| bytes := bytes a + bytes (slice_total 5001 body);
                packets := packets a + packets (slice_total 5001 body) |});
   ("eMBB", {| bytes := bytes b + bytes (slice_total 5002 body);
               packets := packets b + packets (slice_total 5002 body) |});
   ("mMTC", {| bytes := bytes c + bytes (slice_total 5003 body);
               packets := packets c + packets (slice_total 5003 body) |})].
Proof.
  induction body as [|stat body IH]; intros [ab ap] [bb bp] [cb cp].
  - cbn. now rewrite !Z.add_0_r.
  - cbn [fold_left]. unfold slice_total, flows_to, sum_of in *.
    rewrite !filter_cons.
    destruct (udp_dst (stat_match stat)) as [p|] eqn:Hp.
    + unfold SLICE_CONFIG. cbn [SLICE_CONFIG_get].
      destruct (Z.eqb_spec 5001 p) as [<-|H1];
        [|destruct (Z.eqb_spec 5002 p) as [<-|H2];
          [|destruct (Z.eqb_spec 5003 p) as [<-|H3]]];
        cbn [name Dict.alter String.eqb Ascii.eqb Bool.eqb];
        rewrite IH; cbn [bytes packets];
        repeat match goal with
        | |- context [decide (?x = ?y)] =>
            destruct (decide (x = y)); try congruence
        end;
        cbn [foldr bytes packets];
        repeat first [reflexivity | lia
                     | apply (f_equal2 cons) | apply (f_equal2 pair)
                     | apply (f_equal2 Build_counters)].
    + rewrite IH. cbn [bytes packets].
      repeat match goal with
      | |- context [decide (?x = ?y)] =>
          destruct (decide (x = y)); try congruence
      end;
      try reflexivity.
Qed.

End AggregateFacts.

(** X9. The aggregation of a statistics reply gives, for each slice, the
    sum of the byte counts and the sum of the packet counts of all entries
    whose match has the UDP destination port of the slice (5001, 5002,
    5003), whatever their other match fields; entries with another port or
    without a UDP port add nothing. *)
Theorem aggregate_sums_per_slice body :
  Controller.aggregate body =
    [("URLLC", slice_total 5001 body);
     ("eMBB", slice_total 5002 body);
     ("mMTC", slice_total 5003 body)].
Proof.
  unfold Controller.aggregate. cbv zeta. rewrite aggregate_from.
  cbn [Controller.bytes Controller.packets]. reflexivity.
Qed.

(** ** The metrics table and the exported records *)

Section MetricsTableFacts.

Import Controller.





End MetricsTableFacts.



(** ** Rates that are zero *)

Section ZeroRateFacts.

(** Rounding a non-negative mantissa keeps the sign it is given. *)
Lemma binary_round_aux_sign sx mx ex lx :
  0 <= mx ->
  match binary_round_aux PyNum.prec PyNum.emax sx mx ex lx with
  | S754_zero s | S754_infinity s | S754_finite s _ _ => s = sx
  | S754_nan => False
  end.
Proof.
  intros Hm. unfold binary_round_aux.
  pose proof (shr_fexp_nonneg mx ex lx Hm) as H1.
  destruct (shr_fexp _ _ mx ex lx) as [mrs' e']. cbn [fst] in H1.
  pose proof (shr_fexp_nonneg _ e' loc_Exact
                (round_nearest_even_nonneg _ (loc_of_shr_record mrs') H1)) as H2.
  destruct (shr_fexp _ _ _ e' loc_Exact) as [mrs'' e'']. cbn [fst] in H2.
  destruct (shr_m mrs''); [reflexivity| |lia].
  destruct (e'' <=? _); reflexivity.
Qed.

Lemma of_Z_nonpos z : z <= 0 -> not_positive (PyNum.of_Z z) = true.
Proof.
  intros Hz. unfold PyNum.of_Z, binary_normalize.
  destruct z as [|p|p]; [reflexivity | lia |].
  unfold binary_round. destruct (shl_align _ _ _) as [mz ez].
  pose proof (binary_round_aux_sign true (Z.pos mz) ez loc_Exact ltac:(lia)) as H.
  destruct (binary_round_aux _ _ _ _ _ _); cbn [not_positive]; tauto.
Qed.

Lemma fmul_million_sign time_delta :
  (Float time_delta ># Int 0) = true ->
  is_nonneg_float (PyNum.fmul time_delta 1000000) = true.
Proof.
  intros Hpos. apply gtb_zero_is_nonneg in Hpos as Hnn.
  unfold PyNum.gtb in Hpos. rewrite ltb_zero_float in Hpos.
  unfold PyNum.fmul.
  change (PyNum.of_Z 1000000) with (S754_finite false 8589934592000000 (-33)).
  destruct time_delta as [s|s| |s m e]; try discriminate.
  - destruct s; [discriminate | reflexivity].
  - cbn [is_nonneg_float] in Hnn. apply negb_true_iff in Hnn. subst s.
    cbn [SFmul xorb]. apply binary_round_aux_nonneg. lia.
Qed.

Lemma SFdiv_not_positive x y :
  not_positive x = true -> is_nonneg_float y = true ->
  not_positive (SFdiv PyNum.prec PyNum.emax x y) = true.
Proof.
  intros Hx Hy.
  destruct x as [sx|sx| |sx mx ex], y as [sy|sy| |sy my ey];
    cbn [not_positive is_nonneg_float] in Hx, Hy;
    try discriminate; try reflexivity;
    try (apply negb_true_iff in Hy); subst;
    cbn [SFdiv not_positive xorb]; try reflexivity.
  unfold SFdiv_core_binary.
  set (m' := match _ with Z.pos _ => Z.shiftl _ _ | 0 => _ | Z.neg _ => 0 end).
  assert (0 <= m') as Hm'.
  { subst m'. destruct (_ - _ - _) as [|s|s]; try lia.
    apply Z.shiftl_nonneg. lia. }
  pose proof (Z.div_pos m' (Z.pos my) Hm' eq_refl) as Hq.
  unfold Z.div in Hq. destruct (Z.div_eucl m' (Z.pos my)) as [qq r].
  cbn [fst] in Hq.
  match goal with
  | |- not_positive (binary_round_aux _ _ _ ?q ?e ?l) = true =>
      pose proof (binary_round_aux_sign true q e l Hq) as H'
  end.
  destruct (binary_round_aux _ _ _ _ _ _); cbn [not_positive]; tauto.
Qed.

Lemma not_positive_max f :
  not_positive f = true -> PyNum.max (Int 0) (Float f) = Int 0.
Proof.
  intros Hf. unfold PyNum.max, PyNum.gtb. rewrite ltb_zero_float.
  destruct f as [[]|[]| |[] m e]; done.
Qed.

(** The rate is the integer 0 when no time has passed or the counter has
    not grown. *)
Lemma rate_zero current_bytes prev_bytes time_delta v :
  rate current_bytes prev_bytes time_delta = Ok v ->
  (Float time_delta ># Int 0) = false \/ current_bytes <= prev_bytes ->
  v = Int 0.
Proof.
  unfold rate. destruct (Float time_delta ># Int 0) eqn:Hpos;
    [|now intros [= <-]].
  intros Hrate [|Hle]; [discriminate|]. revert Hrate.
  cbv zeta. unfold PyNum.truediv. cbn [PyNum.to_float].
  unfold PyNum.float_of_int.
  pose proof (of_Z_nonpos ((current_bytes - prev_bytes) * 8) ltac:(lia)) as Hx.
  destruct (PyNum.is_infinity _); [done|]. cbn [mbind outcome_bind obind].
  destruct (SFeqb _ _); [done|]. cbn [mbind outcome_bind obind].
  intros [= <-]. apply not_positive_max, SFdiv_not_positive;
    [exact Hx | now apply fmul_million_sign].
Qed.

End ZeroRateFacts.

(** X11. After a statistics reply that is handled to the end, the bandwidth
    stored for a slice is the integer 0 whenever the clock reading of the
    reply is not later than the stored one (or their difference is NaN), and
    whenever the aggregated byte count of the slice is not above the stored
    one (no traffic, or a counter that was reset); the byte and packet
    counts of the reply are stored all the same. *)
Theorem stats_reply_zero_bandwidth ev self self' slice_name stats :
  Controller.flow_stats_reply_handler ev self = (Ok tt, self') ->
  (slice_name, stats) ∈ Controller.aggregate (Controller.body ev) ->
  (Float (Controller.time_delta_of self (Controller.current_time ev)) ># Int 0) = false \/
  Controller.bytes stats <=
    Controller.prev_bytes_of (Controller.prev_stats self) slice_name ->
  Dict.get (Controller.metrics self') slice_name =
    Some {| Controller.metric_bytes := Controller.bytes stats;
            Controller.metric_packets := Controller.packets stats;
            Controller.bandwidth_mbps := Int 0 |}.
Proof.
  intros Hrun Hin Hzero.
  destruct (flow_stats_reply_handler_metrics _ _ _ Hrun _ _ Hin) as (v & Hv & Hget).
  rewrite Hget. rewrite (rate_zero _ _ _ _ Hv Hzero). reflexivity.
Qed.

(** X11 on a counter reset: 1000000 bytes at second 105, 500 at second
    110. *)
Lemma stats_reply_zero_bandwidth_witness :
  let s1 := snd (Controller.flow_stats_reply_handler (urllc_reply 1 105 1000000)
                   (Controller.init (PyNum.of_Z 100))) in
  let ev := urllc_reply 1 110 500 in
  let r := Controller.flow_stats_reply_handler ev s1 in
  Controller.prev_bytes_of (Controller.prev_stats s1) "URLLC" = 1000000 /\
  fst r = Ok tt /\
  Dict.get (Controller.metrics (snd r)) "URLLC" =
    Some {| Controller.metric_bytes := 500;
            Controller.metric_packets := 100;
            Controller.bandwidth_mbps := Int 0 |}.
Proof.
  cbv zeta. split; [vm_compute; reflexivity|]. split; [vm_compute; reflexivity|].
  apply (stats_reply_zero_bandwidth (urllc_reply 1 110 500)
           (snd (Controller.flow_stats_reply_handler (urllc_reply 1 105 1000000)
                   (Controller.init (PyNum.of_Z 100))))
           (snd (Controller.flow_stats_reply_handler (urllc_reply 1 110 500)
                   (snd (Controller.flow_stats_reply_handler
                           (urllc_reply 1 105 1000000)
                           (Controller.init (PyNum.of_Z 100))))))
           "URLLC" {| Controller.bytes := 500; Controller.packets := 100 |}).
  - vm_compute. reflexivity.
  - vm_compute. apply list_elem_of_here.
  - right. vm_compute. discriminate.
Defined.

(** ** The monitoring round and the registry of datapaths *)

Section MonitorFacts.

Import Controller.


Lemma flow_stats_reply_handler_datapaths ev self :
  datapaths (snd (flow_stats_reply_handler ev self)) = datapaths self.
Proof.
  rewrite flow_stats_reply_handler_eq.
  destruct (py_for_update_metric_frame
              (time_delta_of self (current_time ev)) (aggregate (body ev)) self)
    as (Hd & _).
  destruct (py_for _ _ self) as [[[]|e] s1]; [|exact Hd].
  destruct (export_and_log_frame ev
              (set_prev_time (current_time ev)
                 (set_prev_stats (aggregate (body ev)) s1)))
    as (-> & _).
  exact Hd.
Qed.

End MonitorFacts.




(** X13. No handler removes a datapath: after any sequence of events, a
    switch id is registered exactly when it was registered before or one of
    the events is a connect of that switch, and it then holds the datapath
    of the latest such connect (the old one if there was none). *)
Theorem registry_holds_latest_connect dpid events self :
  Controller.datapaths (run events self) !! dpid =
    match last (connects dpid events) with
    | Some dp => Some dp
    | None => Controller.datapaths self !! dpid
    end.
Proof.
  revert self. induction events as [|e events IH]; intros self; [reflexivity|].
  change (run (e :: events) self) with (run events (Controller.handle e self)).
  rewrite IH. unfold connects. cbn [omap list_omap].
  fold (connects dpid events).
  destruct e as [dp|ev]; cbn [Controller.handle].
  - rewrite switch_features_handler_eq. cbn [Controller.datapaths].
    destruct (decide (Controller.id dp = dpid)) as [<-|Hne].
    + rewrite lookup_insert_eq.
      destruct (connects (Controller.id dp) events) as [|dp' l] eqn:E; [reflexivity|].
      rewrite !last_cons. now destruct (last l).
    + now rewrite lookup_insert_ne.
  - now rewrite flow_stats_reply_handler_datapaths.
Qed.

(** ** The packet-in handler *)

Section PacketInFacts.

Import PacketIn.

(** The table of a switch after the source of a frame has been learned. *)
Lemma learn_table (m : gmap Z (gmap string Z)) dpid table :
  <[dpid := table]> match m !! dpid with
                    | Some _ => m
                    | None => <[dpid := ∅]> m
                    end =
  <[dpid := table]> m.
Proof.
  destruct (m !! dpid) as [t|] eqn:E; [reflexivity|]. apply insert_insert_eq.
Qed.

Lemma learn_table_lookup (m : gmap Z (gmap string Z)) dpid :
  default ∅ (match m !! dpid with
             | Some _ => m
             | None => <[dpid := ∅]> m
             end !! dpid) = default ∅ (m !! dpid).
Proof.
  destruct (m !! dpid) as [t|] eqn:E; [now rewrite E|].
  now rewrite lookup_insert_eq.
Qed.

Lemma packet_in_handler_ignored ev self :
  get_ethernet (pkt ev) = None \/
  (exists eth, get_ethernet (pkt ev) = Some eth /\ ethertype eth = 35020) ->
  packet_in_handler ev self = self.
Proof.
  unfold packet_in_handler. intros [->|(eth & -> & ->)]; reflexivity.
Qed.

(** What a handled frame does, by the forwarding decision. *)
Lemma packet_in_handler_handled ev eth self :
  handled ev eth ->
  let dpid := Controller.id (datapath ev) in
  let table := <[src eth := in_port ev]> (default ∅ (mac_to_port self !! dpid)) in
  let out_port := default OFPP_FLOOD (table !! dst eth) in
  let output := Controller.OFPActionOutput out_port OFPCML_MAX in
  let self' := packet_in_handler ev self in
  mac_to_port self' = <[dpid := table]> (mac_to_port self) /\
  Controller.datapaths (controller self') = Controller.datapaths (controller self) /\
  Controller.metrics (controller self') = Controller.metrics (controller self) /\
  Controller.prev_stats (controller self') = Controller.prev_stats (controller self) /\
  Controller.prev_time (controller self') = Controller.prev_time (controller self) /\
  Controller.exported (controller self') = Controller.exported (controller self) /\
  exists actions new,
    packets_out self' =
      packets_out self ++
      [(datapath ev,
        {| out_buffer_id := buffer_id ev; out_in_port := in_port ev;
           out_actions := actions;
           out_data := if buffer_id ev =? OFP_NO_BUFFER then Some (data ev)
                       else None |})] /\
    Controller.sent (controller self') = Controller.sent (controller self) ++ new /\
    ((out_port = OFPP_FLOOD /\ actions = [output] /\ new = []) \/
     (out_port <> OFPP_FLOOD /\
      exists ip udp_pkt config,
        get_ipv4 (pkt ev) = Some ip /\ get_udp (pkt ev) = Some udp_pkt /\
        Controller.SLICE_CONFIG_get Controller.SLICE_CONFIG (dst_port udp_pkt) =
          Some config /\
        actions = [Controller.OFPActionSetField_ip_dscp (Controller.dscp config);
                   output] /\
        new = [(datapath ev,
                Controller.OFPFlowMod (Controller.priority config)
                  {| Controller.in_port := Some (in_port ev);
                     Controller.eth_dst := Some (dst eth);
                     Controller.eth_type := Some 2048;
                     Controller.ip_proto := Some 17;
                     Controller.udp_dst := Some (dst_port udp_pkt) |}
                  [Controller.OFPInstructionActions Controller.OFPIT_APPLY_ACTIONS
                     actions]
                  60 0 0)]) \/
     (out_port <> OFPP_FLOOD /\
      exists ip udp_pkt,
        get_ipv4 (pkt ev) = Some ip /\ get_udp (pkt ev) = Some udp_pkt /\
        Controller.SLICE_CONFIG_get Controller.SLICE_CONFIG (dst_port udp_pkt) =
          None /\
        actions = [output] /\ new = []) \/
     (out_port <> OFPP_FLOOD /\
      (get_ipv4 (pkt ev) = None \/ get_udp (pkt ev) = None) /\
      actions = [output] /\
      new = [(datapath ev,
              Controller.OFPFlowMod 1
                {| Controller.in_port := Some (in_port ev);
                   Controller.eth_dst := Some (dst eth);
                   Controller.eth_type := None;
                   Controller.ip_proto := None;
                   Controller.udp_dst := None |}
                [Controller.OFPInstructionActions Controller.OFPIT_APPLY_ACTIONS
                   actions]
                60 0 0)])).
Proof.
  intros [Heth Hlldp]. cbv zeta. unfold packet_in_handler. rewrite Heth.
  apply Z.eqb_neq in Hlldp. rewrite Hlldp. cbv zeta.
  rewrite learn_table_lookup.
  set (table := <[src eth := in_port ev]> _).
  assert (match table !! dst eth with Some port => port | None => OFPP_FLOOD end =
          default OFPP_FLOOD (table !! dst eth)) as -> by now destruct (table !! dst eth).
  set (out_port := default OFPP_FLOOD _).
  destruct (Z.eqb_spec out_port OFPP_FLOOD) as [Hflood|Hflood]; cbn [negb].
  { cbn [mac_to_port packets_out controller]. split; [apply learn_table|].
    do 5 (split; [reflexivity|]).
    do 2 eexists. split; [reflexivity|]. split; [symmetry; apply app_nil_r|].
    left. auto. }
  destruct (get_ipv4 (pkt ev)) as [ip|] eqn:Hip,
           (get_udp (pkt ev)) as [u|] eqn:Hu;
    try destruct (Controller.SLICE_CONFIG_get _ _) as [config|] eqn:Hcfg;
    cbn [mac_to_port packets_out controller];
    (split; [apply learn_table|]);
    unfold Controller._add_flow, Controller.send_msg;
    cbn [Controller.sent Controller.datapaths Controller.metrics
         Controller.prev_stats Controller.prev_time Controller.exported];
    do 5 (split; [reflexivity|]);
    do 2 eexists; (split; [reflexivity|]);
    (split; [first [reflexivity | symmetry; apply app_nil_r]|]).
  - right. left. split; [exact Hflood|]. exists ip, u, config. auto.
  - right. right. left. split; [exact Hflood|]. exists ip, u. auto.
  - right. right. right. auto.
  - right. right. right. auto.
  - right. right. right. auto.
Qed.

Lemma learned_insert m dpid table dpid' mac self :
  mac_to_port self = <[dpid := table]> m ->
  learned self dpid' mac =
    if decide (dpid' = dpid) then table !! mac
    else (m !! dpid') ≫= (fun t => t !! mac).
Proof.
  intros Hm. unfold learned. rewrite Hm.
  destruct (decide (dpid' = dpid)) as [->|Hne].
  - now rewrite lookup_insert_eq.
  - now rewrite lookup_insert_ne.
Qed.

Lemma learned_after ev eth self dpid mac :
  handled ev eth ->
  learned (packet_in_handler ev self) dpid mac =
    if decide (dpid = Controller.id (datapath ev) /\ mac = src eth)
    then Some (in_port ev)
    else learned self dpid mac.
Proof.
  intros Hev.
  destruct (packet_in_handler_handled ev eth self Hev) as [Hm _]. cbv zeta in Hm.
  rewrite (learned_insert _ _ _ dpid mac _ Hm). unfold learned.
  destruct (decide (dpid = Controller.id (datapath ev))) as [->|Hne].
  - destruct (decide (mac = src eth)) as [->|Hmac].
    + rewrite lookup_insert_eq. now rewrite decide_True.
    + rewrite lookup_insert_ne by done. rewrite decide_False by tauto.
      now destruct (mac_to_port self !! Controller.id (datapath ev)).
  - rewrite decide_False by tauto. reflexivity.
Qed.

End PacketInFacts.

Section ForwardingFacts.

Import PacketIn.

Lemma out_port_of_table ev eth self :
  default OFPP_FLOOD
    ((<[src eth := in_port ev]>
        (default ∅ (mac_to_port self !! Controller.id (datapath ev)))) !! dst eth) =
  out_port_of ev eth self.
Proof.
  unfold out_port_of, learned.
  destruct (decide (dst eth = src eth)) as [->|Hne].
  - now rewrite lookup_insert_eq.
  - rewrite lookup_insert_ne by done.
    now destruct (mac_to_port self !! Controller.id (datapath ev)).
Qed.

Lemma table_miss_well_marked : well_marked table_miss.
Proof. cbn. auto. Qed.

Lemma connect_batch_well_marked dp :
  Forall (fun entry => well_marked (snd entry)) (connect_batch dp).
Proof.
  unfold connect_batch, Controller.SLICE_CONFIG. cbn [map app].
  repeat apply Forall_cons_2; try apply Forall_nil_2; cbn [snd];
    try exact I; try (cbn; auto; fail);
    unfold classification_rule, well_marked;
    cbn [Controller.udp_dst Controller.SLICE_CONFIG_get];
    (eexists; split; [reflexivity|]);
    repeat split; apply list_elem_of_here.
Qed.

Lemma handle_core_sent e self :
  Forall (fun entry => well_marked (snd entry)) (Controller.sent self) ->
  Forall (fun entry => well_marked (snd entry))
         (Controller.sent (Controller.handle e self)).
Proof.
  intros H. destruct e as [dp|ev]; cbn [Controller.handle].
  - rewrite switch_features_handler_eq. cbn [Controller.sent].
    apply Forall_app. split; [exact H | apply connect_batch_well_marked].
  - rewrite flow_stats_reply_handler_eq.
    destruct (py_for_update_metric_frame
                (Controller.time_delta_of self (Controller.current_time ev))
                (Controller.aggregate (Controller.body ev)) self)
      as (_ & _ & _ & Hsent & _).
    destruct (py_for _ _ self) as [[[]|e] s1]; cbn [snd] in *;
      [|now rewrite Hsent].
    destruct (export_and_log_frame ev
                (Controller.set_prev_time (Controller.current_time ev)
                   (Controller.set_prev_stats
                      (Controller.aggregate (Controller.body ev)) s1)))
      as (_ & _ & _ & _ & ->).
    cbn [Controller.sent Controller.set_prev_time Controller.set_prev_stats].
    now rewrite Hsent.
Qed.

(** The flow entry a packet-in installs, if any. *)
Lemma packet_in_new_flows ev eth self :
  handled ev eth ->
  exists new,
    Controller.sent (controller (packet_in_handler ev self)) =
      Controller.sent (controller self) ++ new /\
    (length new <= 1)%nat /\
    (out_port_of ev eth self = OFPP_FLOOD -> new = []) /\
    (forall ip udp_pkt,
       get_ipv4 (pkt ev) = Some ip -> get_udp (pkt ev) = Some udp_pkt ->
       Controller.SLICE_CONFIG_get Controller.SLICE_CONFIG (dst_port udp_pkt) = None ->
       new = []) /\
    Forall (fun entry =>
              fst entry = datapath ev /\
              well_marked (snd entry) /\
              exists priority match_ instructions,
                snd entry =
                  Controller.OFPFlowMod priority match_ instructions 60 0 0 /\
                Controller.in_port match_ = Some (in_port ev) /\
                Controller.eth_dst match_ = Some (dst eth) /\
                last (flow_actions instructions) =
                  Some (Controller.OFPActionOutput (out_port_of ev eth self)
                          OFPCML_MAX))
           new.
Proof.
  intros Hev.
  destruct (packet_in_handler_handled ev eth self Hev)
    as (_ & _ & _ & _ & _ & _ & actions & new & _ & Hsent & Hcases).
  cbv zeta in Hcases. rewrite out_port_of_table in Hcases.
  exists new. split; [exact Hsent|].
  destruct Hcases as
    [(Hflood & -> & ->)
    |[(Hflood & ip & u & config & Hip & Hu & Hcfg & -> & ->)
     |[(Hflood & ip & u & Hip & Hu & Hcfg & -> & ->)
      |(Hflood & Hno & -> & ->)]]];
    cbn [length]; (split; [lia|]); (split; [tauto|]).
  - split; [reflexivity | apply Forall_nil_2].
  - split; [intros ip' u'; rewrite Hu; intros _ [= <-]; congruence|].
    apply Forall_cons_2; [|apply Forall_nil_2]. cbn [fst snd].
    split; [reflexivity|]. split.
    + unfold well_marked. cbn [Controller.udp_dst Controller.eth_type
        Controller.ip_proto]. exists config. split; [exact Hcfg|].
      repeat split. cbn. apply list_elem_of_here.
    + do 3 eexists. split; [reflexivity|]. repeat split.
  - split; [reflexivity | apply Forall_nil_2].
  - split; [intros ip u Hip Hu; destruct Hno; congruence|].
    apply Forall_cons_2; [|apply Forall_nil_2]. cbn [fst snd].
    split; [reflexivity|]. split; [cbn; auto|].
    do 3 eexists. split; [reflexivity|]. repeat split.
Qed.

Lemma packet_in_handler_sent ev self :
  Forall (fun entry => well_marked (snd entry))
         (Controller.sent (controller self)) ->
  Forall (fun entry => well_marked (snd entry))
         (Controller.sent (controller (packet_in_handler ev self))).
Proof.
  intros H.
  destruct (get_ethernet (pkt ev)) as [eth|] eqn:Heth;
    [|rewrite packet_in_handler_ignored by auto; exact H].
  destruct (Z.eq_dec (ethertype eth) 35020) as [Hl|Hl];
    [rewrite packet_in_handler_ignored by eauto; exact H|].
  destruct (packet_in_new_flows ev eth self (conj Heth Hl))
    as (new & -> & _ & _ & _ & Hnew).
  apply Forall_app. split; [exact H|].
  eapply Forall_impl; [exact Hnew|]. now intros entry (_ & Hm & _).
Qed.

Lemma reachable_well_marked self :
  reachable self ->
  Forall (fun entry => well_marked (snd entry))
         (Controller.sent (controller self)).
Proof.
  induction 1 as [now|e self _ IH]; [constructor|].
  destruct e as [e|ev]; cbn [handle controller].
  - apply handle_core_sent, IH.
  - apply packet_in_handler_sent, IH.
Qed.

Lemma handle_learned e self dpid mac :
  ~ relearns dpid mac e ->
  learned (handle e self) dpid mac = learned self dpid mac.
Proof.
  intros Hno. destruct e as [e|ev]; cbn [handle]; [reflexivity|].
  destruct (get_ethernet (pkt ev)) as [eth|] eqn:Heth;
    [|now rewrite packet_in_handler_ignored by auto].
  destruct (Z.eq_dec (ethertype eth) 35020) as [Hl|Hl];
    [now rewrite packet_in_handler_ignored by eauto|].
  rewrite (learned_after ev eth self dpid mac (conj Heth Hl)).
  apply decide_False. intros [-> ->]. apply Hno. cbn.
  split; [reflexivity|]. exists eth. split; [now split | reflexivity].
Qed.

Lemma run_events_learned events dpid mac : forall self,
  Forall (fun e => ~ relearns dpid mac e) events ->
  learned (run_events events self) dpid mac = learned self dpid mac.
Proof.
  induction events as [|e events IH]; intros self Hno; [reflexivity|].
  apply Forall_cons in Hno as [He Hno].
  change (run_events (e :: events) self) with (run_events events (handle e self)).
  rewrite IH by exact Hno. now apply handle_learned.
Qed.

End ForwardingFacts.

(** X14. A frame without an Ethernet header and an LLDP frame change
    nothing and send nothing.  Any other frame records its source address
    at its ingress port in the MAC table of its switch, and leaves every
    other entry of every table, known or unknown, as it was. *)
Theorem packet_in_learns_source ev self :
  (PacketIn.get_ethernet (PacketIn.pkt ev) = None \/
   (exists eth, PacketIn.get_ethernet (PacketIn.pkt ev) = Some eth /\
                PacketIn.ethertype eth = 35020) ->
   PacketIn.packet_in_handler ev self = self) /\
  (forall eth,
     handled ev eth ->
     forall dpid mac,
       learned (PacketIn.packet_in_handler ev self) dpid mac =
         if decide (dpid = Controller.id (PacketIn.datapath ev) /\
                    mac = PacketIn.src eth)
         then Some (PacketIn.in_port ev)
         else learned self dpid mac).
Proof.
  split; [apply packet_in_handler_ignored|].
  intros eth Hev dpid mac. now apply learned_after.
Qed.

(** X14 on the first frame a fresh controller sees. *)
Lemma packet_in_learns_source_witness :
  let self := PacketIn.init (PyNum.of_Z 0) in
  let ev := frame "00:00:00:00:00:0a" "00:00:00:00:00:0b" 1 None in
  (exists eth, handled ev eth) /\
  learned (PacketIn.packet_in_handler ev self) 1 "00:00:00:00:00:0a" = Some 1 /\
  learned (PacketIn.packet_in_handler ev self) 1 "00:00:00:00:00:0b" = None /\
  learned (PacketIn.packet_in_handler ev self) 2 "00:00:00:00:00:0a" = None.
Proof.
  cbv zeta.
  assert (handled (frame "00:00:00:00:00:0a" "00:00:00:00:00:0b" 1 None)
            {| PacketIn.ethertype := 2048; PacketIn.src := "00:00:00:00:00:0a";
               PacketIn.dst := "00:00:00:00:00:0b" |}) as Hev
    by (split; [reflexivity | discriminate]).
  split; [eexists; exact Hev|].
  pose proof (proj2 (packet_in_learns_source _ (PacketIn.init (PyNum.of_Z 0))) _ Hev)
    as H.
  repeat split; rewrite H; reflexivity.
Defined.

(** X15. A handled frame is answered by exactly one packet-out on its
    datapath, with the buffer id and the ingress port of the packet-in and
    with the data exactly when the packet was not buffered.  The packet-out
    outputs to the port the destination address was learned on for this
    switch (the ingress port itself when the frame is addressed to its own
    source), and to [OFPP_FLOOD] when the destination is unknown.  For an
    IPv4/UDP datagram to a slice port with a known destination the output
    is preceded by the DSCP marking of that slice; in every other case the
    output is the only action. *)
Theorem packet_in_sends_packet_out ev eth self :
  handled ev eth ->
  let self' := PacketIn.packet_in_handler ev self in
  let output :=
    Controller.OFPActionOutput (out_port_of ev eth self) PacketIn.OFPCML_MAX in
  exists out,
    PacketIn.packets_out self' =
      PacketIn.packets_out self ++ [(PacketIn.datapath ev, out)] /\
    PacketIn.out_buffer_id out = PacketIn.buffer_id ev /\
    PacketIn.out_in_port out = PacketIn.in_port ev /\
    PacketIn.out_data out =
      (if PacketIn.buffer_id ev =? PacketIn.OFP_NO_BUFFER
       then Some (PacketIn.data ev) else None) /\
    (forall ip udp_pkt config,
       out_port_of ev eth self <> PacketIn.OFPP_FLOOD ->
       PacketIn.get_ipv4 (PacketIn.pkt ev) = Some ip ->
       PacketIn.get_udp (PacketIn.pkt ev) = Some udp_pkt ->
       Controller.SLICE_CONFIG_get Controller.SLICE_CONFIG
         (PacketIn.dst_port udp_pkt) = Some config ->
       PacketIn.out_actions out =
         [Controller.OFPActionSetField_ip_dscp (Controller.dscp config); output]) /\
    (out_port_of ev eth self = PacketIn.OFPP_FLOOD \/
     PacketIn.get_ipv4 (PacketIn.pkt ev) = None \/
     PacketIn.get_udp (PacketIn.pkt ev) = None \/
     (exists udp_pkt,
        PacketIn.get_udp (PacketIn.pkt ev) = Some udp_pkt /\
        Controller.SLICE_CONFIG_get Controller.SLICE_CONFIG
          (PacketIn.dst_port udp_pkt) = None) ->
     PacketIn.out_actions out = [output]).
Proof.
  intros Hev. cbv zeta.
  destruct (packet_in_handler_handled ev eth self Hev)
    as (_ & _ & _ & _ & _ & _ & actions & new & Hout & _ & Hcases).
  cbv zeta in Hcases. rewrite out_port_of_table in Hcases.
  eexists. split; [exact Hout|].
  cbn [PacketIn.out_buffer_id PacketIn.out_in_port PacketIn.out_data
       PacketIn.out_actions].
  do 3 (split; [reflexivity|]).
  destruct Hcases as
    [(Hflood & -> & _)
    |[(Hflood & ip & u & config & Hip & Hu & Hcfg & -> & _)
     |[(Hflood & ip & u & Hip & Hu & Hcfg & -> & _)
      |(Hflood & Hno & -> & _)]]].
  - split; [intros ip u config Hne; contradiction | reflexivity].
  - split.
    + intros ip' u' config' _ _ Hu' Hcfg'. congruence.
    + intros [H|[H|[H|(u' & Hu' & Hcfg')]]]; congruence.
  - split; [|reflexivity].
    intros ip' u' config' _ _ Hu' Hcfg'. congruence.
  - split; [|reflexivity].
    intros ip' u' config' _ Hip' Hu' _. destruct Hno; congruence.
Qed.

(** X15 on a frame to an unknown destination: it is flooded. *)
Lemma packet_in_sends_packet_out_witness :
  let self := PacketIn.init (PyNum.of_Z 0) in
  let ev := frame "00:00:00:00:00:0a" "00:00:00:00:00:0b" 1 (Some 5001) in
  exists eth out,
    handled ev eth /\
    out_port_of ev eth self = PacketIn.OFPP_FLOOD /\
    PacketIn.packets_out (PacketIn.packet_in_handler ev self) =
      [(PacketIn.datapath ev, out)] /\
    PacketIn.out_data out = Some [] /\
    PacketIn.out_actions out =
      [Controller.OFPActionOutput PacketIn.OFPP_FLOOD PacketIn.OFPCML_MAX].
Proof.
  cbv zeta.
  assert (handled (frame "00:00:00:00:00:0a" "00:00:00:00:00:0b" 1 (Some 5001))
            {| PacketIn.ethertype := 2048; PacketIn.src := "00:00:00:00:00:0a";
               PacketIn.dst := "00:00:00:00:00:0b" |}) as Hev
    by (split; [reflexivity | discriminate]).
  destruct (packet_in_sends_packet_out _ _ (PacketIn.init (PyNum.of_Z 0)) Hev)
    as (out & Hout & _ & _ & Hdata & _ & Hactions).
  exists {| PacketIn.ethertype := 2048; PacketIn.src := "00:00:00:00:00:0a";
            PacketIn.dst := "00:00:00:00:00:0b" |}, out.
  split; [exact Hev|]. split; [reflexivity|]. split; [exact Hout|].
  split; [exact Hdata|].
  apply Hactions. left. reflexivity.
Defined.

(** X16. A handled frame installs at most one flow entry, on its own
    datapath, and changes no other attribute of the controller.  It
    installs none when the frame is flooded, and none when the frame is an
    IPv4/UDP datagram to a port that is no slice port, so every such
    datagram keeps coming to the controller.  An installed entry has idle
    timeout 60, no hard timeout, table 0, matches the ingress port and the
    destination address, and ends with the output to the chosen port. *)
Theorem packet_in_installs_at_most_one_flow ev eth self :
  handled ev eth ->
  let self' := PacketIn.packet_in_handler ev self in
  Controller.datapaths (PacketIn.controller self') =
    Controller.datapaths (PacketIn.controller self) /\
  Controller.metrics (PacketIn.controller self') =
    Controller.metrics (PacketIn.controller self) /\
  Controller.prev_stats (PacketIn.controller self') =
    Controller.prev_stats (PacketIn.controller self) /\
  Controller.prev_time (PacketIn.controller self') =
    Controller.prev_time (PacketIn.controller self) /\
  Controller.exported (PacketIn.controller self') =
    Controller.exported (PacketIn.controller self) /\
  exists new,
    Controller.sent (PacketIn.controller self') =
      Controller.sent (PacketIn.controller self) ++ new /\
    (length new <= 1)%nat /\
    (out_port_of ev eth self = PacketIn.OFPP_FLOOD -> new = []) /\
    (forall ip udp_pkt,
       PacketIn.get_ipv4 (PacketIn.pkt ev) = Some ip ->
       PacketIn.get_udp (PacketIn.pkt ev) = Some udp_pkt ->
       Controller.SLICE_CONFIG_get Controller.SLICE_CONFIG
         (PacketIn.dst_port udp_pkt) = None ->
       new = []) /\
    Forall (fun entry =>
              fst entry = PacketIn.datapath ev /\
              well_marked (snd entry) /\
              exists priority match_ instructions,
                snd entry =
                  Controller.OFPFlowMod priority match_ instructions 60 0 0 /\
                Controller.in_port match_ = Some (PacketIn.in_port ev) /\
                Controller.eth_dst match_ = Some (PacketIn.dst eth) /\
                last (flow_actions instructions) =
                  Some (Controller.OFPActionOutput (out_port_of ev eth self)
                          PacketIn.OFPCML_MAX))
           new.
Proof.
  intros Hev. cbv zeta.
  destruct (packet_in_handler_handled ev eth self Hev)
    as (_ & H1 & H2 & H3 & H4 & H5 & _).
  do 5 (split; [assumption|]).
  now apply packet_in_new_flows.
Qed.

(** X16 on a UDP datagram to port 9999 between two known hosts: no flow
    entry is installed. *)
Lemma packet_in_installs_at_most_one_flow_witness :
  let s0 := PacketIn.init (PyNum.of_Z 0) in
  let s1 := PacketIn.packet_in_handler
              (frame "00:00:00:00:00:0a" "00:00:00:00:00:0b" 1 None) s0 in
  let ev := frame "00:00:00:00:00:0b" "00:00:00:00:00:0a" 2 (Some 9999) in
  exists eth,
    handled ev eth /\
    out_port_of ev eth s1 = 1 /\
    Controller.sent (PacketIn.controller (PacketIn.packet_in_handler ev s1)) =
      Controller.sent (PacketIn.controller s1).
Proof.
  cbv zeta.
  set (s1 := PacketIn.packet_in_handler _ _).
  assert (handled (frame "00:00:00:00:00:0b" "00:00:00:00:00:0a" 2 (Some 9999))
            {| PacketIn.ethertype := 2048; PacketIn.src := "00:00:00:00:00:0b";
               PacketIn.dst := "00:00:00:00:00:0a" |}) as Hev
    by (split; [reflexivity | discriminate]).
  eexists. split; [exact Hev|]. split; [reflexivity|].
  destruct (packet_in_installs_at_most_one_flow _ _ s1 Hev)
    as (_ & _ & _ & _ & _ & new & Hsent & _ & _ & Hnone & _).
  rewrite Hsent, (Hnone _ _ eq_refl eq_refl eq_refl). apply app_nil_r.
Defined.

(** X17. In every state the controller can reach, every flow entry it has
    sent is well marked: an entry that matches a UDP destination port
    matches a slice port on IPv4/UDP, has the priority of that slice (10 or
    more) and sets the DSCP value of that slice; an entry that matches no
    UDP port has priority 0 or 1, below every slice entry. *)
Theorem sent_flows_are_well_marked self :
  PacketIn.reachable self ->
  Forall (fun entry => well_marked (snd entry))
         (Controller.sent (PacketIn.controller self)) /\
  (forall port config,
     Controller.SLICE_CONFIG_get Controller.SLICE_CONFIG port = Some config ->
     10 <= Controller.priority config).
Proof.
  intros Hreach. split; [now apply reachable_well_marked|].
  intros port config. unfold Controller.SLICE_CONFIG.
  cbn [Controller.SLICE_CONFIG_get].
  repeat destruct (_ =? port); intros [= <-]; cbn; lia.
Qed.

(** X17 after a connect and two frames, the second of which installs a
    slice flow. *)
Lemma sent_flows_are_well_marked_witness :
  let self :=
    run_events
      [PacketIn.Core (Controller.SwitchFeatures {| Controller.id := 1 |});
       PacketIn.PacketIn (frame "00:00:00:00:00:0a" "00:00:00:00:00:0b" 1 None);
       PacketIn.PacketIn (frame "00:00:00:00:00:0b" "00:00:00:00:00:0a" 2 (Some 5001))]
      (PacketIn.init (PyNum.of_Z 0)) in
  PacketIn.reachable self /\
  length (Controller.sent (PacketIn.controller self)) = 8%nat /\
  Forall (fun entry => well_marked (snd entry))
         (Controller.sent (PacketIn.controller self)).
Proof.
  cbv zeta. set (self := run_events _ _).
  assert (PacketIn.reachable self) as Hreach.
  { subst self. unfold run_events. cbn [fold_left]. repeat constructor. }
  split; [exact Hreach|]. split; [reflexivity|].
  exact (proj1 (sent_flows_are_well_marked self Hreach)).
Defined.

(** X18. Learning and forwarding compose: once a frame from an address has
    been handled on a switch, and whatever events follow that do not learn
    that address on that switch again, a frame of the same switch
    addressed to it (from another address) is sent out on the port the
    first frame came in on, not flooded. *)
Theorem learned_address_is_forwarded ev1 eth1 events ev2 eth2 self :
  handled ev1 eth1 ->
  handled ev2 eth2 ->
  Controller.id (PacketIn.datapath ev2) = Controller.id (PacketIn.datapath ev1) ->
  PacketIn.dst eth2 = PacketIn.src eth1 ->
  PacketIn.src eth2 <> PacketIn.src eth1 ->
  Forall (fun e => ~ relearns (Controller.id (PacketIn.datapath ev1))
                      (PacketIn.src eth1) e) events ->
  let s1 := PacketIn.packet_in_handler ev1 self in
  let s2 := run_events events s1 in
  let s3 := PacketIn.packet_in_handler ev2 s2 in
  learned s2 (Controller.id (PacketIn.datapath ev1)) (PacketIn.src eth1) =
    Some (PacketIn.in_port ev1) /\
  exists out,
    PacketIn.packets_out s3 =
      PacketIn.packets_out s2 ++ [(PacketIn.datapath ev2, out)] /\
    last (PacketIn.out_actions out) =
      Some (Controller.OFPActionOutput (PacketIn.in_port ev1) PacketIn.OFPCML_MAX).
Proof.
  intros Hev1 Hev2 Hdp Hdst Hsrc Hno. cbv zeta.
  assert (learned (run_events events (PacketIn.packet_in_handler ev1 self))
            (Controller.id (PacketIn.datapath ev1)) (PacketIn.src eth1) =
          Some (PacketIn.in_port ev1)) as Hlearned.
  { rewrite run_events_learned by exact Hno.
    rewrite (learned_after ev1 eth1 self _ _ Hev1). now apply decide_True. }
  split; [exact Hlearned|].
  destruct (packet_in_handler_handled ev2 eth2
              (run_events events (PacketIn.packet_in_handler ev1 self)) Hev2)
    as (_ & _ & _ & _ & _ & _ & actions & new & Hout & _ & Hcases).
  cbv zeta in Hcases. rewrite out_port_of_table in Hcases.
  assert (out_port_of ev2 eth2
            (run_events events (PacketIn.packet_in_handler ev1 self)) =
          PacketIn.in_port ev1) as Hport.
  { unfold out_port_of. rewrite decide_False by congruence.
    now rewrite Hdp, Hdst, Hlearned. }
  rewrite Hport in Hcases.
  eexists. split; [exact Hout|]. cbn [PacketIn.out_actions].
  destruct Hcases as
    [(_ & -> & _)
    |[(_ & ip & u & config & _ & _ & _ & -> & _)
     |[(_ & _ & _ & _ & _ & _ & -> & _)
      |(_ & _ & -> & _)]]]; reflexivity.
Qed.

(** X18 for two hosts and a connect in between. *)
Lemma learned_address_is_forwarded_witness :
  let ev1 := frame "00:00:00:00:00:0a" "00:00:00:00:00:0b" 1 None in
  let ev2 := frame "00:00:00:00:00:0b" "00:00:00:00:00:0a" 2 (Some 5001) in
  let events := [PacketIn.Core (Controller.SwitchFeatures {| Controller.id := 1 |})] in
  let s2 := run_events events
              (PacketIn.packet_in_handler ev1 (PacketIn.init (PyNum.of_Z 0))) in
  let s3 := PacketIn.packet_in_handler ev2 s2 in
  exists out,
    PacketIn.packets_out s3 =
      PacketIn.packets_out s2 ++ [(PacketIn.datapath ev2, out)] /\
    last (PacketIn.out_actions out) =
      Some (Controller.OFPActionOutput 1 PacketIn.OFPCML_MAX).
Proof.
  cbv zeta.
  refine (proj2 (learned_address_is_forwarded
            (frame "00:00:00:00:00:0a" "00:00:00:00:00:0b" 1 None)
            {| PacketIn.ethertype := 2048; PacketIn.src := "00:00:00:00:00:0a";
               PacketIn.dst := "00:00:00:00:00:0b" |}
            [PacketIn.Core (Controller.SwitchFeatures {| Controller.id := 1 |})]
            (frame "00:00:00:00:00:0b" "00:00:00:00:00:0a" 2 (Some 5001))
            {| PacketIn.ethertype := 2048; PacketIn.src := "00:00:00:00:00:0b";
               PacketIn.dst := "00:00:00:00:00:0a" |}
            (PacketIn.init (PyNum.of_Z 0)) _ _ _ _ _ _)).
  - split; [reflexivity | discriminate].
  - split; [reflexivity | discriminate].
  - reflexivity.
  - reflexivity.
  - discriminate.
  - repeat constructor. intros [].
Defined.

(** ** One poll of the collector *)

Section PollFacts.

Import MetricsCollector.

Variable now : nat -> string.

Lemma py_for_app {S A} (f : A -> Py S unit) l1 l2 s s' :
  py_for f (l1 ++ l2) s = (Ok tt, s') ->
  exists s1, py_for f l1 s = (Ok tt, s1) /\ py_for f l2 s1 = (Ok tt, s').
Proof.
  revert s. induction l1 as [|x l1 IH]; intros s; cbn [app py_for].
  - intros H. exists s. split; [reflexivity | exact H].
  - unfold mbind, Py_bind, py_bind. destruct (f x s) as [[[]|e] s0]; [|done].
    apply IH.
Qed.

Lemma slice_of_flow_cases flow :
  match slice_of_flow flow with
  | Some slice_name =>
      exists p, udp_dst flow = Some p /\
                (if p =? 0 then None else PORT_TO_SLICE p) = Some slice_name
  | None =>
      match udp_dst flow with
      | Some p => (if p =? 0 then None else PORT_TO_SLICE p) = None
      | None => True
      end
  end.
Proof.
  unfold slice_of_flow. destruct (udp_dst flow) as [p|]; [|exact I].
  destruct (if p =? 0 then None else PORT_TO_SLICE p) eqn:E; eauto.
Qed.

(** What one completed pass over the flow entries leaves behind. *)
Lemma py_for_collect_flow_spec time_delta flows : forall self self',
  py_for (collect_flow now time_delta) flows self = (Ok tt, self') ->
  prev_time self' = prev_time self /\
  (forall name,
     prev_flow_stats self' !! name =
       match last (slice_flows name flows) with
       | Some flow => Some (sample_of flow)
       | None => prev_flow_stats self !! name
       end) /\
  exists ms,
    flow_metrics self' = flow_metrics self ++ ms /\
    slice_name <$> ms = omap slice_of_flow flows.
Proof.
  induction flows as [|flow flows IH]; intros self self'.
  - cbn. intros [= <-]. split; [reflexivity|]. split; [reflexivity|].
    exists []. now rewrite app_nil_r.
  - cbn [py_for]. unfold mbind, Py_bind, py_bind.
    pose proof (slice_of_flow_cases flow) as Hcase.
    cbn [omap list_omap].
    destruct (slice_of_flow flow) as [n|] eqn:Hn.
    + destruct Hcase as (p & Hp & Hs).
      rewrite (collect_flow_eq now _ _ _ _ _ Hp Hs).
      destruct (rate _ _ _) as [v|e]; [|done].
      intros Hrun. destruct (IH _ _ Hrun) as (Ht & Hprev & ms & Hms & Hnames).
      cbn [prev_time prev_flow_stats flow_metrics] in *.
      split; [exact Ht|]. split.
      * intros name. rewrite Hprev. unfold slice_flows at 2.
        rewrite filter_cons, Hn. fold (slice_flows name flows).
        destruct (decide (Some n = Some name)) as [[= ->]|Hne].
        -- rewrite last_cons.
           destruct (last (slice_flows name flows)); [reflexivity|].
           now rewrite lookup_insert_eq.
        -- destruct (last (slice_flows name flows)); [reflexivity|].
           rewrite lookup_insert_ne by congruence. reflexivity.
      * eexists (_ :: ms). rewrite Hms, <- app_assoc. split; [reflexivity|].
        cbn [fmap list_fmap slice_name]. now rewrite <- Hnames.
    + rewrite (collect_flow_skip now _ _ _ Hcase).
      intros Hrun. destruct (IH _ _ Hrun) as (Ht & Hprev & ms & Hms & Hnames).
      split; [exact Ht|]. split; [|eauto].
      intros name. rewrite Hprev. unfold slice_flows at 2.
      rewrite filter_cons, Hn. fold (slice_flows name flows).
      now rewrite decide_False by discriminate.
Qed.

Lemma py_for_collect_flow_keeps time_delta flows : forall self self' i m,
  py_for (collect_flow now time_delta) flows self = (Ok tt, self') ->
  flow_metrics self !! i = Some m ->
  flow_metrics self' !! i = Some m.
Proof.
  intros self self' i m Hrun Hm.
  destruct (py_for_collect_flow_spec _ _ _ _ Hrun) as (_ & _ & ms & -> & _).
  now apply lookup_app_l_Some.
Qed.

Lemma collector_prev_bytes_after time_delta before self s1 name :
  py_for (collect_flow now time_delta) before self = (Ok tt, s1) ->
  collector_prev_bytes (prev_flow_stats s1) name =
  rated_against (prev_flow_stats self) name before.
Proof.
  intros Hrun.
  destruct (py_for_collect_flow_spec _ _ _ _ Hrun) as (_ & Hprev & _).
  unfold collector_prev_bytes, rated_against. rewrite Hprev.
  now destruct (last (slice_flows name before)).
Qed.

End PollFacts.

(** X19. A poll whose request fails or whose answer has a status other
    than 200 changes nothing, the stored clock reading included.  A poll
    whose loop over the flow entries completes stores the clock reading of
    the poll, appends one metric per entry of a slice port in the order of
    the answer, and keeps as the previous sample of each slice the last
    entry of that slice in the answer (the old sample if it has none): the
    entries of one slice are not added up. *)
Theorem collector_poll_keeps_last_entry now flows current_time self :
  let time_delta :=
    SFsub PyNum.prec PyNum.emax current_time (MetricsCollector.prev_time self) in
  (forall status_code data,
     status_code <> 200 ->
     MetricsCollector._collect_controller_metrics now
       (MetricsCollector.Response status_code data) current_time self = self) /\
  MetricsCollector._collect_controller_metrics now
    MetricsCollector.RequestException current_time self = self /\
  (fst (py_for (MetricsCollector.collect_flow now time_delta) flows self) = Ok tt ->
   let self' :=
     MetricsCollector._collect_controller_metrics now
       (MetricsCollector.Response 200 (Some flows)) current_time self in
   MetricsCollector.prev_time self' = current_time /\
   (forall name,
      MetricsCollector.prev_flow_stats self' !! name =
        match last (slice_flows name flows) with
        | Some flow => Some (sample_of flow)
        | None => MetricsCollector.prev_flow_stats self !! name
        end) /\
   exists ms,
     MetricsCollector.flow_metrics self' =
       MetricsCollector.flow_metrics self ++ ms /\
     MetricsCollector.slice_name <$> ms = omap slice_of_flow flows).
Proof.
  cbv zeta. split; [|split; [reflexivity|]].
  - intros status_code data Hne. unfold MetricsCollector._collect_controller_metrics.
    apply Z.eqb_neq in Hne. now rewrite Hne.
  - unfold MetricsCollector._collect_controller_metrics.
    cbn [negb Z.eqb Pos.eqb default from_option id].
    destruct (py_for _ flows self) as [[[]|e] s1] eqn:Hrun; [|discriminate].
    intros _.
    destruct (py_for_collect_flow_spec now _ _ _ _ Hrun) as (_ & Hprev & Hms).
    cbn [MetricsCollector.prev_time MetricsCollector.prev_flow_stats
         MetricsCollector.flow_metrics].
    auto.
Qed.

(** X19 on an answer with two entries of the URLLC port. *)
Lemma collector_poll_keeps_last_entry_witness :
  let now := fun _ : nat => "2024-01-01T00:00:00" in
  let flows := [port_flow 5001 1000; port_flow 5001 3000] in
  let self := MetricsCollector.init (PyNum.of_Z 100) in
  let self' :=
    MetricsCollector._collect_controller_metrics now
      (MetricsCollector.Response 200 (Some flows)) (PyNum.of_Z 101) self in
  MetricsCollector.prev_time self' = PyNum.of_Z 101 /\
  MetricsCollector.prev_flow_stats self' !! "URLLC" =
    Some {| MetricsCollector.prev_bytes := 3000;
            MetricsCollector.prev_packets := 100 |} /\
  length (MetricsCollector.flow_metrics self') = 2%nat.
Proof.
  cbv zeta.
  destruct (collector_poll_keeps_last_entry (fun _ : nat => "2024-01-01T00:00:00")
              [port_flow 5001 1000; port_flow 5001 3000] (PyNum.of_Z 101)
              (MetricsCollector.init (PyNum.of_Z 100)))
    as (_ & _ & Hpoll).
  destruct Hpoll as (Ht & Hprev & ms & Hms & Hnames); [vm_compute; reflexivity|].
  split; [exact Ht|]. split; [exact (Hprev "URLLC")|].
  rewrite Hms. apply (f_equal length) in Hnames. rewrite length_fmap in Hnames.
  rewrite length_app, Hnames. reflexivity.
Defined.

(** X20. In a poll whose loop completes, the metric of a flow entry of a
    slice carries the counters, duration and priority of the entry (0 for
    an absent key) and the rounded rate of its byte count against the byte
    count of the previous entry of the same slice in the same answer, or
    against the stored sample when it is the first: two entries of one
    slice in one answer are rated against each other, over the full time
    since the previous poll. *)
Theorem collector_rates_entry_against_previous_entry
    now before flow after slice_name current_time self :
  let flows := before ++ flow :: after in
  let time_delta :=
    SFsub PyNum.prec PyNum.emax current_time (MetricsCollector.prev_time self) in
  fst (py_for (MetricsCollector.collect_flow now time_delta) flows self) = Ok tt ->
  slice_of_flow flow = Some slice_name ->
  let self' :=
    MetricsCollector._collect_controller_metrics now
      (MetricsCollector.Response 200 (Some flows)) current_time self in
  let i := (length (MetricsCollector.flow_metrics self) +
            length (omap slice_of_flow before))%nat in
  exists v,
    rate (default 0 (MetricsCollector.byte_count flow))
         (rated_against (MetricsCollector.prev_flow_stats self) slice_name before)
         time_delta = Ok v /\
    MetricsCollector.flow_metrics self' !! i =
      Some {| MetricsCollector.timestamp := now i +:+ "Z";
              MetricsCollector.slice_name := slice_name;
              MetricsCollector.bandwidth_mbps := PyNum.round3 v;
              MetricsCollector.packets :=
                default 0 (MetricsCollector.packet_count flow);
              MetricsCollector.bytes :=
                default 0 (MetricsCollector.byte_count flow);
              MetricsCollector.duration_sec :=
                default 0 (MetricsCollector.flow_duration_sec flow);
              MetricsCollector.priority :=
                default 0 (MetricsCollector.flow_priority flow) |}.
Proof.
  cbv zeta. intros Hok Hslice.
  unfold MetricsCollector._collect_controller_metrics.
  cbn [negb Z.eqb Pos.eqb default from_option id].
  destruct (py_for _ (before ++ flow :: after) self) as [[[]|e] s3] eqn:Hrun;
    [|discriminate].
  cbn [MetricsCollector.flow_metrics].
  apply py_for_app in Hrun as (s1 & Hrun1 & Hrun2).
  cbn [py_for] in Hrun2. unfold mbind, Py_bind, py_bind in Hrun2.
  pose proof (slice_of_flow_cases flow) as Hcase. rewrite Hslice in Hcase.
  destruct Hcase as (p & Hp & Hs).
  rewrite (collect_flow_eq now _ _ _ _ _ Hp Hs) in Hrun2.
  rewrite (collector_prev_bytes_after now _ _ _ _ _ Hrun1) in Hrun2.
  destruct (py_for_collect_flow_spec now _ _ _ _ Hrun1) as (_ & _ & ms & Hms & Hnames).
  destruct (rate _ _ _) as [v|e]; [|discriminate].
  exists v. split; [reflexivity|].
  apply (f_equal length) in Hnames. rewrite length_fmap in Hnames.
  rewrite <- Hnames.
  assert (length (MetricsCollector.flow_metrics self) + length ms =
          length (MetricsCollector.flow_metrics s1))%nat as ->
    by now rewrite Hms, length_app.
  eapply (py_for_collect_flow_keeps now _ _ _ _ _ _ Hrun2).
  cbn [MetricsCollector.flow_metrics].
  rewrite lookup_app_r by lia. now rewrite Nat.sub_diag.
Qed.

(** X20 on an answer with two entries of the URLLC port, one second after
    the start: the second entry, 3000 bytes, is rated against the 1000 bytes
    of the first. *)
Lemma collector_rates_entry_against_previous_entry_witness :
  let now := fun _ : nat => "2024-01-01T00:00:00" in
  let self := MetricsCollector.init (PyNum.of_Z 100) in
  let self' :=
    MetricsCollector._collect_controller_metrics now
      (MetricsCollector.Response 200
         (Some ([port_flow 5001 1000] ++ port_flow 5001 3000 :: [])))
      (PyNum.of_Z 101) self in
  exists v,
    rate 3000 1000 (PyNum.of_Z 1) = Ok v /\
    MetricsCollector.bandwidth_mbps <$> MetricsCollector.flow_metrics self' !! 1%nat =
      Some (PyNum.round3 v).
Proof.
  cbv zeta.
  destruct (collector_rates_entry_against_previous_entry
              (fun _ : nat => "2024-01-01T00:00:00")
              [port_flow 5001 1000] (port_flow 5001 3000) [] "URLLC"
              (PyNum.of_Z 101) (MetricsCollector.init (PyNum.of_Z 100)))
    as (v & Hv & Hm); [vm_compute; reflexivity | reflexivity |].
  exists v. split; [exact Hv|].
  match type of Hm with
  | _ !! ?i = _ => change i with 1%nat in Hm
  end.
  change ([port_flow 5001 1000] ++ [port_flow 5001 3000])
    with ([port_flow 5001 1000] ++ port_flow 5001 3000 :: []).
  rewrite Hm. reflexivity.
Defined.

(** ** The collector's SLA check against the manager's *)

Section CanonicalCompare.

(** Comparing a binary64 value with an integer that a normal double holds
    exactly is comparing it with that double. *)
Lemma Z_compare_float_canonical c mz ez f :
  valid_binary PyNum.prec PyNum.emax f = true ->
  2 ^ 52 <= Z.pos mz < 2 ^ 53 ->
  -1074 <= ez <= 0 ->
  c * 2 ^ (- ez) = Z.pos mz ->
  CompOpp <$> PyNum.Z_compare_float c f = SFcompare f (S754_finite false mz ez).
Proof.
  intros Hvalid Hmz Hez Hc.
  assert (0 < 2 ^ (- ez)) as Hpow by (apply Z.pow_pos_nonneg; lia).
  assert (0 < c) as Hcpos by nia.
  destruct f as [s|s| |s m e]; cbn [PyNum.Z_compare_float SFcompare fmap
    option_fmap option_map].
  - f_equal. destruct (Z.compare_spec c 0); try lia. reflexivity.
  - now destruct s.
  - reflexivity.
  - destruct s.
    + destruct (Z.leb_spec 0 e); cbn [fmap option_fmap option_map]; f_equal.
      * assert (Z.neg m * 2 ^ e < 0) as Hv
          by (apply Z.mul_neg_pos; [lia | apply Z.pow_pos_nonneg; lia]).
        destruct (Z.compare_spec c (Z.neg m * 2 ^ e)); try lia. reflexivity.
      * assert (0 < c * 2 ^ (- e)) as Hv
          by (apply Z.mul_pos_pos; [lia | apply Z.pow_pos_nonneg; lia]).
        destruct (Z.compare_spec (c * 2 ^ (- e)) (Z.neg m)); try lia. reflexivity.
    + cbn [valid_binary] in Hvalid. unfold bounded, canonical_mantissa in Hvalid.
      apply andb_true_iff in Hvalid as [Hcan _]. apply Z.eqb_eq in Hcan.
      rewrite fexp_unfold in Hcan.
      pose proof (digits2_pos_bounds m) as Hd.
      set (d := Z.pos (digits2_pos m)) in *.
      assert (0 < d) as Hdpos by (subst d; lia).
      assert (d <= 53) as Hd53 by lia.
      assert (2 ^ d <= 2 ^ 53) as Hpd by (apply Z.pow_le_mono_r; lia).
      change (PosDef.Pos.compare_cont Eq m mz) with (Pos.compare m mz).
      destruct (Z.compare_spec e ez) as [Heq|Hlt|Hgt].
      * subst e. rewrite Pos2Z.inj_compare, (Z.compare_antisym (Z.pos mz) (Z.pos m)).
        destruct (Z.leb_spec 0 ez); cbn [fmap option_fmap option_map]; do 2 f_equal.
        -- assert (ez = 0) as -> by lia. change (2 ^ (- 0)) with 1 in Hc.
           change (2 ^ 0) with 1. f_equal; lia.
        -- now rewrite Hc.
      * assert (e < 0) as Hneg by lia.
        destruct (Z.leb_spec 0 e); [lia|]. cbn [fmap option_fmap option_map]. f_equal.
        assert (2 ^ (- e) = 2 ^ (- ez) * 2 ^ (ez - e)) as Hsplit.
        { rewrite <- Z.pow_add_r by lia. f_equal; lia. }
        assert (2 <= 2 ^ (ez - e)) as H2.
        { change 2 with (2 ^ 1) at 1. apply Z.pow_le_mono_r; lia. }
        rewrite Hsplit, Z.mul_assoc, Hc.
        assert (2 ^ 52 * 2 <= Z.pos mz * 2 ^ (ez - e)) as Hbig
          by (apply Z.mul_le_mono_nonneg; lia).
        destruct (Z.compare_spec (Z.pos mz * 2 ^ (ez - e)) (Z.pos m)); try lia.
        reflexivity.
      * assert (d = 53) as Hd' by lia. rewrite Hd' in Hd.
        change (2 ^ (53 - 1)) with (2 ^ 52) in Hd.
        assert (2 <= 2 ^ (e - ez)) as H2.
        { change 2 with (2 ^ 1) at 1. apply Z.pow_le_mono_r; lia. }
        destruct (Z.leb_spec 0 e); cbn [fmap option_fmap option_map]; f_equal.
        -- assert (2 ^ (e - ez) = 2 ^ e * 2 ^ (- ez)) as Hsplit.
           { rewrite <- Z.pow_add_r by lia. f_equal; lia. }
           assert (2 ^ 52 * 2 <= Z.pos m * 2 ^ (e - ez)) as Hbig
             by (apply Z.mul_le_mono_nonneg; lia).
           destruct (Z.compare_spec c (Z.pos m * 2 ^ e)) as [Hcmp|Hcmp|Hcmp];
             [exfalso|reflexivity|exfalso].
           ++ rewrite Hsplit, Z.mul_assoc, <- Hcmp, Hc in Hbig. lia.
           ++ apply (Z.mul_lt_mono_pos_r (2 ^ (- ez))) in Hcmp; [|exact Hpow].
              rewrite <- Z.mul_assoc, <- Hsplit, Hc in Hcmp. lia.
        -- assert (2 ^ (- ez) = 2 ^ (- e) * 2 ^ (e - ez)) as Hsplit.
           { rewrite <- Z.pow_add_r by lia. f_equal; lia. }
           rewrite Hsplit, Z.mul_assoc in Hc.
           set (y := c * 2 ^ (- e)) in *.
           assert (y < 2 ^ 52) as Hy.
           { destruct (Z.lt_ge_cases y (2 ^ 52)) as [Hy|Hy]; [exact Hy|].
             assert (2 ^ 52 * 2 <= y * 2 ^ (e - ez))
               by (apply Z.mul_le_mono_nonneg; lia).
             lia. }
           destruct (Z.compare_spec y (Z.pos m)); try lia. reflexivity.
Qed.

(** The integer thresholds of the collector against the float thresholds of
    the manager. *)
Lemma compare_threshold c f :
  c ∈ [1; 5; 20; 50; 100] ->
  valid_binary PyNum.prec PyNum.emax f = true ->
  PyNum.compare (Float f) (Int c) = PyNum.compare (Float f) (Float (PyNum.of_Z c)).
Proof.
  intros Hc Hvalid. cbn [PyNum.compare].
  assert (exists mz ez,
            PyNum.of_Z c = S754_finite false mz ez /\
            2 ^ 52 <= Z.pos mz < 2 ^ 53 /\ -1074 <= ez <= 0 /\
            c * 2 ^ (- ez) = Z.pos mz) as (mz & ez & -> & Hmz & Hez & Hval).
  { repeat (apply elem_of_cons in Hc as [->|Hc];
            [do 2 eexists; split; [vm_compute; reflexivity|];
             split; [vm_compute; split; first [discriminate | reflexivity]|];
             split; [vm_compute; split; first [discriminate | reflexivity]|];
             vm_compute; reflexivity|]).
    now apply elem_of_nil in Hc. }
  now apply Z_compare_float_canonical.
Qed.

Lemma ltb_threshold c f :
  c ∈ [1; 5; 20; 50; 100] ->
  valid_binary PyNum.prec PyNum.emax f = true ->
  (Float f <# Int c) = (Float f <# Float (PyNum.of_Z c)).
Proof. intros Hc Hf. unfold PyNum.ltb. now rewrite compare_threshold. Qed.

Lemma gtb_threshold c f :
  c ∈ [1; 5; 20; 50; 100] ->
  valid_binary PyNum.prec PyNum.emax f = true ->
  (Float f ># Int c) = (Float f ># Float (PyNum.of_Z c)).
Proof.
  intros Hc Hf. unfold PyNum.gtb, PyNum.ltb.
  rewrite (compare_antisym (Float f) (Int c)),
          (compare_antisym (Float f) (Float (PyNum.of_Z c))).
  now rewrite compare_threshold.
Qed.

End CanonicalCompare.

Section AgreementFacts.

Lemma measured_get metrics key :
  measured metrics ->
  key ∈ ["bandwidth_mbps"; "latency_ms"; "jitter_ms"; "packet_loss_pct"] ->
  exists f,
    metrics !! key = Some f /\
    valid_binary PyNum.prec PyNum.emax f = true /\
    metrics_get (Float <$> metrics) key = Float f /\
    CollectorSla.getitem (Float <$> metrics) key = Ok (Float f).
Proof.
  intros Hm Hkey. destruct (Hm key Hkey) as (f & Hf & Hvalid).
  exists f. unfold metrics_get, CollectorSla.getitem.
  rewrite lookup_fmap, Hf. auto.
Qed.

(** The collector's verdict is decided by the dimensions the manager finds
    breached. *)
Lemma _check_sla_breached t name metrics :
  measured metrics ->
  CollectorSla.sla_requirements name =
    Some (match t with
          | URLLC => {| CollectorSla.min_bandwidth_mbps := Int 5;
                        CollectorSla.max_latency_ms := Int 5;
                        CollectorSla.max_jitter_ms := Int 1;
                        CollectorSla.max_packet_loss_pct := Float (PyNum.decimal 1 1000) |}
          | EMBB => {| CollectorSla.min_bandwidth_mbps := Int 50;
                       CollectorSla.max_latency_ms := Int 20;
                       CollectorSla.max_jitter_ms := Int 5;
                       CollectorSla.max_packet_loss_pct := Float (PyNum.of_Z 1) |}
          | MMTC => {| CollectorSla.min_bandwidth_mbps := Int 1;
                       CollectorSla.max_latency_ms := Int 100;
                       CollectorSla.max_jitter_ms := Int 20;
                       CollectorSla.max_packet_loss_pct := Float (PyNum.of_Z 1) |}
          end) ->
  CollectorSla._check_sla name (Float <$> metrics) =
    Ok (match breached (DEFAULT_SLAS t) (Float <$> metrics) with
        | [] => "compliant"
        | _ :: _ => "violated"
        end).
Proof.
  intros Hm Hreq.
  destruct (measured_get metrics "bandwidth_mbps" Hm) as (b & _ & Hvb & Hb & Hgb);
    [repeat first [apply list_elem_of_here | apply list_elem_of_further]|].
  destruct (measured_get metrics "latency_ms" Hm) as (l & _ & Hvl & Hl & Hgl);
    [repeat first [apply list_elem_of_here | apply list_elem_of_further]|].
  destruct (measured_get metrics "jitter_ms" Hm) as (j & _ & Hvj & Hj & Hgj);
    [repeat first [apply list_elem_of_here | apply list_elem_of_further]|].
  destruct (measured_get metrics "packet_loss_pct" Hm) as (p & _ & Hvp & Hp & Hgp);
    [repeat first [apply list_elem_of_here | apply list_elem_of_further]|].
  unfold CollectorSla._check_sla, breached. rewrite Hreq, Hgb, Hgl, Hgj, Hgp, Hb, Hl, Hj, Hp.
  cbn [mbind outcome_bind obind].
  destruct t;
    cbn [DEFAULT_SLAS min_bandwidth_mbps max_latency_ms max_jitter_ms
         max_packet_loss_pct CollectorSla.min_bandwidth_mbps
         CollectorSla.max_latency_ms CollectorSla.max_jitter_ms
         CollectorSla.max_packet_loss_pct];
    rewrite (ltb_threshold _ b), (gtb_threshold _ l), (gtb_threshold _ j)
      by first [assumption
               | repeat first [apply list_elem_of_here | apply list_elem_of_further]];
    unfold PyNum.gtb;
    repeat match goal with
    | |- context [PyNum.ltb ?x ?y] => destruct (PyNum.ltb x y)
    end; reflexivity.
Qed.

End AgreementFacts.

(** X21. The collector's own SLA check gives the verdict of the manager:
    for every slice name and all four measurements present as binary64
    values, [_check_sla] returns the status value that [check_sla] returns
    on the same measurements in any state the manager can reach
    ('compliant', 'violated', or 'unknown' for a name that is no slice),
    although it compares with integer thresholds where the manager compares
    with floats. *)
Theorem collector_check_agrees_with_manager now name metrics self :
  reachable self ->
  measured metrics ->
  exists res self',
    check_sla now name (Float <$> metrics) self = (Ok res, self') /\
    CollectorSla._check_sla name (Float <$> metrics) =
      Ok (SLAStatus_value (res_status res)).
Proof.
  intros Hreach Hm. destruct (reachable_invariant self Hreach) as [Hs Hcov].
  destruct (slices self !! name) as [config|] eqn:Hcfg.
  - destruct (Hcov name) as [c Hc]; [eauto|].
    destruct (check_sla_registered_in_range now name (Float <$> metrics) self
                config c Hcfg Hc (fun vtype _ => metrics_get_float metrics _))
      as (vs & Hvs & ->).
    do 2 eexists. split; [reflexivity|]. cbn [res_status].
    destruct (sla_violations_spec _ _ _ _ _ Hvs) as (Htypes & _ & _).
    rewrite Hs in Hcfg.
    assert (exists t, sla config = DEFAULT_SLAS t /\
                      CollectorSla._check_sla name (Float <$> metrics) =
                        Ok (match breached (DEFAULT_SLAS t) (Float <$> metrics) with
                            | [] => "compliant"
                            | _ :: _ => "violated"
                            end)) as (t & Hsla & ->).
    { destruct (init_slices_lookup _ _ Hcfg) as [[-> Hsla]|[[-> Hsla]|[-> Hsla]]];
        [exists URLLC | exists EMBB | exists MMTC];
        (split; [exact Hsla|]); now apply _check_sla_breached. }
    rewrite <- Hsla, <- Htypes. now destruct vs.
  - rewrite check_sla_unregistered by exact Hcfg.
    do 2 eexists. split; [reflexivity|]. cbn [res_status SLAStatus_value].
    rewrite Hs in Hcfg. unfold CollectorSla._check_sla, CollectorSla.sla_requirements.
    destruct (String.eqb_spec name "URLLC") as [->|_]; [discriminate|].
    destruct (String.eqb_spec name "eMBB") as [->|_]; [discriminate|].
    destruct (String.eqb_spec name "mMTC") as [->|_]; [discriminate|].
    reflexivity.
Qed.

(** X21 on a compliant eMBB sample in a fresh manager. *)
Lemma collector_check_agrees_with_manager_witness :
  reachable init /\
  measured good_metrics /\
  CollectorSla._check_sla "eMBB" (Float <$> good_metrics) = Ok "compliant" /\
  exists res self',
    check_sla (fun _ => "2024-01-01T00:00:00") "eMBB" (Float <$> good_metrics) init =
      (Ok res, self') /\
    CollectorSla._check_sla "eMBB" (Float <$> good_metrics) =
      Ok (SLAStatus_value (res_status res)).
Proof.
  assert (measured good_metrics) as Hm.
  { intros key Hkey.
    repeat (apply elem_of_cons in Hkey as [->|Hkey];
            [eexists; split; reflexivity|]).
    now apply elem_of_nil in Hkey. }
  split; [apply reach_init|]. split; [exact Hm|].
  split; [vm_compute; reflexivity|].
  exact (collector_check_agrees_with_manager _ "eMBB" good_metrics init
           reach_init Hm).
Defined.

(** X22. The collector's SLA check indexes the measurements: for a slice it
    knows it raises [KeyError] for the first measurement that is missing,
    in the order bandwidth, latency, jitter, packet loss, where the manager
    reads a missing measurement as 0; for any other name it returns
    'unknown' without looking at the measurements. *)
Theorem collector_check_missing_measurement name metrics :
  (CollectorSla.sla_requirements name = None ->
   CollectorSla._check_sla name metrics = Ok "unknown") /\
  (is_Some (CollectorSla.sla_requirements name) ->
   (forall key before,
      ["bandwidth_mbps"; "latency_ms"; "jitter_ms"; "packet_loss_pct"] !! before =
        Some key ->
      metrics !! key = None ->
      (forall i k,
         (i < before)%nat ->
         ["bandwidth_mbps"; "latency_ms"; "jitter_ms"; "packet_loss_pct"] !! i =
           Some k ->
         is_Some (metrics !! k)) ->
      CollectorSla._check_sla name metrics = Raise (KeyError key)) /\
   ((forall key,
       key ∈ ["bandwidth_mbps"; "latency_ms"; "jitter_ms"; "packet_loss_pct"] ->
       is_Some (metrics !! key)) ->
    CollectorSla._check_sla name metrics = Ok "compliant" \/
    CollectorSla._check_sla name metrics = Ok "violated")).
Proof.
  unfold CollectorSla._check_sla. split; [now intros ->|].
  intros [sla ->]. split.
  - intros key before Hkey Hnone Hbefore.
    unfold CollectorSla.getitem.
    destruct before as [|[|[|[|before]]]]; cbn in Hkey; try discriminate;
      injection Hkey as <-.
    + now rewrite Hnone.
    + destruct (Hbefore 0%nat "bandwidth_mbps" ltac:(lia) eq_refl) as [b ->].
      cbn [mbind outcome_bind obind]. now rewrite Hnone.
    + destruct (Hbefore 0%nat "bandwidth_mbps" ltac:(lia) eq_refl) as [b ->].
      destruct (Hbefore 1%nat "latency_ms" ltac:(lia) eq_refl) as [l ->].
      cbn [mbind outcome_bind obind]. now rewrite Hnone.
    + destruct (Hbefore 0%nat "bandwidth_mbps" ltac:(lia) eq_refl) as [b ->].
      destruct (Hbefore 1%nat "latency_ms" ltac:(lia) eq_refl) as [l ->].
      destruct (Hbefore 2%nat "jitter_ms" ltac:(lia) eq_refl) as [j ->].
      cbn [mbind outcome_bind obind]. now rewrite Hnone.
  - intros Hall. unfold CollectorSla.getitem.
    destruct (Hall "bandwidth_mbps") as [b ->];
      [repeat first [apply list_elem_of_here | apply list_elem_of_further]|].
    destruct (Hall "latency_ms") as [l ->];
      [repeat first [apply list_elem_of_here | apply list_elem_of_further]|].
    destruct (Hall "jitter_ms") as [j ->];
      [repeat first [apply list_elem_of_here | apply list_elem_of_further]|].
    destruct (Hall "packet_loss_pct") as [p ->];
      [repeat first [apply list_elem_of_here | apply list_elem_of_further]|].
    cbn [mbind outcome_bind obind]. unfold PyNum.gtb.
    repeat match goal with
    | |- context [PyNum.ltb ?x ?y] => destruct (PyNum.ltb x y)
    end; cbn [app]; auto.
Qed.

(** X22 on a sample without a jitter measurement. *)
Lemma collector_check_missing_measurement_witness :
  let metrics : gmap string num :=
    <["bandwidth_mbps" := Float (PyNum.of_Z 60)]> (<["latency_ms" := Int 2]> ∅) in
  CollectorSla._check_sla "video" metrics = Ok "unknown" /\
  CollectorSla._check_sla "eMBB" metrics = Raise (KeyError "jitter_ms").
Proof.
  cbv zeta. split.
  - apply (proj1 (collector_check_missing_measurement "video" _)). reflexivity.
  - apply (proj1 (proj2 (collector_check_missing_measurement "eMBB" _)
                   ltac:(eexists; reflexivity)) "jitter_ms" 2%nat);
      [reflexivity | reflexivity |].
    intros [|[|i]] k Hi Hk; [| |lia]; cbn in Hk; injection Hk as <-;
      eexists; reflexivity.
Defined.

(** ** The module-level manager *)

Section ModuleFacts.

Lemma module_check_sla_eq now name metrics g :
  SliceManagerModule.check_sla now name metrics g =
    (fst (SliceManager.check_sla now name metrics (default init g)),
     Some (snd (SliceManager.check_sla now name metrics (default init g)))).
Proof.
  unfold SliceManagerModule.check_sla, SliceManagerModule.get_slice_manager.
  destruct g as [m|]; cbn [default from_option id];
    now destruct (SliceManager.check_sla now name metrics _).
Qed.

Lemma manager_checks_reachable calls : forall self,
  reachable self -> reachable (manager_checks calls self).
Proof.
  induction calls as [|[[now name] metrics] calls IH]; intros self Hreach;
    [exact Hreach|].
  apply IH. now apply reach_check_sla.
Qed.

End ModuleFacts.

(** X23. The module-level functions share one manager: the first call
    constructs it, every later call uses the same object.  After any
    sequence of module-level [check_sla] calls the global holds the state
    that one [SliceManager] reaches under the same checks, each call
    returning what the method returns on that manager; the module-level
    [get_slice_config] sets the global without changing the manager and
    returns the dictionary of the registered configuration, [None] for an
    unknown name. *)
Theorem module_functions_share_one_manager calls now name metrics g :
  (calls <> [] \/ is_Some g ->
   module_checks calls g = Some (manager_checks calls (default init g))) /\
  (g = None \/ (exists self, g = Some self /\ reachable self) ->
   reachable (manager_checks calls (default init g))) /\
  (forall manager,
     SliceManagerModule.check_sla now name metrics (Some manager) =
       (fst (SliceManager.check_sla now name metrics manager),
        Some (snd (SliceManager.check_sla now name metrics manager))) /\
     SliceManagerModule.get_slice_config name (Some manager) =
       (SliceManagerModule.to_dict <$> get_slice_config manager name,
        Some manager)) /\
  SliceManagerModule.check_sla now name metrics None =
    (fst (SliceManager.check_sla now name metrics init),
     Some (snd (SliceManager.check_sla now name metrics init))) /\
  SliceManagerModule.get_slice_config name None =
    (SliceManagerModule.to_dict <$> get_slice_config init name, Some init).
Proof.
  split; [|split; [|split; [|split]]].
  - revert g. induction calls as [|[[now' name'] metrics'] calls IH]; intros g Hg.
    + destruct Hg as [Hg|[self ->]]; [now contradiction Hg | reflexivity].
    + cbn [module_checks manager_checks fold_left].
      rewrite module_check_sla_eq. cbn [snd].
      apply (IH (Some _)). right. eauto.
  - intros Hg. apply manager_checks_reachable.
    destruct Hg as [->|(self & -> & Hself)]; [apply reach_init | exact Hself].
  - intros manager. split; [apply module_check_sla_eq|].
    unfold SliceManagerModule.get_slice_config, get_slice_config.
    cbn [SliceManagerModule.get_slice_manager].
    now destruct (slices _ !! name).
  - apply module_check_sla_eq.
  - unfold SliceManagerModule.get_slice_config, get_slice_config.
    cbn [SliceManagerModule.get_slice_manager].
    now destruct (slices _ !! name).
Qed.

(** X23 on two module-level checks from an unset global: the violations of
    both are in the one ledger. *)
Lemma module_functions_share_one_manager_witness :
  module_checks
    [(fun _ : nat => "2024-01-01T00:00:00", "URLLC", bad_metrics);
     (fun _ : nat => "2024-01-01T00:00:00", "URLLC", bad_metrics)] None =
    Some (manager_checks
            [(fun _ : nat => "2024-01-01T00:00:00", "URLLC", bad_metrics);
             (fun _ : nat => "2024-01-01T00:00:00", "URLLC", bad_metrics)]
            (default init None)) /\
  reachable (manager_checks
               [(fun _ : nat => "2024-01-01T00:00:00", "URLLC", bad_metrics);
                (fun _ : nat => "2024-01-01T00:00:00", "URLLC", bad_metrics)]
               (default init None)) /\
  length (violations
            (manager_checks
               [(fun _ : nat => "2024-01-01T00:00:00", "URLLC", bad_metrics);
                (fun _ : nat => "2024-01-01T00:00:00", "URLLC", bad_metrics)]
               (default init None))) = 6%nat.
Proof.
  pose proof (module_functions_share_one_manager
                [(fun _ : nat => "2024-01-01T00:00:00", "URLLC", bad_metrics);
                 (fun _ : nat => "2024-01-01T00:00:00", "URLLC", bad_metrics)]
                (fun _ : nat => "2024-01-01T00:00:00") "eMBB" bad_metrics None)
    as H.
  assert ([(fun _ : nat => "2024-01-01T00:00:00", "URLLC", bad_metrics);
           (fun _ : nat => "2024-01-01T00:00:00", "URLLC", bad_metrics)] <>
          @nil ((nat -> string) * string * gmap string num)) as Hne.
  { intros E. apply (f_equal length) in E. cbn [length] in E. inversion E. }
  destruct H as (Hrun & Hreach & _).
  split; [exact (Hrun (or_introl Hne))|].
  split; [exact (Hreach (or_introl eq_refl))|].
  vm_compute. reflexivity.
Defined.
